(** * Document scoring and creditworthiness aggregation

    A shallow embedding of the scoring core of the repository
    (generate_dataset.py, services/ml_model_service.py,
    services/scoring_service.py, train_model.py,
    services/document_scorer.py, services/document_analyzer.py and
    services/document_parser.py) together with the properties stated
    about it.

    Python floats and ints are embedded as exact rationals [Q]; rounding
    error, NaN and infinities of IEEE arithmetic are outside the model.
    Python dictionaries are finite maps keyed by strings. *)

From stdpp Require Import gmap strings pretty.
From Stdlib Require Import QArith Qround Qabs Lqa ZArith Lia.

Open Scope Q_scope.

(** ** Python builtins used by the scoring code *)

Module Py.

(** [min(a, b)]: the first argument is kept unless the second is
    strictly smaller. *)
Definition min (a b : Q) : Q := if Qlt_le_dec b a then b else a.

(** [max(a, b)]: the first argument is kept unless the second is
    strictly larger. *)
Definition max (a b : Q) : Q := if Qlt_le_dec a b then b else a.

(** Boolean tests [a < b], [a <= b], [a > b], [a >= b]. *)
Definition lt (a b : Q) : bool := if Qlt_le_dec a b then true else false.
Definition le (a b : Q) : bool := if Qlt_le_dec b a then false else true.
Definition gt (a b : Q) : bool := lt b a.
Definition ge (a b : Q) : bool := le b a.

(** Rounding of a rational to the nearest integer, ties to even. *)
Definition round_half_even (q : Q) : Z :=
  let f := Qfloor q in
  let r := q - inject_Z f in
  if Qlt_le_dec r (1 # 2) then f
  else if Qlt_le_dec (1 # 2) r then (f + 1)%Z
  else if Z.even f then f else (f + 1)%Z.

(** [round(q, ndigits)] for a non-negative number of digits. *)
Definition round (q : Q) (ndigits : nat) : Q :=
  let scale := inject_Z (10 ^ Z.of_nat ndigits) in
  inject_Z (round_half_even (q * scale)) / scale.

(** [abs(x)]. *)
Definition abs (x : Q) : Q := if Qlt_le_dec x 0 then - x else x.

(** A [str] is held as its UTF-8 encoding, one [ascii] per byte.  [len(s)]
    counts code points: every byte except the continuation bytes
    [10xxxxxx] starts one. *)
Definition is_continuation (c : Ascii.ascii) : bool :=
  match c with
  | Ascii.Ascii _ _ _ _ _ _ b6 b7 => b7 && negb b6
  end.

Fixpoint str_len (s : string) : nat :=
  match s with
  | EmptyString => 0%nat
  | String c s' =>
      ((if is_continuation c then 0 else 1) + str_len s')%nat
  end.

(** [sum(l)] and [float(len(l))]. *)
Definition sum (l : list Q) : Q := foldr Qplus 0 l.
Definition len {A} (l : list A) : Q := inject_Z (Z.of_nat (length l)).

(** [max(l)] and [min(l)] of a list; [None] stands for the
    [ValueError] raised on an empty sequence. *)
Definition max_list (l : list Q) : option Q :=
  match l with
  | [] => None
  | x :: t => Some (foldl max x t)
  end.
Definition min_list (l : list Q) : option Q :=
  match l with
  | [] => None
  | x :: t => Some (foldl min x t)
  end.

(** A typed feature value: a boolean or a number (float or int). *)
Inductive fval := FBool (b : bool) | FNum (q : Q).

(** Truth value of a feature ([if x:], [not x]). *)
Definition truthy (v : fval) : bool :=
  match v with
  | FBool b => b
  | FNum q => negb (Qeq_bool q 0)
  end.

(** Numeric value of a feature; [True] is 1 and [False] is 0. *)
Definition num (v : fval) : Q :=
  match v with
  | FBool b => if b then 1 else 0
  | FNum q => q
  end.

(** [d.get(key, dflt)]. *)
Definition get (d : gmap string fval) (key : string) (dflt : fval) : fval :=
  default dflt (d !! key).

End Py.

Import Py.

(** A feature dictionary of one document, as received by the scorers. *)
Abbreviation Features := (gmap string fval).

(** ** generate_dataset.py: the ground-truth labelling rules *)

Module GenerateDataset.

(** The features drawn for one CIN sample. *)
Record CinFeatures := {
  is_expired : bool;
  ocr_confidence : Q;
  image_quality : Q;
  has_photo : bool;
  text_legible : bool;
  correct_format : bool
}.

(** Status rule of [generate_cin_data]. *)
Definition cin_status (f : CinFeatures) : string :=
  if is_expired f || lt (ocr_confidence f) 0.5 || negb (has_photo f)
     || negb (text_legible f)
  then "INVALID"
  else if lt (ocr_confidence f) 0.65 || lt (image_quality f) 0.6
          || negb (correct_format f)
  then "SUSPICIOUS"
  else "VALID".

(** Score rule of [generate_cin_data]. *)
Definition cin_score (f : CinFeatures) : Q :=
  ocr_confidence f * 40 + image_quality f * 30
  + (if negb (is_expired f) then 1 else 0) * 20
  + (if has_photo f then 1 else 0) * 5
  + (if text_legible f then 1 else 0) * 5.

(** One labelled CIN row: the features with rounded confidence and
    quality, the status and the score rounded to two decimals. *)
Record CinRow := {
  cin_features : CinFeatures;
  cin_row_status : string;
  cin_row_score : Q
}.

(** The draws of one loop iteration of [generate_cin_data]: the expiry
    flag (from the drawn issue date) and the raw random numbers. *)
Definition generate_cin_row (expired : bool) (conf_draw quality_draw : Q)
    (photo legible format : bool) : CinRow :=
  let ocr_confidence := max 0.3 (min 1.0 conf_draw) in
  let image_quality := max 0.3 (min 1.0 quality_draw) in
  let f := {| is_expired := expired; ocr_confidence := ocr_confidence;
              image_quality := image_quality; has_photo := photo;
              text_legible := legible; correct_format := format |} in
  {| cin_features :=
       {| is_expired := expired;
          ocr_confidence := round ocr_confidence 3;
          image_quality := round image_quality 3;
          has_photo := photo; text_legible := legible;
          correct_format := format |};
     cin_row_status := cin_status f;
     cin_row_score := round (cin_score f) 2 |}.

(** The features of one pay slip sample that enter the label. *)
Record PaySlipFeatures := {
  net_salary : Q;
  has_company_stamp : bool;
  amounts_match : bool;
  has_required_fields : bool;
  salary_consistency : Q;
  months_ago : Z
}.

(** Status rule of [generate_payslip_data]. *)
Definition payslip_status (f : PaySlipFeatures) : string :=
  if negb (amounts_match f) || negb (has_required_fields f)
  then "INVALID"
  else if negb (has_company_stamp f) || lt (salary_consistency f) 0.6
  then "SUSPICIOUS"
  else if (3 <? months_ago f)%Z
  then "INCOMPLETE"
  else "VALID".

(** Score rule of [generate_payslip_data]; booleans count as 0 or 1. *)
Definition payslip_score (f : PaySlipFeatures) : Q :=
  let income_score := min 100 (net_salary f / 300) in
  let quality_score :=
    num (FBool (has_company_stamp f)) * 20
    + num (FBool (amounts_match f)) * 30
    + num (FBool (has_required_fields f)) * 30
    + salary_consistency f * 20 in
  income_score * 0.6 + quality_score * 0.4.

(** [_calculate_ir_rate]. *)
Definition _calculate_ir_rate (annual_income : Q) : Q :=
  if lt annual_income 30000 then 0.0
  else if lt annual_income 50000 then 0.10
  else if lt annual_income 60000 then 0.20
  else if lt annual_income 80000 then 0.30
  else if lt annual_income 180000 then 0.34
  else 0.38.

(** One labelled pay slip row as appended to [data]. *)
Record PaySlipRow := {
  ps_gross_salary : Q;
  ps_cnss_deduction : Q;
  ps_ir_deduction : Q;
  ps_total_deductions : Q;
  ps_net_salary : Q;
  ps_has_company_stamp : bool;
  ps_amounts_match : bool;
  ps_has_required_fields : bool;
  ps_salary_consistency : Q;
  ps_months_since_issue : Z;
  ps_status : string;
  ps_score : Q
}.

(** One loop iteration of [generate_payslip_data], as a function of the
    random draws: the log-normal salary draw, the uniform draw of the
    other deductions, the month count and the three uniform or normal
    draws behind the quality flags. *)
Definition generate_payslip_row (salary_draw other_deductions : Q)
    (months_ago : Z) (stamp_draw fields_draw consistency_draw : Q)
    : PaySlipRow :=
  let base_salary := salary_draw * 100 in
  let base_salary := max 2500 (min 50000 base_salary) in
  let cnss_rate := 0.0448 in
  let ir_rate := _calculate_ir_rate base_salary in
  let cnss_deduction := base_salary * cnss_rate in
  let ir_deduction := base_salary * ir_rate in
  let total_deductions := cnss_deduction + ir_deduction + other_deductions in
  let net_salary := base_salary - total_deductions in
  let has_company_stamp := gt stamp_draw 0.1 in
  let amounts_match :=
    lt (abs (base_salary - total_deductions - net_salary)) 1 in
  let has_required_fields := gt fields_draw 0.12 in
  let salary_consistency := max 0.3 (min 1.0 consistency_draw) in
  let f := {| net_salary := net_salary;
              has_company_stamp := has_company_stamp;
              amounts_match := amounts_match;
              has_required_fields := has_required_fields;
              salary_consistency := salary_consistency;
              months_ago := months_ago |} in
  {| ps_gross_salary := round base_salary 2;
     ps_cnss_deduction := round cnss_deduction 2;
     ps_ir_deduction := round ir_deduction 2;
     ps_total_deductions := round total_deductions 2;
     ps_net_salary := round net_salary 2;
     ps_has_company_stamp := has_company_stamp;
     ps_amounts_match := amounts_match;
     ps_has_required_fields := has_required_fields;
     ps_salary_consistency := round salary_consistency 3;
     ps_months_since_issue := months_ago;
     ps_status := payslip_status f;
     ps_score := round (payslip_score f) 2 |}.

(** The features of one tax declaration sample that enter the label. *)
Record TaxFeatures := {
  taxable_income : Q;
  has_official_stamp : bool;
  calculations_correct : bool;
  all_fields_filled : bool;
  income_reasonable : bool;
  years_since_declaration : Z
}.

(** Status rule of [generate_tax_declaration_data]. *)
Definition tax_status (f : TaxFeatures) : string :=
  if negb (calculations_correct f) || negb (all_fields_filled f)
  then "INVALID"
  else if negb (has_official_stamp f) || negb (income_reasonable f)
  then "SUSPICIOUS"
  else if (2 <? years_since_declaration f)%Z
  then "INCOMPLETE"
  else "VALID".

(** Score rule of [generate_tax_declaration_data]. *)
Definition tax_score (f : TaxFeatures) : Q :=
  let income_score := min 100 (taxable_income f / 500) in
  let compliance_score :=
    num (FBool (has_official_stamp f)) * 25
    + num (FBool (calculations_correct f)) * 35
    + num (FBool (all_fields_filled f)) * 25
    + num (FBool (income_reasonable f)) * 15 in
  income_score * 0.6 + compliance_score * 0.4.

Record TaxRow := {
  tx_gross_income : Q;
  tx_deductions : Q;
  tx_taxable_income : Q;
  tx_tax_paid : Q;
  tx_has_official_stamp : bool;
  tx_calculations_correct : bool;
  tx_all_fields_filled : bool;
  tx_income_reasonable : bool;
  tx_years_since_declaration : Z;
  tx_status : string;
  tx_score : Q
}.

(** One loop iteration of [generate_tax_declaration_data] as a function of
    its draws; [years_ago] is the drawn age of the fiscal year, which is
    what [datetime.now().year - fiscal_year] gives back. *)
Definition generate_tax_row (income_draw deduction_rate : Q) (years_ago : Z)
    (stamp_draw calc_draw fields_draw : Q) : TaxRow :=
  let gross_income := income_draw * 100 in
  let gross_income := max 30000 (min 1000000 gross_income) in
  let deductions := gross_income * deduction_rate in
  let taxable_income := gross_income - deductions in
  let tax_rate := _calculate_ir_rate taxable_income in
  let tax_paid := taxable_income * tax_rate in
  let has_official_stamp := gt stamp_draw 0.08 in
  let calculations_correct := gt calc_draw 0.15 in
  let all_fields_filled := gt fields_draw 0.10 in
  let income_reasonable :=
    lt 0.6 (taxable_income / gross_income)
    && lt (taxable_income / gross_income) 0.95 in
  let f := {| taxable_income := taxable_income;
              has_official_stamp := has_official_stamp;
              calculations_correct := calculations_correct;
              all_fields_filled := all_fields_filled;
              income_reasonable := income_reasonable;
              years_since_declaration := years_ago |} in
  {| tx_gross_income := round gross_income 2;
     tx_deductions := round deductions 2;
     tx_taxable_income := round taxable_income 2;
     tx_tax_paid := round tax_paid 2;
     tx_has_official_stamp := has_official_stamp;
     tx_calculations_correct := calculations_correct;
     tx_all_fields_filled := all_fields_filled;
     tx_income_reasonable := income_reasonable;
     tx_years_since_declaration := years_ago;
     tx_status := tax_status f;
     tx_score := round (tax_score f) 2 |}.

(** The features of one bank statement sample that enter the label. *)
Record BankFeatures := {
  period_months : Z;
  closing_balance : Q;
  average_balance : Q;
  avg_monthly_income : Q;
  savings_rate : Q;
  low_balance_incidents : Z;
  has_bank_header : bool;
  balances_match : bool;
  regular_income : bool
}.

(** Status rule of [generate_bank_statement_data]. *)
Definition bank_status (f : BankFeatures) : string :=
  if negb (balances_match f) || negb (has_bank_header f)
  then "INVALID"
  else if lt (closing_balance f) 0 || (2 <? low_balance_incidents f)%Z
          || negb (regular_income f)
  then "SUSPICIOUS"
  else if (period_months f <? 3)%Z
  then "INCOMPLETE"
  else "VALID".

(** Score rule of [generate_bank_statement_data]. *)
Definition bank_score (f : BankFeatures) : Q :=
  let balance_score := min 100 (average_balance f / 100) in
  let income_score := min 100 (avg_monthly_income f / 50) in
  let stability_score :=
    num (FBool (regular_income f)) * 30
    + num (FBool (gt (savings_rate f) 0)) * 30
    + num (FBool (low_balance_incidents f =? 0)%Z) * 40 in
  balance_score * 0.2 + income_score * 0.4 + stability_score * 0.4.

Record BankRow := {
  bk_period_months : Z;
  bk_opening_balance : Q;
  bk_closing_balance : Q;
  bk_average_balance : Q;
  bk_total_credits : Q;
  bk_total_debits : Q;
  bk_avg_monthly_income : Q;
  bk_avg_monthly_expenses : Q;
  bk_savings_rate : Q;
  bk_low_balance_incidents : Z;
  bk_has_bank_header : bool;
  bk_balances_match : bool;
  bk_regular_income : bool;
  bk_status : string;
  bk_score : Q
}.

(** One loop iteration of [generate_bank_statement_data] as a function of
    its draws; [incidents_draw] is the [randint(0, period_months)] that is
    only used when the closing balance is below 500. *)
Definition generate_bank_row (period : Z)
    (opening_draw credits_draw expense_ratio header_draw regular_draw : Q)
    (incidents_draw : Z) : BankRow :=
  let period_q := inject_Z period in
  let opening_balance := opening_draw * 100 in
  let opening_balance := max 0 (min 500000 opening_balance) in
  let monthly_credits := credits_draw * 100 in
  let monthly_credits := max 1000 (min 100000 monthly_credits) in
  let total_credits := monthly_credits * period_q in
  let total_debits := total_credits * expense_ratio in
  let closing_balance := opening_balance + total_credits - total_debits in
  let closing_balance := max 0 closing_balance in
  let average_balance := (opening_balance + closing_balance) / 2 in
  let has_bank_header := gt header_draw 0.05 in
  let balances_match :=
    lt (abs ((opening_balance + total_credits - total_debits)
             - closing_balance)) 100 in
  let regular_income := gt regular_draw 0.3 in
  let avg_monthly_income := total_credits / period_q in
  let avg_monthly_expenses := total_debits / period_q in
  let savings_rate :=
    if gt avg_monthly_income 0
    then (avg_monthly_income - avg_monthly_expenses) / avg_monthly_income
    else -0.5 in
  let low_balance_incidents :=
    if lt closing_balance 500 then incidents_draw else 0%Z in
  let f := {| period_months := period;
              closing_balance := closing_balance;
              average_balance := average_balance;
              avg_monthly_income := avg_monthly_income;
              savings_rate := savings_rate;
              low_balance_incidents := low_balance_incidents;
              has_bank_header := has_bank_header;
              balances_match := balances_match;
              regular_income := regular_income |} in
  {| bk_period_months := period;
     bk_opening_balance := round opening_balance 2;
     bk_closing_balance := round closing_balance 2;
     bk_average_balance := round average_balance 2;
     bk_total_credits := round total_credits 2;
     bk_total_debits := round total_debits 2;
     bk_avg_monthly_income := round avg_monthly_income 2;
     bk_avg_monthly_expenses := round avg_monthly_expenses 2;
     bk_savings_rate := round savings_rate 3;
     bk_low_balance_incidents := low_balance_incidents;
     bk_has_bank_header := has_bank_header;
     bk_balances_match := balances_match;
     bk_regular_income := regular_income;
     bk_status := bank_status f;
     bk_score := round (bank_score f) 2 |}.

End GenerateDataset.

(** ** train_model.py: the joint classifier and regressor *)

Module TrainModel.

(** The dictionary returned by a prediction. *)
Record Prediction := {
  status : string;
  score : Q;
  confidence : Q;
  status_probabilities : list (string * Q)
}.

(** The fitted state of [DocumentAnalysisModel].  The scikit-learn
    estimators are opaque: each is taken as an arbitrary function of the
    prepared row, [None] standing for any exception it raises (an
    estimator that was never fitted, a row of the wrong width).
    [status_classes] is [label_encoders['status'].classes_]. *)
Record DocumentAnalysisModel := {
  classifier_predict : list Q -> option nat;
  classifier_predict_proba : list Q -> option (list Q);
  regressor_predict : list Q -> option Q;
  scaler_transform : list Q -> option (list Q);
  status_classes : list string;
  feature_columns : list string;
  model_trained : bool
}.

Definition prepare_features (document_type : string) : list string :=
  if String.eqb document_type "CIN" then
    ["is_expired"; "ocr_confidence"; "image_quality"; "has_photo";
     "text_legible"; "correct_format"]
  else if String.eqb document_type "PAY_SLIP" then
    ["gross_salary"; "net_salary"; "total_deductions";
     "has_company_stamp"; "amounts_match"; "has_required_fields";
     "salary_consistency"; "months_since_issue"]
  else if String.eqb document_type "TAX_DECLARATION" then
    ["gross_income"; "taxable_income"; "tax_paid"; "has_official_stamp";
     "calculations_correct"; "all_fields_filled"; "income_reasonable";
     "years_since_declaration"]
  else if String.eqb document_type "BANK_STATEMENT" then
    ["period_months"; "opening_balance"; "closing_balance";
     "average_balance"; "total_credits"; "total_debits";
     "avg_monthly_income"; "avg_monthly_expenses"; "savings_rate";
     "low_balance_incidents"; "has_bank_header"; "balances_match";
     "regular_income"]
  else [].

(** [pd.DataFrame([d])[cols]] followed by the cast of booleans to
    integers: the selected values in column order, or [None] for the
    [KeyError] of a column that the dictionary lacks. *)
Definition select_columns (d : Features) (cols : list string)
    : option (list Q) :=
  mapM (fun c => num <$> d !! c) cols.

(** [l.index(x)]; [None] is the [ValueError] of an absent element. *)
Fixpoint index (x : string) (l : list string) : option nat :=
  match l with
  | [] => None
  | y :: t => if String.eqb y x then Some O else S <$> index x t
  end.

Definition predict_document (self : DocumentAnalysisModel)
    (features_dict : Features) (document_type : string)
    : option Prediction :=
  if negb (model_trained self) then None
  else
    let feature_cols := prepare_features document_type in
    vals ← select_columns features_dict feature_cols;
    doc_type_encoded ←
      index document_type
        ["CIN"; "PAY_SLIP"; "TAX_DECLARATION"; "BANK_STATEMENT"];
    let X : gmap string Q :=
      <["doc_type_encoded" := inject_Z (Z.of_nat doc_type_encoded)]>
        (list_to_map (zip feature_cols vals)) in
    let row := (fun col => default 0 (X !! col)) <$> feature_columns self in
    X_scaled ← scaler_transform self row;
    status_encoded ← classifier_predict self X_scaled;
    status_proba ← classifier_predict_proba self X_scaled;
    status ← status_classes self !! status_encoded;
    confidence ← max_list status_proba;
    score ← regressor_predict self X_scaled;
    let score := max 0 (min 100 score) in
    Some {| status := status;
            confidence := round confidence 3;
            score := round score 2;
            status_probabilities :=
              zip (status_classes self)
                  ((fun prob => round prob 3) <$> status_proba) |}.

End TrainModel.

(** ** services/ml_model_service.py: the rule-based fallbacks *)

Module MLModelService.

Import TrainModel.

Record MLModelService := {
  model : DocumentAnalysisModel;
  model_loaded : bool
}.

(** ['VALID' if score >= 70 else 'SUSPICIOUS' if score >= 50 else
    'INVALID']. *)
Definition status_of_score (score : Q) : string :=
  if ge score 70 then "VALID"
  else if ge score 50 then "SUSPICIOUS"
  else "INVALID".

(** The common tail of the four fallbacks: the status is read off the
    score before it is clipped, the confidence is fixed. *)
Definition fallback_result (score : Q) : Prediction :=
  let status := status_of_score score in
  {| status := status;
     score := max 0 (min 100 score);
     confidence := 0.7;
     status_probabilities := [(status, 0.7)] |}.

Definition _fallback_cin_analysis (data : Features) : Prediction :=
  let score := 70 in
  let score :=
    if truthy (get data "is_expired" (FBool false))
    then score - 30 else score in
  let score :=
    if lt (num (get data "ocr_confidence" (FNum 1))) 0.7
    then score - 20 else score in
  let score :=
    if negb (truthy (get data "has_photo" (FBool true)))
    then score - 25 else score in
  fallback_result score.

Definition _fallback_payslip_analysis (data : Features) : Prediction :=
  let net_salary := num (get data "net_salary" (FNum 0)) in
  let score := min 100 (net_salary / 100) in
  let score :=
    if negb (truthy (get data "has_company_stamp" (FBool true)))
    then score - 20 else score in
  let score :=
    if negb (truthy (get data "amounts_match" (FBool true)))
    then score - 30 else score in
  fallback_result score.

Definition _fallback_tax_analysis (data : Features) : Prediction :=
  let taxable_income := num (get data "taxable_income" (FNum 0)) in
  let score := min 100 (taxable_income / 1000) in
  let score :=
    if negb (truthy (get data "has_official_stamp" (FBool true)))
    then score - 25 else score in
  let score :=
    if negb (truthy (get data "calculations_correct" (FBool true)))
    then score - 35 else score in
  fallback_result score.

Definition _fallback_bank_analysis (data : Features) : Prediction :=
  let avg_balance := num (get data "average_balance" (FNum 0)) in
  let avg_income := num (get data "avg_monthly_income" (FNum 0)) in
  let score :=
    min 100 (avg_balance / 100) * 0.3 + min 100 (avg_income / 50) * 0.7 in
  let score :=
    if negb (truthy (get data "regular_income" (FBool true)))
    then score - 20 else score in
  let score :=
    if gt (num (get data "low_balance_incidents" (FNum 0))) 2
    then score - 25 else score in
  fallback_result score.

(** [features.get(key, dflt)] for each listed key: the dictionary handed
    to the model, every expected key present. *)
Definition with_defaults (extracted_data : Features)
    (defaults : list (string * fval)) : Features :=
  list_to_map
    ((fun kd => (kd.1, get extracted_data kd.1 kd.2)) <$> defaults).

(** The shared shape of the four [predict_*_document] methods: the
    fallback when no model is loaded or when the prediction raises. *)
Definition predict_with (self : MLModelService) (features : Features)
    (document_type : string) (fallback : Prediction) : Prediction :=
  if negb (model_loaded self) then fallback
  else
    match predict_document (model self) features document_type with
    | Some prediction => prediction
    | None => fallback
    end.

Definition predict_cin_document (self : MLModelService)
    (extracted_data : Features) : Prediction :=
  predict_with self
    (with_defaults extracted_data
       [("is_expired", FBool false); ("ocr_confidence", FNum 0.8);
        ("image_quality", FNum 0.8); ("has_photo", FBool true);
        ("text_legible", FBool true); ("correct_format", FBool true)])
    "CIN" (_fallback_cin_analysis extracted_data).

Definition predict_payslip_document (self : MLModelService)
    (extracted_data : Features) : Prediction :=
  predict_with self
    (with_defaults extracted_data
       [("gross_salary", FNum 0); ("net_salary", FNum 0);
        ("total_deductions", FNum 0); ("has_company_stamp", FBool true);
        ("amounts_match", FBool true);
        ("has_required_fields", FBool true);
        ("salary_consistency", FNum 0.8);
        ("months_since_issue", FNum 0)])
    "PAY_SLIP" (_fallback_payslip_analysis extracted_data).

Definition predict_tax_document (self : MLModelService)
    (extracted_data : Features) : Prediction :=
  predict_with self
    (with_defaults extracted_data
       [("gross_income", FNum 0); ("taxable_income", FNum 0);
        ("tax_paid", FNum 0); ("has_official_stamp", FBool true);
        ("calculations_correct", FBool true);
        ("all_fields_filled", FBool true);
        ("income_reasonable", FBool true);
        ("years_since_declaration", FNum 0)])
    "TAX_DECLARATION" (_fallback_tax_analysis extracted_data).

Definition predict_bank_statement_document (self : MLModelService)
    (extracted_data : Features) : Prediction :=
  predict_with self
    (with_defaults extracted_data
       [("period_months", FNum 3); ("opening_balance", FNum 0);
        ("closing_balance", FNum 0); ("average_balance", FNum 0);
        ("total_credits", FNum 0); ("total_debits", FNum 0);
        ("avg_monthly_income", FNum 0); ("avg_monthly_expenses", FNum 0);
        ("savings_rate", FNum 0); ("low_balance_incidents", FNum 0);
        ("has_bank_header", FBool true); ("balances_match", FBool true);
        ("regular_income", FBool true)])
    "BANK_STATEMENT" (_fallback_bank_analysis extracted_data).

End MLModelService.

(** ** services/scoring_service.py: one regressor per document kind *)

Module ScoringService.

(** The loaded artefacts: per kind a regressor, a scaler and the list of
    feature columns.  The estimators are arbitrary functions of the
    prepared row, [None] standing for any exception they raise. *)
Record DocumentScoringService := {
  models : gmap string (list Q -> option Q);
  scalers : gmap string (list Q -> option (list Q));
  features : gmap string (list string)
}.

Definition _fallback_cin_score (features : Features) : Q :=
  let score := 70 in
  let score :=
    if truthy (get features "is_expired" (FBool false))
    then score - 30 else score in
  let score :=
    if lt (num (get features "ocr_confidence" (FNum 1))) 0.7
    then score - 20 else score in
  let score :=
    if negb (truthy (get features "has_photo" (FBool true)))
    then score - 25 else score in
  let score :=
    if negb (truthy (get features "text_legible" (FBool true)))
    then score - 15 else score in
  max 0 (min 100 score).

Definition _fallback_payslip_score (features : Features) : Q :=
  let net_salary := num (get features "net_salary" (FNum 0)) in
  let score := min 100 (net_salary / 100) in
  let score :=
    if negb (truthy (get features "has_company_stamp" (FBool true)))
    then score - 20 else score in
  let score :=
    if negb (truthy (get features "amounts_match" (FBool true)))
    then score - 30 else score in
  let score :=
    if gt (num (get features "months_since_issue" (FNum 0))) 3
    then score - 15 else score in
  max 0 (min 100 score).

Definition _fallback_tax_score (features : Features) : Q :=
  let taxable_income := num (get features "taxable_income" (FNum 0)) in
  let score := min 100 (taxable_income / 1000) in
  let score :=
    if negb (truthy (get features "has_official_stamp" (FBool true)))
    then score - 25 else score in
  let score :=
    if negb (truthy (get features "calculations_correct" (FBool true)))
    then score - 35 else score in
  let score :=
    if gt (num (get features "years_since_declaration" (FNum 0))) 2
    then score - 20 else score in
  max 0 (min 100 score).

Definition _fallback_bank_score (features : Features) : Q :=
  let avg_balance := num (get features "average_balance" (FNum 0)) in
  let avg_income := num (get features "avg_monthly_income" (FNum 0)) in
  let score :=
    min 100 (avg_balance / 100) * 0.3 + min 100 (avg_income / 50) * 0.7 in
  let score :=
    if negb (truthy (get features "regular_income" (FBool true)))
    then score - 20 else score in
  let score :=
    if gt (num (get features "low_balance_incidents" (FNum 0))) 2
    then score - 25 else score in
  let score :=
    if lt (num (get features "savings_rate" (FNum 0))) 0
    then score - 15 else score in
  max 0 (min 100 score).

(** The body of the [try] block shared by the four scorers: select the
    columns, scale, predict.  [None] is any exception raised on the
    way. *)
Definition model_prediction (self : DocumentScoringService)
    (doc_type : string) (feats : Features) : option Q :=
  cols ← features self !! doc_type;
  X ← TrainModel.select_columns feats cols;
  scaler ← scalers self !! doc_type;
  X_scaled ← scaler X;
  model ← models self !! doc_type;
  model X_scaled.

(** The shared shape of [score_cin], [score_payslip], [score_tax] and
    [score_bank]. *)
Definition score_with (self : DocumentScoringService) (doc_type : string)
    (feats : Features) (fallback : Q) : Q :=
  match models self !! doc_type with
  | None => fallback
  | Some _ =>
      match model_prediction self doc_type feats with
      | Some score => max 0 (min 100 score)
      | None => fallback
      end
  end.

Definition score_cin (self : DocumentScoringService) (feats : Features)
    : Q :=
  score_with self "cin" feats (_fallback_cin_score feats).

Definition score_payslip (self : DocumentScoringService)
    (feats : Features) : Q :=
  score_with self "payslip" feats (_fallback_payslip_score feats).

Definition score_tax (self : DocumentScoringService) (feats : Features)
    : Q :=
  score_with self "tax" feats (_fallback_tax_score feats).

Definition score_bank (self : DocumentScoringService) (feats : Features)
    : Q :=
  score_with self "bank" feats (_fallback_bank_score feats).

End ScoringService.

(** ** models/document_models.py *)

Module DocumentModels.

Inductive DocumentType :=
| PAY_SLIP | TAX_DECLARATION | BANK_STATEMENT | INCOME_CONSISTENCY
| LOAN_PAYMENTS.

Inductive DocumentStatus := VALID | INVALID | SUSPICIOUS | INCOMPLETE.

(** The [.value] of a status. *)
Definition status_value (s : DocumentStatus) : string :=
  match s with
  | VALID => "valid"
  | INVALID => "invalid"
  | SUSPICIOUS => "suspicious"
  | INCOMPLETE => "incomplete"
  end.

Definition DocumentType_eqb (a b : DocumentType) : bool :=
  match a, b with
  | PAY_SLIP, PAY_SLIP | TAX_DECLARATION, TAX_DECLARATION
  | BANK_STATEMENT, BANK_STATEMENT
  | INCOME_CONSISTENCY, INCOME_CONSISTENCY
  | LOAN_PAYMENTS, LOAN_PAYMENTS => true
  | _, _ => false
  end.

(** A value stored in [extracted_data]: the fields of the parsed records
    are optional floats, ints and strings. *)
Inductive pyval := PNone | PNum (q : Q) | PStr (s : string).

(** Truth value ([if x:]): [None], zero and the empty string are false. *)
Definition pyval_truthy (v : pyval) : bool :=
  match v with
  | PNone => false
  | PNum q => negb (Qeq_bool q 0)
  | PStr s => negb (String.eqb s "")
  end.

(** The number held by a value; [None] is the [TypeError] of arithmetic
    on a value that is not a number. *)
Definition pyval_num (v : pyval) : option Q :=
  match v with
  | PNum q => Some q
  | _ => None
  end.

Definition of_float (o : option Q) : pyval :=
  match o with Some q => PNum q | None => PNone end.
Definition of_int (o : option Z) : pyval :=
  match o with Some z => PNum (inject_Z z) | None => PNone end.
Definition of_str (o : option string) : pyval :=
  match o with Some s => PStr s | None => PNone end.

Record PaySlipData := {
  gross_salary : option Q;
  net_salary : option Q;
  employer_name : option string;
  employee_name : option string;
  month : option string;
  year : option Z;
  cnss_deduction : option Q;
  ir_deduction : option Q;
  total_deductions : option Q
}.

Record TaxDeclarationData := {
  gross_annual_income : option Q;
  taxable_income : option Q;
  tax_paid : option Q;
  fiscal_year : option Z;
  taxpayer_name : option string;
  fiscal_id : option string
}.

Record BankStatementData := {
  account_holder : option string;
  account_number : option string;
  opening_balance : option Q;
  closing_balance : option Q;
  total_credits : option Q;
  total_debits : option Q;
  average_balance : option Q;
  num_transactions : option Z;
  period_start : option string;
  period_end : option string
}.

(** The [.dict()] of each parsed record. *)
Definition PaySlipData_dict (d : PaySlipData) : gmap string pyval :=
  list_to_map
    [("gross_salary", of_float (gross_salary d));
     ("net_salary", of_float (net_salary d));
     ("employer_name", of_str (employer_name d));
     ("employee_name", of_str (employee_name d));
     ("month", of_str (month d));
     ("year", of_int (year d));
     ("cnss_deduction", of_float (cnss_deduction d));
     ("ir_deduction", of_float (ir_deduction d));
     ("total_deductions", of_float (total_deductions d))].

Definition TaxDeclarationData_dict (d : TaxDeclarationData)
    : gmap string pyval :=
  list_to_map
    [("gross_annual_income", of_float (gross_annual_income d));
     ("taxable_income", of_float (taxable_income d));
     ("tax_paid", of_float (tax_paid d));
     ("fiscal_year", of_int (fiscal_year d));
     ("taxpayer_name", of_str (taxpayer_name d));
     ("fiscal_id", of_str (fiscal_id d))].

Definition BankStatementData_dict (d : BankStatementData)
    : gmap string pyval :=
  list_to_map
    [("account_holder", of_str (account_holder d));
     ("account_number", of_str (account_number d));
     ("opening_balance", of_float (opening_balance d));
     ("closing_balance", of_float (closing_balance d));
     ("total_credits", of_float (total_credits d));
     ("total_debits", of_float (total_debits d));
     ("average_balance", of_float (average_balance d));
     ("num_transactions", of_int (num_transactions d));
     ("period_start", of_str (period_start d));
     ("period_end", of_str (period_end d))].

Record DocumentAnalysisResult := {
  document_type : DocumentType;
  status : DocumentStatus;
  confidence : Q;
  extracted_data : gmap string pyval;
  validation_issues : list string;
  score : Q;
  risk_flags : list string;
  recommendations : list string
}.

Record CreditworthinessScore := {
  overall_score : Q;
  income_score : Q;
  consistency_score : Q;
  debt_ratio_score : Q;
  document_quality_score : Q;
  rating : string;
  decision : string;
  cw_confidence : Q;
  risk_level : string;
  monthly_income : Q;
  debt_to_income_ratio : Q;
  strengths : list string;
  weaknesses : list string;
  required_documents : list string;
  missing_documents : list string
}.

End DocumentModels.

(** ** services/document_scorer.py: the creditworthiness aggregator *)

Module DocumentScorer.

Import DocumentModels.

(** [self.min_required_documents]. *)
Definition min_required_documents : gmap string nat :=
  {[ "pay_slips" := 2%nat; "tax_declaration" := 1%nat;
     "bank_statement" := 0%nat ]}.

Definition min_required (key : string) : nat :=
  default 0%nat (min_required_documents !! key).

(** [income_data] of [calculate_income_score]. *)
Record IncomeData := {
  income_monthly_income : Q;
  income_annual_income : pyval;
  income_sources : Q
}.

Definition of_type (t : DocumentType) (documents : list DocumentAnalysisResult)
    : list DocumentAnalysisResult :=
  List.filter (fun d => DocumentType_eqb (document_type d) t) documents.

(** [d.extracted_data.get(key)]. *)
Definition extracted (d : DocumentAnalysisResult) (key : string) : pyval :=
  default PNone (extracted_data d !! key).

(** The pay slip part of [calculate_income_score]; [None] is the
    [TypeError] that [sum] raises on a salary that is not a number. *)
Definition pay_slip_income (pay_slips : list DocumentAnalysisResult)
    (income_score : Q) (income_data : IncomeData)
    : option (Q * IncomeData) :=
  match pay_slips with
  | [] => Some (income_score, income_data)
  | _ :: _ =>
      let salaries :=
        List.filter pyval_truthy
          ((fun ps => extracted ps "net_salary") <$> pay_slips) in
      match salaries with
      | [] => Some (income_score, income_data)
      | _ :: _ =>
          salaries ← mapM pyval_num salaries;
          let avg_salary := sum salaries / len salaries in
          let income_data :=
            {| income_monthly_income := avg_salary;
               income_annual_income := income_annual_income income_data;
               income_sources := income_sources income_data |} in
          let income_score :=
            if ge avg_salary 15000 then income_score + 40
            else if ge avg_salary 10000 then income_score + 30
            else if ge avg_salary 7000 then income_score + 20
            else if ge avg_salary 4000 then income_score + 10
            else income_score + 5 in
          if (2 <=? length salaries)%nat then
            highest ← max_list salaries;
            lowest ← min_list salaries;
            let variance := highest - lowest in
            let consistency_ratio :=
              if gt avg_salary 0 then variance / avg_salary else 1 in
            let income_score :=
              if lt consistency_ratio 0.05 then income_score + 20
              else if lt consistency_ratio 0.15 then income_score + 15
              else if lt consistency_ratio 0.25 then income_score + 10
              else income_score + 5 in
            Some (income_score, income_data)
          else Some (income_score, income_data)
      end
  end.

(** One iteration of the loop over the tax declarations. *)
Definition tax_declaration_income (acc : Q * IncomeData)
    (td : DocumentAnalysisResult) : Q * IncomeData :=
  let annual := extracted td "gross_annual_income" in
  if pyval_truthy annual then
    (acc.1 + 10,
     {| income_monthly_income := income_monthly_income acc.2;
        income_annual_income := annual;
        income_sources := income_sources acc.2 |})
  else acc.

Definition calculate_income_score (documents : list DocumentAnalysisResult)
    : option (Q * IncomeData) :=
  let pay_slips := of_type PAY_SLIP documents in
  let tax_declarations := of_type TAX_DECLARATION documents in
  let income_score := 0 in
  let income_data :=
    {| income_monthly_income := 0; income_annual_income := PNum 0;
       income_sources := 0 |} in
  acc ← pay_slip_income pay_slips income_score income_data;
  let acc := foldl tax_declaration_income acc tax_declarations in
  Some (min acc.1 100, acc.2).

Definition calculate_consistency_score
    (documents : list DocumentAnalysisResult) : Q :=
  match documents with
  | [] => 0
  | _ :: _ =>
      let consistency_score := 0 in
      let valid_docs :=
        List.filter
          (fun d => String.eqb (status_value (status d)) "valid")
          documents in
      let consistency_score :=
        consistency_score + (len valid_docs / len documents) * 40 in
      let avg_doc_score := sum (score <$> documents) / len documents in
      let consistency_score :=
        consistency_score + (avg_doc_score / 100) * 30 in
      let avg_confidence :=
        sum (confidence <$> documents) / len documents in
      let consistency_score := consistency_score + avg_confidence * 30 in
      min consistency_score 100
  end.

(** Returns the pair (score, debt ratio). *)
Definition calculate_debt_ratio_score (monthly_income : Q)
    (requested_credit monthly_payment : Q) : Q * Q :=
  if le monthly_income 0 then (0, 0)
  else
    let debt_ratio :=
      if gt monthly_income 0 then (monthly_payment / monthly_income) * 100
      else 100 in
    let score :=
      if le debt_ratio 25 then 100
      else if le debt_ratio 33 then 80
      else if le debt_ratio 40 then 60
      else if le debt_ratio 50 then 40
      else 20 in
    (score, debt_ratio).

(** The document quality score of [evaluate_creditworthiness]:
    [sum(d.score for d in documents) / len(documents) if documents else 0]. *)
Definition document_quality (documents : list DocumentAnalysisResult) : Q :=
  match documents with
  | [] => 0
  | _ :: _ => sum (score <$> documents) / len documents
  end.

(** The weighted overall score of [evaluate_creditworthiness]. *)
Definition weighted_overall_score
    (income_score consistency_score debt_score doc_quality_score : Q) : Q :=
  income_score * 0.35 + consistency_score * 0.25 + debt_score * 0.30
  + doc_quality_score * 0.10.

(** Rating, decision and risk level for an overall score. *)
Definition rating_of (overall_score : Q) : string * string * string :=
  if ge overall_score 80 then ("Excellent", "Approved", "Low")
  else if ge overall_score 65 then ("Good", "Approved", "Low")
  else if ge overall_score 50 then ("Fair", "Review", "Medium")
  else if ge overall_score 35 then ("Poor", "Review", "High")
  else ("Rejected", "Rejected", "High").

(** [if hi: strengths.append(s) elif lo: weaknesses.append(w)]. *)
Definition note (hi lo : bool) (s w : string)
    (acc : list string * list string) : list string * list string :=
  if hi then (acc.1 ++ [s], acc.2)
  else if lo then (acc.1, acc.2 ++ [w])
  else acc.

Definition evaluate_creditworthiness
    (documents : list DocumentAnalysisResult)
    (requested_credit monthly_payment : Q)
    : option CreditworthinessScore :=
  income ← calculate_income_score documents;
  let income_score := income.1 in
  let income_data := income.2 in
  let consistency_score := calculate_consistency_score documents in
  let debt :=
    calculate_debt_ratio_score (income_monthly_income income_data)
      requested_credit monthly_payment in
  let debt_score := debt.1 in
  let debt_ratio := debt.2 in
  let doc_quality_score := document_quality documents in
  let overall_score :=
    weighted_overall_score income_score consistency_score debt_score
      doc_quality_score in
  let '(rating, decision, risk_level) := rating_of overall_score in
  let confidence := min ((consistency_score + doc_quality_score) / 200) 1.0 in
  let notes : list string * list string := ([], []) in
  let notes :=
    note (ge income_score 70) (lt income_score 40)
      "Strong income level" "Low income level" notes in
  let notes :=
    note (ge debt_score 80) (lt debt_score 50)
      "Low debt-to-income ratio" "High debt-to-income ratio" notes in
  let notes :=
    note (ge consistency_score 70) (lt consistency_score 50)
      "Consistent documentation"
      "Inconsistent or incomplete documentation" notes in
  let notes :=
    note (ge doc_quality_score 75) (lt doc_quality_score 50)
      "High quality documents" "Poor quality or suspicious documents"
      notes in
  let pay_slip_count := length (of_type PAY_SLIP documents) in
  let tax_decl_count := length (of_type TAX_DECLARATION documents) in
  let required_docs := [pretty (min_required "pay_slips") +:+ " recent pay slips"] in
  let missing_docs :=
    if (pay_slip_count <? min_required "pay_slips")%nat
    then ["Pay slips (" +:+ pretty pay_slip_count +:+ "/"
          +:+ pretty (min_required "pay_slips") +:+ ")"]
    else [] in
  let required_docs := required_docs ++ ["Tax declaration"] in
  let missing_docs :=
    if (tax_decl_count <? min_required "tax_declaration")%nat
    then missing_docs ++ ["Tax declaration"]
    else missing_docs in
  Some {| overall_score := round overall_score 2;
          income_score := round income_score 2;
          consistency_score := round consistency_score 2;
          debt_ratio_score := round debt_score 2;
          document_quality_score := round doc_quality_score 2;
          rating := rating;
          decision := decision;
          cw_confidence := round confidence 3;
          risk_level := risk_level;
          monthly_income := income_monthly_income income_data;
          debt_to_income_ratio := round debt_ratio 2;
          strengths := notes.1;
          weaknesses := notes.2;
          required_documents := required_docs;
          missing_documents := missing_docs |}.

End DocumentScorer.

(** ** services/document_analyzer.py: the overall creditworthiness *)

Module DocumentAnalyzer.

(** The constants set by [__init__]. *)
Definition min_monthly_income : Q := 3000.
Definition max_debt_to_income : Q := 0.40.
Definition min_employment_months : Q := 6.

(** An analysed document as read by [calculate_overall_creditworthiness]:
    its numeric top-level entries and, when present, the nested
    ['extracted_data'] dictionary. *)
Record Analysis := {
  entries : gmap string Q;
  extracted_data : option (gmap string Q)
}.

(** [documents['PAY_SLIP']] is either a list of analyses or one. *)
Inductive PaySlips :=
| SlipList (l : list Analysis)
| SlipOne (a : Analysis).

(** The [documents] dictionary, one optional entry per key read. *)
Record Documents := {
  doc_PAY_SLIP : option PaySlips;
  doc_TAX_DECLARATION : option Analysis;
  doc_BANK_STATEMENT : option Analysis
}.

Record Assessment := {
  overall_score : Q;
  rating : string;
  decision : string;
  decision_reason : string;
  is_eligible : bool;
  monthly_income : Q;
  debt_to_income_ratio : option Q;
  max_credit_limit : Q;
  requested_credit : Q;
  monthly_payment : Q;
  document_scores : gmap string Q;
  recommendations : list string
}.

(** [a.get(key, 0)]. *)
Definition entry (a : Analysis) (key : string) : Q :=
  default 0 (entries a !! key).

Definition _get_rating (score : Q) : string :=
  if ge score 90 then "EXCELLENT"
  else if ge score 80 then "VERY_GOOD"
  else if ge score 70 then "GOOD"
  else if ge score 60 then "FAIR"
  else if ge score 50 then "POOR"
  else "VERY_POOR".

Definition _calculate_max_credit_limit (monthly_income score : Q) : Q :=
  let base_multiplier := 10 in
  let multiplier :=
    if ge score 90 then base_multiplier * 1.5
    else if ge score 80 then base_multiplier * 1.3
    else if ge score 70 then base_multiplier * 1.1
    else if ge score 60 then base_multiplier * 0.9
    else base_multiplier * 0.5 in
  monthly_income * multiplier.

(** The running totals of the scoring loop. *)
Record Totals := {
  total_score : Q;
  weights_sum : Q;
  scores : gmap string Q;
  income : Q
}.

Definition add_document (key : string) (document_score weight : Q)
    (t : Totals) : Totals :=
  {| total_score := total_score t + document_score * weight;
     weights_sum := weights_sum t + weight;
     scores := <[key := document_score]> (scores t);
     income := income t |}.

(** The first part of [calculate_overall_creditworthiness]: the weighted
    document scores and the monthly income read from the documents. *)
Definition document_totals (documents : Documents) : Totals :=
  let t :=
    {| total_score := 0; weights_sum := 0; scores := ∅; income := 0 |} in
  let t :=
    match doc_PAY_SLIP documents with
    | Some entry_ =>
        let pay_slips :=
          match entry_ with SlipList l => l | SlipOne a => [a] end in
        match pay_slips with
        | latest_pay_slip :: _ =>
            let pay_slip_score :=
              entry latest_pay_slip "salary_score"
              + entry latest_pay_slip "stability_score" in
            let t := add_document "pay_slip" (pay_slip_score / 2) 0.40 t in
            {| total_score := total_score t;
               weights_sum := weights_sum t;
               scores := scores t;
               income :=
                 default 0
                   (default ∅ (extracted_data latest_pay_slip)
                      !! "net_salary") |}
        | [] => t
        end
    | None => t
    end in
  let t :=
    match doc_TAX_DECLARATION documents with
    | Some tax_data =>
        let tax_score :=
          entry tax_data "income_score"
          + entry tax_data "compliance_score" in
        add_document "tax_declaration" (tax_score / 2) 0.35 t
    | None => t
    end in
  let t :=
    match doc_BANK_STATEMENT documents with
    | Some bank_data =>
        let bank_score :=
          entry bank_data "balance_score"
          + entry bank_data "cash_flow_score" in
        add_document "bank_statement" (bank_score / 2) 0.25 t
    | None => t
    end in
  t.

Section Formatting.

(** Python's number formatting: [f"{x:.N%}"], [f"{x:.Nf}"] and
    [f"{x}"]. *)
Variable format_percent : nat -> Q -> string.
Variable format_fixed : nat -> Q -> string.
Variable format_value : Q -> string.

Definition calculate_overall_creditworthiness (documents : Documents)
    (requested_credit monthly_payment : Q) : Assessment :=
  let t := document_totals documents in
  let monthly_income := income t in
  let overall_score :=
    if gt (weights_sum t) 0
    then (total_score t / weights_sum t) * 100
    else 0 in
  let is_eligible :=
    ge overall_score 60 && ge monthly_income min_monthly_income in
  let debt_to_income :=
    if gt monthly_income 0 && gt monthly_payment 0
    then monthly_payment / monthly_income
    else 0 in
  let '(decision, decision_reason) :=
    if is_eligible then
      if gt debt_to_income 0 && gt debt_to_income max_debt_to_income
      then ("REJECTED",
            "Debt-to-income ratio too high ("
            +:+ format_percent 1 debt_to_income +:+ " > "
            +:+ format_percent 0 max_debt_to_income +:+ ")")
      else if ge overall_score 80
      then ("APPROVED", "Strong financial profile")
      else if ge overall_score 70
      then ("APPROVED", "Good financial profile")
      else ("CONDITIONAL", "Acceptable profile with conditions")
    else
      ("REJECTED",
       if lt monthly_income min_monthly_income
       then "Insufficient monthly income ("
            +:+ format_value monthly_income +:+ " MAD < "
            +:+ format_value min_monthly_income +:+ " MAD)"
       else "Overall score too low ("
            +:+ format_fixed 1 overall_score +:+ " < 60)") in
  let max_credit_limit :=
    _calculate_max_credit_limit monthly_income overall_score in
  let recommendations : list string := [] in
  let recommendations :=
    if lt monthly_income 5000
    then recommendations ++ ["Consider increasing income sources"]
    else recommendations in
  let recommendations :=
    if lt overall_score 70
    then recommendations ++ ["Improve financial stability before applying"]
    else recommendations in
  let recommendations :=
    if gt debt_to_income 0.30
    then recommendations ++ ["Reduce existing debt obligations"]
    else recommendations in
  let recommendations :=
    if String.eqb decision "CONDITIONAL"
    then recommendations ++ ["Provide additional guarantees or co-signer"]
    else recommendations in
  {| overall_score := round overall_score 1;
     rating := _get_rating overall_score;
     decision := decision;
     decision_reason := decision_reason;
     is_eligible := is_eligible;
     monthly_income := monthly_income;
     debt_to_income_ratio :=
       if gt debt_to_income 0 then Some (round debt_to_income 3)
       else None;
     max_credit_limit := round max_credit_limit 2;
     requested_credit := requested_credit;
     monthly_payment := monthly_payment;
     document_scores := scores t;
     recommendations := recommendations |}.

End Formatting.

(** *** The per-document analyses *)

Definition _calculate_salary_score (monthly_income : Q) : Q :=
  if ge monthly_income 20000 then 100
  else if ge monthly_income 15000 then 90
  else if ge monthly_income 10000 then 75
  else if ge monthly_income 6000 then 60
  else if ge monthly_income 3000 then 40
  else 20.

Definition _calculate_tax_compliance_score (tax_paid annual_income : Q) : Q :=
  if le annual_income 0 then 50
  else
    let tax_rate := tax_paid / annual_income in
    if le 0.05 tax_rate && le tax_rate 0.40 then 90
    else if lt tax_rate 0.05 then 70
    else 85.

Definition _calculate_balance_score (balance : Q) : Q :=
  if ge balance 50000 then 100
  else if ge balance 30000 then 90
  else if ge balance 20000 then 80
  else if ge balance 10000 then 65
  else if ge balance 5000 then 50
  else 30.

Definition _calculate_cash_flow_score (credits debits : Q) : Q :=
  if Qeq_bool credits 0 then 50
  else
    let savings_rate := (credits - debits) / credits in
    if ge savings_rate 0.30 then 100
    else if ge savings_rate 0.20 then 85
    else if ge savings_rate 0.10 then 70
    else if ge savings_rate 0 then 55
    else 30.

Definition _identify_balance_issues (balance total_debits : Q)
    : list string :=
  let issues : list string := [] in
  let issues :=
    if lt balance 5000 then issues ++ ["Low bank balance"] else issues in
  let issues :=
    if lt balance (total_debits * 0.5)
    then issues ++ ["Insufficient buffer for monthly expenses"]
    else issues in
  issues.

Definition _generate_recommendations (monthly_income score : Q)
    : list string :=
  let recommendations : list string := [] in
  let recommendations :=
    if lt score 70
    then recommendations ++ ["Consider applying for a smaller loan amount"]
    else recommendations in
  let recommendations :=
    if lt monthly_income 8000
    then recommendations ++ ["Increase income sources before applying"]
    else recommendations in
  let recommendations :=
    if ge score 80
    then recommendations
         ++ ["Strong application - eligible for competitive rates"]
    else recommendations in
  recommendations.

Definition _generate_balance_recommendations (balance score : Q)
    : list string :=
  let recommendations : list string := [] in
  let recommendations :=
    if lt balance 10000
    then recommendations ++ ["Build emergency fund before taking new debt"]
    else recommendations in
  let recommendations :=
    if ge score 80
    then recommendations ++ ["Good cash flow management"]
    else recommendations in
  recommendations.

(** The dictionary returned by [analyze_pay_slip] on success. *)
Record PaySlipAnalysis := {
  pa_employee_name : string;
  pa_company : string;
  pa_pay_period : string;
  pa_gross_salary : Q;
  pa_net_salary : Q;
  pa_deductions : gmap string Q;
  pa_monthly_income : Q;
  pa_salary_score : Q;
  pa_stability_score : Q;
  pa_overall_score : Q;
  pa_rating : string;
  pa_issues : list string;
  pa_recommendations : list string
}.

(** The dictionary returned by [analyze_tax_declaration] on success. *)
Record TaxAnalysis := {
  ta_fiscal_year : string;
  ta_annual_income : Q;
  ta_monthly_income : Q;
  ta_taxable_income : Q;
  ta_tax_paid : Q;
  ta_income_score : Q;
  ta_compliance_score : Q;
  ta_overall_score : Q;
  ta_rating : string;
  ta_issues : list string;
  ta_recommendations : list string
}.

(** The dictionary returned by [analyze_bank_statement] on success. *)
Record BankAnalysis := {
  ba_account_holder : string;
  ba_account_number : string;
  ba_final_balance : Q;
  ba_total_credits : Q;
  ba_total_debits : Q;
  ba_net_cash_flow : Q;
  ba_transaction_count : Q;
  ba_balance_score : Q;
  ba_cash_flow_score : Q;
  ba_overall_score : Q;
  ba_rating : string;
  ba_issues : list string;
  ba_recommendations : list string
}.

(** What an analysis returns: one of the three dictionaries, or the error
    dictionary of the [except] branch with its document type. *)
Inductive Analyzed :=
| AnalyzedPaySlip (a : PaySlipAnalysis)
| AnalyzedTax (a : TaxAnalysis)
| AnalyzedBank (a : BankAnalysis)
| AnalysisFailed (document_type : string).

(** The collaborators of the analyses, taken as given: the
    regular-expression extractors and the formatting of a number inside a
    message.  Amounts come back as numbers (an extractor falls back on its
    default); [_extract_transactions] converts every match and returns
    [None] when a conversion raises. *)
Record Extractors := {
  _extract_gross_salary : string -> Q;
  _extract_net_salary : string -> Q;
  _extract_deductions : string -> gmap string Q;
  _extract_employee_name : string -> string;
  _extract_company : string -> string;
  _extract_pay_period : string -> string;
  _extract_annual_income : string -> Q;
  _extract_taxable_income : string -> Q;
  _extract_tax_paid : string -> Q;
  _extract_fiscal_year : string -> string;
  _extract_account_holder : string -> string;
  _extract_account_number : string -> string;
  _extract_transactions : string -> option (list Q * list Q);
  _extract_final_balance : string -> Q;
  format_number : Q -> string
}.

Definition _identify_issues (self : Extractors) (monthly_income : Q)
    : list string :=
  let issues : list string := [] in
  let issues :=
    if lt monthly_income min_monthly_income
    then issues
         ++ ["Monthly income below minimum threshold ("
             +:+ format_number self min_monthly_income +:+ " MAD)"]
    else issues in
  let issues :=
    if lt monthly_income 5000
    then issues ++ ["Low income may affect loan approval"]
    else issues in
  issues.

Definition analyze_pay_slip (self : Extractors) (text : string)
    : Analyzed :=
  let gross_salary := _extract_gross_salary self text in
  let net_salary := _extract_net_salary self text in
  let deductions := _extract_deductions self text in
  let employee_name := _extract_employee_name self text in
  let company := _extract_company self text in
  let pay_period := _extract_pay_period self text in
  let salary_score := _calculate_salary_score net_salary in
  let stability_score := 70 in
  let overall_score := (salary_score * 0.7) + (stability_score * 0.3) in
  AnalyzedPaySlip
    {| pa_employee_name := employee_name;
       pa_company := company;
       pa_pay_period := pay_period;
       pa_gross_salary := gross_salary;
       pa_net_salary := net_salary;
       pa_deductions := deductions;
       pa_monthly_income := net_salary;
       pa_salary_score := round salary_score 2;
       pa_stability_score := stability_score;
       pa_overall_score := round overall_score 2;
       pa_rating := _get_rating overall_score;
       pa_issues := _identify_issues self net_salary;
       pa_recommendations :=
         _generate_recommendations net_salary overall_score |}.

Definition analyze_tax_declaration (self : Extractors) (text : string)
    : Analyzed :=
  let annual_income := _extract_annual_income self text in
  let taxable_income := _extract_taxable_income self text in
  let tax_paid := _extract_tax_paid self text in
  let fiscal_year := _extract_fiscal_year self text in
  let monthly_income :=
    if negb (Qeq_bool annual_income 0) then annual_income / 12 else 0 in
  let income_score := _calculate_salary_score monthly_income in
  let compliance_score :=
    _calculate_tax_compliance_score tax_paid annual_income in
  let overall_score := (income_score * 0.6) + (compliance_score * 0.4) in
  AnalyzedTax
    {| ta_fiscal_year := fiscal_year;
       ta_annual_income := annual_income;
       ta_monthly_income := round monthly_income 2;
       ta_taxable_income := taxable_income;
       ta_tax_paid := tax_paid;
       ta_income_score := round income_score 2;
       ta_compliance_score := round compliance_score 2;
       ta_overall_score := round overall_score 2;
       ta_rating := _get_rating overall_score;
       ta_issues := _identify_issues self monthly_income;
       ta_recommendations :=
         _generate_recommendations monthly_income overall_score |}.

Definition analyze_bank_statement (self : Extractors) (text : string)
    : Analyzed :=
  let account_holder := _extract_account_holder self text in
  let account_number := _extract_account_number self text in
  match _extract_transactions self text with
  | None => AnalysisFailed "BANK_STATEMENT"
  | Some (credits, debits) =>
      let final_balance := _extract_final_balance self text in
      let total_credits := sum credits in
      let total_debits := sum debits in
      let balance_score := _calculate_balance_score final_balance in
      let cash_flow_score :=
        _calculate_cash_flow_score total_credits total_debits in
      let overall_score := (balance_score * 0.5) + (cash_flow_score * 0.5) in
      AnalyzedBank
        {| ba_account_holder := account_holder;
           ba_account_number := account_number;
           ba_final_balance := final_balance;
           ba_total_credits := round total_credits 2;
           ba_total_debits := round total_debits 2;
           ba_net_cash_flow := round (total_credits - total_debits) 2;
           ba_transaction_count := len credits + len debits;
           ba_balance_score := round balance_score 2;
           ba_cash_flow_score := round cash_flow_score 2;
           ba_overall_score := round overall_score 2;
           ba_rating := _get_rating overall_score;
           ba_issues := _identify_balance_issues final_balance total_debits;
           ba_recommendations :=
             _generate_balance_recommendations final_balance overall_score |}
  end.

(** [None] is the [ValueError] raised for an unsupported document type. *)
Definition analyze_single_document (self : Extractors)
    (text_content document_type : string) : option Analyzed :=
  if String.eqb document_type "PAY_SLIP"
  then Some (analyze_pay_slip self text_content)
  else if String.eqb document_type "TAX_DECLARATION"
  then Some (analyze_tax_declaration self text_content)
  else if String.eqb document_type "BANK_STATEMENT"
  then Some (analyze_bank_statement self text_content)
  else None.

(** The overall score an analysis reports, when it succeeded. *)
Definition analyzed_overall_score (d : Analyzed) : option Q :=
  match d with
  | AnalyzedPaySlip a => Some (pa_overall_score a)
  | AnalyzedTax a => Some (ta_overall_score a)
  | AnalyzedBank a => Some (ba_overall_score a)
  | AnalysisFailed _ => None
  end.

(** An analysis dictionary as [calculate_overall_creditworthiness] reads
    it: the top-level keys that hold a number ([valid] counts as 1), and no
    ['extracted_data'] key.  The scores sit one level down, under
    ['scores'], and the names, the rating and the lists are not numbers. *)
Definition as_read (d : Analyzed) : Analysis :=
  {| entries :=
       match d with
       | AnalyzedPaySlip a =>
           {[ "valid" := 1; "gross_salary" := pa_gross_salary a;
              "net_salary" := pa_net_salary a;
              "monthly_income" := pa_monthly_income a ]}
       | AnalyzedTax a =>
           {[ "valid" := 1; "annual_income" := ta_annual_income a;
              "monthly_income" := ta_monthly_income a;
              "taxable_income" := ta_taxable_income a;
              "tax_paid" := ta_tax_paid a ]}
       | AnalyzedBank a =>
           {[ "valid" := 1; "final_balance" := ba_final_balance a;
              "total_credits" := ba_total_credits a;
              "total_debits" := ba_total_debits a;
              "net_cash_flow" := ba_net_cash_flow a;
              "transaction_count" := ba_transaction_count a ]}
       | AnalysisFailed _ => {[ "valid" := 0 ]}
       end;
     extracted_data := None |}.

End DocumentAnalyzer.

(** ** main.py: the creditworthiness endpoint *)

Module Main.

Import DocumentAnalyzer.

Section Endpoint.

Variable document_analyzer : Extractors.
Variable format_percent : nat -> Q -> string.
Variable format_fixed : nat -> Q -> string.

(** The [documents] dictionary that [evaluate_creditworthiness] builds from
    the texts of the uploaded files: the pay slips that were sent, in
    order, and the optional tax declaration and bank statement.  [None] is
    an exception raised by an analysis. *)
Definition collect_documents (pay_slips : list string)
    (tax_declaration bank_statement : option string) : option Documents :=
  pay_slips_data ←
    mapM (fun text => analyze_single_document document_analyzer text "PAY_SLIP") pay_slips;
  tax ←
    match tax_declaration with
    | Some text =>
        result ← analyze_single_document document_analyzer text "TAX_DECLARATION";
        Some (Some (as_read result))
    | None => Some None
    end;
  bank ←
    match bank_statement with
    | Some text =>
        result ← analyze_single_document document_analyzer text "BANK_STATEMENT";
        Some (Some (as_read result))
    | None => Some None
    end;
  Some {| doc_PAY_SLIP :=
            match pay_slips_data with
            | [] => None
            | _ :: _ => Some (SlipList (as_read <$> pay_slips_data))
            end;
          doc_TAX_DECLARATION := tax;
          doc_BANK_STATEMENT := bank |}.

(** The endpoint: [inl status] is the HTTP error it answers with, 400 when
    no document was sent and 500 when an analysis raised. *)
Definition evaluate_creditworthiness (requested_credit monthly_payment : Q)
    (pay_slips : list string)
    (tax_declaration bank_statement : option string)
    : Z + Assessment :=
  match collect_documents pay_slips tax_declaration bank_statement with
  | None => inl 500%Z
  | Some documents =>
      match doc_PAY_SLIP documents, doc_TAX_DECLARATION documents,
            doc_BANK_STATEMENT documents with
      | None, None, None => inl 400%Z
      | _, _, _ =>
          inr (calculate_overall_creditworthiness format_percent
                 format_fixed (format_number document_analyzer) documents
                 requested_credit monthly_payment)
      end
  end.

End Endpoint.

End Main.

(** ** services/document_parser.py: analysis of one document *)

Module DocumentParser.

Import DocumentModels.

(** Truth value of an optional field ([if x:], [not x]). *)
Definition float_truthy (o : option Q) : bool :=
  pyval_truthy (of_float o).
Definition int_truthy (o : option Z) : bool := pyval_truthy (of_int o).
Definition str_truthy (o : option string) : bool :=
  pyval_truthy (of_str o).

(** The value of an optional float that a guard has found truthy. *)
Definition float_value (o : option Q) : Q := default 0 o.

(** [if cond: issues.append(msg); score -= penalty]. *)
Definition check (cond : bool) (msg : string) (penalty : Q)
    (acc : list string * Q) : list string * Q :=
  if cond then (acc.1 ++ [msg], acc.2 - penalty) else acc.

Definition validate_pay_slip (pay_slip : PaySlipData)
    (acc : list string * Q) : list string * Q :=
  let acc :=
    check (negb (float_truthy (net_salary pay_slip)))
      "Net salary not found" 20 acc in
  let acc :=
    check (negb (str_truthy (employer_name pay_slip)))
      "Employer name not found" 10 acc in
  let both :=
    float_truthy (net_salary pay_slip)
    && float_truthy (gross_salary pay_slip) in
  let net := float_value (net_salary pay_slip) in
  let gross := float_value (gross_salary pay_slip) in
  let acc :=
    check (both && gt net gross)
      "Net salary greater than gross salary - suspicious" 30 acc in
  if both then
    let deduction_ratio := (gross - net) / gross in
    if gt deduction_ratio 0.40
    then (acc.1 ++ ["Unusually high deductions"], acc.2 - 10)
    else if lt deduction_ratio 0.10
    then (acc.1 ++ ["Unusually low deductions"], acc.2 - 5)
    else (acc.1, acc.2 + 10)
  else acc.

Definition validate_tax_declaration (tax_decl : TaxDeclarationData)
    (acc : list string * Q) : list string * Q :=
  let acc :=
    check (negb (float_truthy (gross_annual_income tax_decl)))
      "Annual income not found" 20 acc in
  let acc :=
    check (negb (int_truthy (fiscal_year tax_decl)))
      "Fiscal year not found" 10 acc in
  check
    (float_truthy (gross_annual_income tax_decl)
     && float_truthy (taxable_income tax_decl)
     && gt (float_value (taxable_income tax_decl))
           (float_value (gross_annual_income tax_decl)))
    "Taxable income exceeds gross income - suspicious" 30 acc.

Definition validate_bank_statement (bank_stmt : BankStatementData)
    (acc : list string * Q) : list string * Q :=
  let acc :=
    check (negb (float_truthy (closing_balance bank_stmt)))
      "Balance not found" 20 acc in
  check (negb (str_truthy (account_holder bank_stmt)))
    "Account holder not found" 10 acc.

Section Collaborators.

(** Text extraction and the regular-expression parsers are taken as
    given; a parser returns [None] when a matched amount does not
    convert to a float and the conversion raises. *)
Variable extract_text_from_pdf : list Byte.byte -> string.
Variable parse_pay_slip : string -> option PaySlipData.
Variable parse_tax_declaration : string -> option TaxDeclarationData.
Variable parse_bank_statement : string -> option BankStatementData.

Definition analyze_document (pdf_bytes : list Byte.byte)
    (document_type : DocumentType) : option DocumentAnalysisResult :=
  let text := extract_text_from_pdf pdf_bytes in
  if String.eqb text "" || (str_len text <? 50)%nat then
    Some {| document_type := document_type;
            status := INVALID;
            confidence := 0.0;
            extracted_data := ∅;
            validation_issues := ["Failed to extract text from document"];
            score := 0;
            risk_flags := ["Unreadable document"];
            recommendations :=
              ["Upload a clearer, high-quality document"] |}
  else
    let start : list string * Q := ([], 50) in
    parsed ←
      match document_type with
      | PAY_SLIP =>
          pay_slip ← parse_pay_slip text;
          Some (PaySlipData_dict pay_slip,
                validate_pay_slip pay_slip start)
      | TAX_DECLARATION =>
          tax_decl ← parse_tax_declaration text;
          Some (TaxDeclarationData_dict tax_decl,
                validate_tax_declaration tax_decl start)
      | BANK_STATEMENT =>
          bank_stmt ← parse_bank_statement text;
          Some (BankStatementData_dict bank_stmt,
                validate_bank_statement bank_stmt start)
      | _ => Some (∅, start)
      end;
    let extracted_data : gmap string pyval := parsed.1 in
    let validation_issues := parsed.2.1 in
    let score := parsed.2.2 in
    let '(status, score) :=
      if lt score 30 then (INVALID, score)
      else if (3 <? length validation_issues)%nat then (SUSPICIOUS, score)
      else if (0 <? length validation_issues)%nat then (INCOMPLETE, score)
      else (VALID, score + 20) in
    let risk_flags : list string := [] in
    let recommendations : list string := [] in
    let '(risk_flags, recommendations) :=
      match validation_issues with
      | [] => (risk_flags, recommendations)
      | _ :: _ =>
          (risk_flags ++ validation_issues,
           recommendations ++ ["Verify document authenticity"])
      end in
    let recommendations :=
      if lt score 50
      then recommendations ++ ["Submit additional supporting documents"]
      else recommendations in
    let confidence := min (score / 100) 1.0 in
    Some {| document_type := document_type;
            status := status;
            confidence := confidence;
            extracted_data := extracted_data;
            validation_issues := validation_issues;
            score := max 0 (min 100 score);
            risk_flags := risk_flags;
            recommendations := recommendations |}.

End Collaborators.

End DocumentParser.

(** * Specification vocabulary *)

Import TrainModel.

(** The status of a prediction is the one its score dictates: VALID from
    70, SUSPICIOUS from 50 up to 70, INVALID below, never INCOMPLETE. *)
Definition status_follows_score (p : Prediction) : Prop :=
  (status p = "VALID" <-> 70 <= score p) /\
  (status p = "SUSPICIOUS" <-> 50 <= score p /\ score p < 70) /\
  (status p = "INVALID" <-> score p < 50) /\
  status p <> "INCOMPLETE".

(** The CIN feature set of the worked scenario. *)
Definition cin_scenario : GenerateDataset.CinFeatures :=
  {| GenerateDataset.is_expired := false;
     GenerateDataset.ocr_confidence := 0.92;
     GenerateDataset.image_quality := 0.88;
     GenerateDataset.has_photo := true;
     GenerateDataset.text_legible := true;
     GenerateDataset.correct_format := true |}.

(** A score lies within the 0 to 100 scale. *)
Definition within_scale (x : Q) : Prop := 0 <= x <= 100.

(** The documented ranges of a [DocumentAnalysisResult]: a score between 0
    and 100 and a confidence between 0 and 1. *)
Definition documented_ranges (d : DocumentModels.DocumentAnalysisResult)
    : Prop :=
  0 <= DocumentModels.score d <= 100 /\
  0 <= DocumentModels.confidence d <= 1.

(** The net salary of a document, when it counts, is a number. *)
Definition numeric_salary (d : DocumentModels.DocumentAnalysisResult)
    : Prop :=
  DocumentModels.pyval_truthy (DocumentScorer.extracted d "net_salary")
  = true ->
  is_Some (DocumentModels.pyval_num (DocumentScorer.extracted d "net_salary")).

(** The estimators of a fitted model answer on every row: the scaler, the
    classifier with a non-empty probability vector and a known class, and
    the regressor. *)
Definition estimators_answer (m : DocumentAnalysisModel) : Prop :=
  forall row, exists X_scaled c proba st s,
    scaler_transform m row = Some X_scaled /\
    classifier_predict m X_scaled = Some c /\
    classifier_predict_proba m X_scaled = Some proba /\
    proba <> [] /\
    status_classes m !! c = Some st /\
    regressor_predict m X_scaled = Some s.

(** The four document types known to the joint model. *)
Definition known_types : list string :=
  ["CIN"; "PAY_SLIP"; "TAX_DECLARATION"; "BANK_STATEMENT"].

(** ** Sample inputs *)

(** A model that was never trained: every estimator call raises. *)
Definition untrained_model : DocumentAnalysisModel :=
  {| classifier_predict := fun _ => None;
     classifier_predict_proba := fun _ => None;
     regressor_predict := fun _ => None;
     scaler_transform := fun _ => None;
     status_classes := [];
     feature_columns := [];
     model_trained := false |}.

(** The service as it starts when no model file is found. *)
Definition unloaded_service : MLModelService.MLModelService :=
  {| MLModelService.model := untrained_model;
     MLModelService.model_loaded := false |}.

(** An expired CIN with otherwise perfect features. *)
Definition expired_cin : GenerateDataset.CinFeatures :=
  {| GenerateDataset.is_expired := true;
     GenerateDataset.ocr_confidence := 0.95;
     GenerateDataset.image_quality := 0.9;
     GenerateDataset.has_photo := true;
     GenerateDataset.text_legible := true;
     GenerateDataset.correct_format := true |}.

Definition expired_cin_dict : Features :=
  {[ "is_expired" := FBool true; "ocr_confidence" := FNum 0.95;
     "image_quality" := FNum 0.9; "has_photo" := FBool true;
     "text_legible" := FBool true; "correct_format" := FBool true ]}.

(** A well-paid pay slip whose amounts do not add up. *)
Definition mismatched_payslip : GenerateDataset.PaySlipFeatures :=
  {| GenerateDataset.net_salary := 12000;
     GenerateDataset.has_company_stamp := true;
     GenerateDataset.amounts_match := false;
     GenerateDataset.has_required_fields := true;
     GenerateDataset.salary_consistency := 0.9;
     GenerateDataset.months_ago := 1 |}.

Definition mismatched_payslip_dict : Features :=
  {[ "gross_salary" := FNum 15000; "net_salary" := FNum 12000;
     "total_deductions" := FNum 1000; "has_company_stamp" := FBool true;
     "amounts_match" := FBool false; "has_required_fields" := FBool true;
     "salary_consistency" := FNum 0.9; "months_since_issue" := FNum 1 ]}.

(** A trained model with constant estimators; its regressor answers 250,
    far above the scale. *)
Definition constant_model : DocumentAnalysisModel :=
  {| classifier_predict := fun _ => Some 1%nat;
     classifier_predict_proba := fun _ => Some [0.1; 0.9];
     regressor_predict := fun _ => Some 250;
     scaler_transform := fun row => Some row;
     status_classes := ["INVALID"; "VALID"];
     feature_columns := ["is_expired"; "ocr_confidence"; "doc_type_encoded"];
     model_trained := true |}.

(** A scoring service holding only a CIN regressor, which answers -40. *)
Definition cin_only_service : ScoringService.DocumentScoringService :=
  {| ScoringService.models := {[ "cin" := fun _ : list Q => Some (-40) ]};
     ScoringService.scalers :=
       {[ "cin" := fun row : list Q => Some row ]};
     ScoringService.features :=
       {[ "cin" := ["is_expired"; "ocr_confidence"] ]} |}.

(** A valid pay slip and a suspicious one with a negative salary. *)
Definition good_pay_slip : DocumentModels.DocumentAnalysisResult :=
  {| DocumentModels.document_type := DocumentModels.PAY_SLIP;
     DocumentModels.status := DocumentModels.VALID;
     DocumentModels.confidence := 0.8;
     DocumentModels.extracted_data :=
       {[ "net_salary" := DocumentModels.PNum 12000 ]};
     DocumentModels.validation_issues := [];
     DocumentModels.score := 80;
     DocumentModels.risk_flags := [];
     DocumentModels.recommendations := [] |}.

Definition negative_pay_slip : DocumentModels.DocumentAnalysisResult :=
  {| DocumentModels.document_type := DocumentModels.PAY_SLIP;
     DocumentModels.status := DocumentModels.SUSPICIOUS;
     DocumentModels.confidence := 0.5;
     DocumentModels.extracted_data :=
       {[ "net_salary" := DocumentModels.PNum (-5000) ]};
     DocumentModels.validation_issues := [];
     DocumentModels.score := 45;
     DocumentModels.risk_flags := [];
     DocumentModels.recommendations := [] |}.

(** Formatting stand-ins for the sample assessment. *)
Definition plain_format (_ : Q) : string := "#".

(** A document whose score lies far outside the documented range. *)
Definition overrated_document : DocumentModels.DocumentAnalysisResult :=
  {| DocumentModels.document_type := DocumentModels.BANK_STATEMENT;
     DocumentModels.status := DocumentModels.VALID;
     DocumentModels.confidence := 1;
     DocumentModels.extracted_data := ∅;
     DocumentModels.validation_issues := [];
     DocumentModels.score := 1000;
     DocumentModels.risk_flags := [];
     DocumentModels.recommendations := [] |}.

(** One pay slip entry with strong scores and a net salary of 10000. *)
Definition strong_documents : DocumentAnalyzer.Documents :=
  {| DocumentAnalyzer.doc_PAY_SLIP :=
       Some (DocumentAnalyzer.SlipList
               [{| DocumentAnalyzer.entries :=
                     {[ "salary_score" := 1; "stability_score" := 1 ]};
                   DocumentAnalyzer.extracted_data :=
                     Some {[ "net_salary" := 10000 ]} |}]);
     DocumentAnalyzer.doc_TAX_DECLARATION := None;
     DocumentAnalyzer.doc_BANK_STATEMENT := None |}.

(** Collaborators for the sample analysis: the extracted text is a fixed
    sixty-character line and the pay slip parser finds nothing at all. *)
Definition sample_text : string :=
  "Bulletin de paie - aucun montant lisible dans ce document...".

Definition empty_pay_slip : DocumentModels.PaySlipData :=
  {| DocumentModels.gross_salary := None;
     DocumentModels.net_salary := None;
     DocumentModels.employer_name := None;
     DocumentModels.employee_name := None;
     DocumentModels.month := None;
     DocumentModels.year := None;
     DocumentModels.cnss_deduction := None;
     DocumentModels.ir_deduction := None;
     DocumentModels.total_deductions := None |}.

(** A pay slip on which the net salary read exceeds the gross salary. *)
Definition inverted_pay_slip : DocumentModels.PaySlipData :=
  {| DocumentModels.gross_salary := Some 8000;
     DocumentModels.net_salary := Some 9000;
     DocumentModels.employer_name := Some "SOCIETE GENERALE";
     DocumentModels.employee_name := None;
     DocumentModels.month := Some "Mars";
     DocumentModels.year := Some 2024%Z;
     DocumentModels.cnss_deduction := None;
     DocumentModels.ir_deduction := None;
     DocumentModels.total_deductions := None |}.

(** A pay slip with every checked field present and 20% of deductions. *)
Definition clean_pay_slip : DocumentModels.PaySlipData :=
  {| DocumentModels.gross_salary := Some 10000;
     DocumentModels.net_salary := Some 8000;
     DocumentModels.employer_name := Some "SOCIETE GENERALE";
     DocumentModels.employee_name := None;
     DocumentModels.month := Some "Mars";
     DocumentModels.year := Some 2024%Z;
     DocumentModels.cnss_deduction := Some 448;
     DocumentModels.ir_deduction := Some 1000;
     DocumentModels.total_deductions := None |}.

(** The analysis of a readable text with the given parse of a pay slip. *)
Definition analyze_as (pay_slip : DocumentModels.PaySlipData)
    (document_type : DocumentModels.DocumentType)
    : option DocumentModels.DocumentAnalysisResult :=
  DocumentParser.analyze_document (fun _ => sample_text)
    (fun _ => Some pay_slip) (fun _ => None) (fun _ => None) []
    document_type.

(** A tax declaration on which the taxable income read exceeds the gross
    annual income, and its analysis on a readable text. *)
Definition inverted_tax_declaration : DocumentModels.TaxDeclarationData :=
  {| DocumentModels.gross_annual_income := Some 100000;
     DocumentModels.taxable_income := Some 120000;
     DocumentModels.tax_paid := Some 5000;
     DocumentModels.fiscal_year := Some 2023%Z;
     DocumentModels.taxpayer_name := None;
     DocumentModels.fiscal_id := None |}.

Definition analyze_tax_as (tax_decl : DocumentModels.TaxDeclarationData)
    : option DocumentModels.DocumentAnalysisResult :=
  DocumentParser.analyze_document (fun _ => sample_text) (fun _ => None)
    (fun _ => Some tax_decl) (fun _ => None) []
    DocumentModels.TAX_DECLARATION.

(** A valid tax declaration with a declared annual income, and a second
    pay slip close to the first. *)
Definition good_tax_declaration : DocumentModels.DocumentAnalysisResult :=
  {| DocumentModels.document_type := DocumentModels.TAX_DECLARATION;
     DocumentModels.status := DocumentModels.VALID;
     DocumentModels.confidence := 0.7;
     DocumentModels.extracted_data :=
       {[ "gross_annual_income" := DocumentModels.PNum 150000 ]};
     DocumentModels.validation_issues := [];
     DocumentModels.score := 70;
     DocumentModels.risk_flags := [];
     DocumentModels.recommendations := [] |}.

Definition second_pay_slip : DocumentModels.DocumentAnalysisResult :=
  {| DocumentModels.document_type := DocumentModels.PAY_SLIP;
     DocumentModels.status := DocumentModels.VALID;
     DocumentModels.confidence := 0.8;
     DocumentModels.extracted_data :=
       {[ "net_salary" := DocumentModels.PNum 12400 ]};
     DocumentModels.validation_issues := [];
     DocumentModels.score := 80;
     DocumentModels.risk_flags := [];
     DocumentModels.recommendations := [] |}.

(** Two uploads for the sample analysis: the first page reads as
    [sample_text] and parses into the clean pay slip, any other into the
    inverted one. *)
Definition sample_extract (pdf_bytes : list Byte.byte) : string :=
  match pdf_bytes with
  | [] => sample_text
  | _ :: _ => sample_text +:+ " (suite)"
  end.

Definition sample_parse (text : string) : option DocumentModels.PaySlipData :=
  if String.eqb text sample_text then Some clean_pay_slip
  else Some inverted_pay_slip.

Definition sample_uploads
    : list (list Byte.byte * DocumentModels.DocumentType) :=
  [([], DocumentModels.PAY_SLIP); ([Byte.x00], DocumentModels.PAY_SLIP)].

Definition sample_upload_results : list DocumentModels.DocumentAnalysisResult :=
  omap (fun upload : list Byte.byte * DocumentModels.DocumentType =>
          DocumentParser.analyze_document sample_extract sample_parse
            (fun _ => None) (fun _ => None) upload.1 upload.2)
    sample_uploads.

(** A tax declaration and a bank statement as read by the overall
    calculation, with scores on the unit scale, and an application made of
    them alone. *)
Definition scored_tax : DocumentAnalyzer.Analysis :=
  {| DocumentAnalyzer.entries :=
       {[ "income_score" := 0.9; "compliance_score" := 0.7 ]};
     DocumentAnalyzer.extracted_data := None |}.

Definition scored_bank : DocumentAnalyzer.Analysis :=
  {| DocumentAnalyzer.entries :=
       {[ "balance_score" := 1; "cash_flow_score" := 0.8 ]};
     DocumentAnalyzer.extracted_data := None |}.

Definition documents_without_pay_slip : DocumentAnalyzer.Documents :=
  {| DocumentAnalyzer.doc_PAY_SLIP := None;
     DocumentAnalyzer.doc_TAX_DECLARATION := Some scored_tax;
     DocumentAnalyzer.doc_BANK_STATEMENT := Some scored_bank |}.

(** A pay slip with a net salary of 10000 and middling scores. *)
Definition fair_documents : DocumentAnalyzer.Documents :=
  {| DocumentAnalyzer.doc_PAY_SLIP :=
       Some (DocumentAnalyzer.SlipOne
               {| DocumentAnalyzer.entries :=
                    {[ "salary_score" := 0.75; "stability_score" := 0.7 ]};
                  DocumentAnalyzer.extracted_data :=
                    Some {[ "net_salary" := 10000 ]} |});
     DocumentAnalyzer.doc_TAX_DECLARATION := Some scored_tax;
     DocumentAnalyzer.doc_BANK_STATEMENT := None |}.

(** Extractors for the sample analyses: fixed amounts whatever the text, a
    salary credit and a rent debit as transactions. *)
Definition sample_extractors : DocumentAnalyzer.Extractors :=
  {| DocumentAnalyzer._extract_gross_salary := fun _ => 15000;
     DocumentAnalyzer._extract_net_salary := fun _ => 12000;
     DocumentAnalyzer._extract_deductions := fun _ => ∅;
     DocumentAnalyzer._extract_employee_name := fun _ => "Unknown";
     DocumentAnalyzer._extract_company := fun _ => "Unknown";
     DocumentAnalyzer._extract_pay_period := fun _ => "Unknown";
     DocumentAnalyzer._extract_annual_income := fun _ => 180000;
     DocumentAnalyzer._extract_taxable_income := fun _ => 150000;
     DocumentAnalyzer._extract_tax_paid := fun _ => 30000;
     DocumentAnalyzer._extract_fiscal_year := fun _ => "2024";
     DocumentAnalyzer._extract_account_holder := fun _ => "Unknown";
     DocumentAnalyzer._extract_account_number := fun _ => "Unknown";
     DocumentAnalyzer._extract_transactions :=
       fun _ => Some ([12000], [4000]);
     DocumentAnalyzer._extract_final_balance := fun _ => 60000;
     DocumentAnalyzer.format_number := plain_format |}.


(** What is left of a CIN when the OCR confidence was not extracted. *)
Definition cin_without_confidence : Features :=
  {[ "is_expired" := FBool true ]}.

(** The good pay slip again, read with a slightly higher confidence. *)
Definition surer_pay_slip : DocumentModels.DocumentAnalysisResult :=
  {| DocumentModels.document_type := DocumentModels.PAY_SLIP;
     DocumentModels.status := DocumentModels.VALID;
     DocumentModels.confidence := 0.8001;
     DocumentModels.extracted_data :=
       {[ "net_salary" := DocumentModels.PNum 12000 ]};
     DocumentModels.validation_issues := [];
     DocumentModels.score := 80;
     DocumentModels.risk_flags := [];
     DocumentModels.recommendations := [] |}.

(** A short text with accents: 49 characters held in 59 bytes. *)
Definition accented_text : string :=
  "Employé rémunéré à Fès, période de février à août".

(** * Properties *)

(** ** Arithmetic of the Python builtins *)

(** Case analysis on every comparison and boolean test in the goal. *)
Ltac split_tests :=
  repeat match goal with
         | |- context [Qlt_le_dec ?a ?b] => destruct (Qlt_le_dec a b)
         | H : context [Qlt_le_dec ?a ?b] |- _ => destruct (Qlt_le_dec a b)
         end.

Ltac unfold_py :=
  unfold Py.gt, Py.ge in *; unfold Py.min, Py.max, Py.lt, Py.le in *.

Ltac py_arith := unfold_py; split_tests; simpl in *; try lra.

Lemma clip_range (x : Q) : 0 <= max 0 (min 100 x) <= 100.
Proof. py_arith. Qed.

Lemma clip_keeps_threshold (x t : Q) :
  0 < t -> t <= 100 -> (t <= max 0 (min 100 x) <-> t <= x).
Proof. intros Ht0 Ht1. py_arith. Qed.

Lemma round_half_even_range (a b : Z) (q : Q) :
  inject_Z a <= q -> q <= inject_Z b ->
  (a <= round_half_even q <= b)%Z.
Proof.
  intros Ha Hb.
  assert (Hfa : (a <= Qfloor q)%Z).
  { rewrite <- (Qfloor_Z a). now apply Qfloor_resp_le. }
  assert (Hfb : (Qfloor q <= b)%Z).
  { rewrite <- (Qfloor_Z b). now apply Qfloor_resp_le. }
  assert (Hup : (Qfloor q = b -> q == inject_Z b)).
  { intros E. apply Qle_antisym; [exact Hb|].
    rewrite <- E. apply Qfloor_le. }
  unfold round_half_even.
  destruct (Qlt_le_dec (q - inject_Z (Qfloor q)) (1 # 2)) as [H1|H1];
    [lia|].
  assert (Hne : Qfloor q <> b).
  { intros E. specialize (Hup E). rewrite E in H1. lra. }
  destruct (Qlt_le_dec (1 # 2) (q - inject_Z (Qfloor q)));
    [lia|]. destruct (Z.even (Qfloor q)); lia.
Qed.

Lemma scale_pos (n : nat) : 0 < inject_Z (10 ^ Z.of_nat n).
Proof.
  change 0 with (inject_Z 0). rewrite <- Zlt_Qlt.
  apply Z.pow_pos_nonneg; lia.
Qed.

Lemma round_range (q : Q) (n : nat) :
  0 <= q -> q <= 100 -> 0 <= round q n <= 100.
Proof.
  intros H0 H1. unfold round.
  pose proof (scale_pos n) as Hs.
  set (s := inject_Z (10 ^ Z.of_nat n)) in *.
  destruct (round_half_even_range 0 (100 * 10 ^ Z.of_nat n) (q * s))
    as [Hlo Hhi].
  - change (inject_Z 0) with 0. nra.
  - rewrite inject_Z_mult. fold s. change (inject_Z 100) with 100. nra.
  - rewrite Zle_Qle in Hlo, Hhi. rewrite inject_Z_mult in Hhi. fold s in Hhi.
    change (inject_Z 0) with 0 in Hlo. change (inject_Z 100) with 100 in Hhi.
    split.
    + apply Qle_shift_div_l; [exact Hs|]. lra.
    + apply Qle_shift_div_r; [exact Hs|]. lra.
Qed.

Lemma round_half_even_monotone (q q' : Q) :
  q <= q' -> (round_half_even q <= round_half_even q')%Z.
Proof.
  intros Hle. pose proof (Qfloor_resp_le _ _ Hle) as Hf.
  unfold round_half_even.
  destruct (Z.eq_dec (Qfloor q) (Qfloor q')) as [E|NE].
  - rewrite <- E.
    destruct (Qlt_le_dec (q - inject_Z (Qfloor q)) (1 # 2));
      destruct (Qlt_le_dec (q' - inject_Z (Qfloor q)) (1 # 2));
      destruct (Qlt_le_dec (1 # 2) (q - inject_Z (Qfloor q)));
      destruct (Qlt_le_dec (1 # 2) (q' - inject_Z (Qfloor q)));
      destruct (Z.even (Qfloor q)); try lia; exfalso; lra.
  - assert (Hlt : (Qfloor q + 1 <= Qfloor q')%Z) by lia.
    destruct (Qlt_le_dec (q - inject_Z (Qfloor q)) (1 # 2));
      destruct (Qlt_le_dec (q' - inject_Z (Qfloor q')) (1 # 2));
      destruct (Qlt_le_dec (1 # 2) (q - inject_Z (Qfloor q)));
      destruct (Qlt_le_dec (1 # 2) (q' - inject_Z (Qfloor q')));
      destruct (Z.even (Qfloor q)); destruct (Z.even (Qfloor q')); lia.
Qed.

Lemma round_monotone (q q' : Q) (n : nat) :
  q <= q' -> round q n <= round q' n.
Proof.
  intros Hle. unfold round.
  pose proof (scale_pos n) as Hs.
  set (s := inject_Z (10 ^ Z.of_nat n)) in *.
  assert (Hm : (round_half_even (q * s) <= round_half_even (q' * s))%Z).
  { apply round_half_even_monotone. nra. }
  rewrite Zle_Qle in Hm.
  apply Qle_shift_div_l; [exact Hs|].
  unfold Qdiv. rewrite <- Qmult_assoc, (Qmult_comm (/ s)), Qmult_inv_r; lra.
Qed.

Lemma round_proper (q q' : Q) (n : nat) : q == q' -> round q n == round q' n.
Proof.
  intros E. apply Qle_antisym; apply round_monotone; rewrite E; apply Qle_refl.
Qed.

Lemma round_zero (n : nat) : round 0 n == 0.
Proof.
  unfold round.
  destruct (round_half_even_range 0 0 (0 * inject_Z (10 ^ Z.of_nat n)))
    as [Hlo Hhi]; try (change (inject_Z 0) with 0; lra).
  replace (round_half_even (0 * inject_Z (10 ^ Z.of_nat n))) with 0%Z by lia.
  change (inject_Z 0) with 0. unfold Qdiv. apply Qmult_0_l.
Qed.


(** ** Worked scenarios *)

(** The pay slip scenario: net salary 7200, every check passed and a
    consistency of 0.85 give 0.6 * 24 + 0.4 * 97 = 53.2 and VALID. *)
Example payslip_scenario :
  let f := {| GenerateDataset.net_salary := 7200;
              GenerateDataset.has_company_stamp := true;
              GenerateDataset.amounts_match := true;
              GenerateDataset.has_required_fields := true;
              GenerateDataset.salary_consistency := 0.85;
              GenerateDataset.months_ago := 1 |} in
  GenerateDataset.payslip_score f == 53.2 /\
  GenerateDataset.payslip_status f = "VALID".
Proof. split; reflexivity. Qed.

(** The debt scenario: a payment of 3000 on an income of 10000 is a ratio
    of 30% and falls in the bucket scored 80. *)
Example debt_scenario :
  let r := DocumentScorer.calculate_debt_ratio_score 10000 0 3000 in
  r.1 == 80 /\ r.2 == 30.
Proof. split; reflexivity. Qed.

(** Rounding goes to the nearest hundredth, ties to the even digit. *)
Example round_examples :
  round 30.3125 2 == 30.31 /\ round 0.125 2 == 0.12 /\
  round 0.135 2 == 0.14 /\ round (-0.125) 2 == -0.12 /\ round 93.2 2 == 93.2.
Proof. repeat split. Qed.

(** ** Rule-based status of the fallbacks *)

Lemma status_of_score_cases (s : Q) :
  (70 <= s /\ MLModelService.status_of_score s = "VALID") \/
  (50 <= s /\ s < 70 /\ MLModelService.status_of_score s = "SUSPICIOUS") \/
  (s < 50 /\ MLModelService.status_of_score s = "INVALID").
Proof.
  unfold MLModelService.status_of_score, Py.ge, Py.le.
  destruct (Qlt_le_dec s 70); destruct (Qlt_le_dec s 50);
    auto 6; exfalso; lra.
Qed.

Lemma fallback_result_follows_score (s : Q) :
  status_follows_score (MLModelService.fallback_result s).
Proof.
  unfold status_follows_score, MLModelService.fallback_result.
  cbn [status score].
  pose proof (clip_keeps_threshold s 70 ltac:(lra) ltac:(lra)) as H70.
  pose proof (clip_keeps_threshold s 50 ltac:(lra) ltac:(lra)) as H50.
  destruct (status_of_score_cases s) as [[Hs E]|[[Hs [Hs' E]]|[Hs E]]];
    rewrite E; repeat split; intros; try discriminate; try tauto;
    try (apply Qnot_le_lt; intro); try (exfalso; intuition lra);
    intuition lra.
Qed.

(** C10: when no model is loaded, every [predict_*_document] method of
    [MLModelService] answers with the rule-based fallback, whose status is
    fixed by its score alone: VALID exactly when the score is at least 70,
    SUSPICIOUS exactly when it lies in [50, 70), INVALID exactly when it is
    below 50, and never INCOMPLETE, for the four document kinds. *)
Theorem fallback_status_from_score
    (self : MLModelService.MLModelService) (data : Features) :
  MLModelService.model_loaded self = false ->
  status_follows_score (MLModelService.predict_cin_document self data) /\
  status_follows_score (MLModelService.predict_payslip_document self data) /\
  status_follows_score (MLModelService.predict_tax_document self data) /\
  status_follows_score
    (MLModelService.predict_bank_statement_document self data).
Proof.
  intros Hloaded.
  unfold MLModelService.predict_cin_document,
    MLModelService.predict_payslip_document,
    MLModelService.predict_tax_document,
    MLModelService.predict_bank_statement_document,
    MLModelService.predict_with.
  rewrite Hloaded; cbn [negb].
  split; [|split; [|split]]; apply fallback_result_follows_score.
Qed.

Lemma fallback_status_from_score_witness :
  MLModelService.model_loaded unloaded_service = false /\
  status_follows_score
    (MLModelService.predict_cin_document unloaded_service expired_cin_dict) /\
  status_follows_score
    (MLModelService.predict_payslip_document unloaded_service
       expired_cin_dict) /\
  status_follows_score
    (MLModelService.predict_tax_document unloaded_service expired_cin_dict) /\
  status_follows_score
    (MLModelService.predict_bank_statement_document unloaded_service
       expired_cin_dict).
Proof.
  split; [reflexivity|].
  apply (fallback_status_from_score unloaded_service expired_cin_dict).
  reflexivity.
Defined.

(** ** Ground-truth rules and fallbacks on single features *)

(** C3: an expired CIN is INVALID under the ground-truth labelling rule
    and under the rule-based fallback, whatever the other features are. *)
Theorem expired_cin_is_invalid
    (f : GenerateDataset.CinFeatures) (data : Features) :
  GenerateDataset.is_expired f = true ->
  truthy (get data "is_expired" (FBool false)) = true ->
  GenerateDataset.cin_status f = "INVALID" /\
  status (MLModelService._fallback_cin_analysis data) = "INVALID".
Proof.
  intros Hf Hd. split.
  - unfold GenerateDataset.cin_status. rewrite Hf. reflexivity.
  - unfold MLModelService._fallback_cin_analysis. rewrite Hd.
    set (s := if negb _ then _ else _).
    assert (Hs : s < 50).
    { subst s.
      destruct (Py.lt _ 0.7); destruct (negb _); lra. }
    cbn [status MLModelService.fallback_result].
    destruct (status_of_score_cases s) as [[H _]|[[H _]|[_ E]]];
      [lra | lra | exact E].
Qed.

Lemma expired_cin_is_invalid_witness :
  GenerateDataset.cin_status expired_cin = "INVALID" /\
  status (MLModelService._fallback_cin_analysis expired_cin_dict)
  = "INVALID".
Proof.
  apply (expired_cin_is_invalid expired_cin expired_cin_dict);
    reflexivity.
Defined.

(** The fallback does not force INVALID on a pay slip whose amounts do not
    match: with a company stamp and a net salary of 12000 the score is
    100 - 30 = 70 and the status is VALID. *)
Lemma mismatched_payslip_fallback_valid :
  truthy (get mismatched_payslip_dict "amounts_match" (FBool true)) = false /\
  status (MLModelService._fallback_payslip_analysis mismatched_payslip_dict)
  <> "INVALID" /\
  status (MLModelService._fallback_payslip_analysis mismatched_payslip_dict)
  = "VALID" /\
  score (MLModelService._fallback_payslip_analysis mismatched_payslip_dict)
  == 70.
Proof. repeat split. discriminate. Qed.

(** C2 (amended): with [amounts_match] false the ground-truth labelling
    rule gives INVALID whatever the other features are; the rule-based
    fallback takes 30 points off and reads the status from the score, so
    it gives INVALID whenever the net salary is below 8000 and VALID only
    for a stamped pay slip with a net salary of at least 10000. *)
Theorem amounts_mismatch_status
    (f : GenerateDataset.PaySlipFeatures) (data : Features) :
  GenerateDataset.amounts_match f = false ->
  truthy (get data "amounts_match" (FBool true)) = false ->
  GenerateDataset.payslip_status f = "INVALID" /\
  (num (get data "net_salary" (FNum 0)) < 8000 ->
   status (MLModelService._fallback_payslip_analysis data) = "INVALID") /\
  (status (MLModelService._fallback_payslip_analysis data) = "VALID" <->
   truthy (get data "has_company_stamp" (FBool true)) = true /\
   10000 <= num (get data "net_salary" (FNum 0))).
Proof.
  intros Hf Hd. split.
  { unfold GenerateDataset.payslip_status. rewrite Hf. reflexivity. }
  unfold MLModelService._fallback_payslip_analysis. rewrite Hd.
  cbn [negb status MLModelService.fallback_result].
  set (net := num (get data "net_salary" (FNum 0))).
  set (stamp := truthy (get data "has_company_stamp" (FBool true))).
  set (s := (if negb stamp then _ else _) - 30).
  assert (Hdiv : net / 100 == net * (1 # 100)) by (unfold Qdiv; reflexivity).
  assert (Hs : (stamp = true /\ s == Py.min 100 (net / 100) - 30) \/
               (stamp = false /\ s == Py.min 100 (net / 100) - 50)).
  { subst s. destruct stamp; cbn [negb]; [left|right]; split;
      try reflexivity; ring. }
  unfold Py.min in Hs.
  destruct (Qlt_le_dec (net / 100) 100) as [Hn|Hn];
    destruct (status_of_score_cases s) as [[H E]|[[H [H' E]]|[H E]]];
    rewrite E; split; try split; intros; try discriminate;
    try reflexivity; try (exfalso; intuition lra);
    destruct Hs as [[Hst Hs]|[Hst Hs]]; rewrite Hst in *;
    try (intuition (try discriminate; lra)).
Qed.

Lemma amounts_mismatch_status_witness :
  GenerateDataset.payslip_status mismatched_payslip = "INVALID" /\
  (num (get mismatched_payslip_dict "net_salary" (FNum 0)) < 8000 ->
   status (MLModelService._fallback_payslip_analysis mismatched_payslip_dict)
   = "INVALID") /\
  (status (MLModelService._fallback_payslip_analysis mismatched_payslip_dict)
   = "VALID" <->
   truthy (get mismatched_payslip_dict "has_company_stamp" (FBool true))
   = true /\
   10000 <= num (get mismatched_payslip_dict "net_salary" (FNum 0))).
Proof.
  apply (amounts_mismatch_status mismatched_payslip mismatched_payslip_dict);
    reflexivity.
Defined.

(** The scenario's CIN scores 93.2 under the ground-truth rule, more than
    six points above the 86.8 of the scenario. *)
Lemma cin_scenario_score_not_86_8 :
  GenerateDataset.cin_score cin_scenario == 93.2 /\
  ~ GenerateDataset.cin_score cin_scenario == 86.8 /\
  6 < GenerateDataset.cin_score cin_scenario - 86.8.
Proof.
  assert (E : GenerateDataset.cin_score cin_scenario == 93.2) by reflexivity.
  split; [exact E|]. rewrite E. split; [intros H; lra | lra].
Qed.

(** C7 (amended): for the scenario's CIN features the ground-truth rule
    gives the score 93.2, which is the value of
    0.4*92 + 0.3*88 + 0.2*100 + 0.05*100 + 0.05*100, and the status VALID;
    the labelled row carries the same score after rounding. *)
Theorem cin_scenario_score :
  GenerateDataset.cin_score cin_scenario == 93.2 /\
  0.4 * 92 + 0.3 * 88 + 0.2 * 100 + 0.05 * 100 + 0.05 * 100 == 93.2 /\
  GenerateDataset.cin_status cin_scenario = "VALID" /\
  GenerateDataset.cin_row_score
    (GenerateDataset.generate_cin_row false 0.92 0.88 true true true)
  == 93.2 /\
  GenerateDataset.cin_row_status
    (GenerateDataset.generate_cin_row false 0.92 0.88 true true true)
  = "VALID".
Proof. repeat split. Qed.

(** ** Sums and averages *)

Lemma len_cons {A} (x : A) (l : list A) : len (x :: l) == len l + 1.
Proof.
  unfold len. cbn [length]. rewrite Nat2Z.inj_succ, <- Z.add_1_r.
  rewrite inject_Z_plus. reflexivity.
Qed.

Lemma len_fmap {A B} (f : A -> B) (l : list A) : len (f <$> l) = len l.
Proof. unfold len. now rewrite length_fmap. Qed.

Lemma len_nonneg {A} (l : list A) : 0 <= len l.
Proof.
  unfold len. change 0 with (inject_Z 0). rewrite <- Zle_Qle. lia.
Qed.

Lemma len_pos {A} (x : A) (l : list A) : 0 < len (x :: l).
Proof. rewrite len_cons. pose proof (len_nonneg l). lra. Qed.

Lemma sum_range (a b : Q) (l : list Q) :
  Forall (fun x => a <= x <= b) l ->
  a * len l <= sum l <= b * len l.
Proof.
  induction 1 as [|x t Hx _ IH].
  - change (len []) with 0. change (sum []) with 0. lra.
  - rewrite len_cons. change (sum (x :: t)) with (x + sum t). nra.
Qed.

Lemma average_range (a b : Q) (l : list Q) :
  l <> [] -> Forall (fun x => a <= x <= b) l ->
  a <= sum l / len l <= b.
Proof.
  intros Hne Hall. destruct l as [|x t]; [congruence|].
  pose proof (len_pos x t) as Hpos.
  destruct (sum_range a b _ Hall) as [Hlo Hhi].
  split.
  - apply Qle_shift_div_l; [exact Hpos|exact Hlo].
  - apply Qle_shift_div_r; [exact Hpos|exact Hhi].
Qed.

Lemma ratio_nonneg (a b : Q) : 0 <= a -> 0 <= b -> 0 <= a / b.
Proof.
  intros Ha Hb. destruct (Qlt_le_dec 0 b) as [Hpos|Hle].
  - apply Qle_shift_div_l; [exact Hpos|lra].
  - assert (E : b == 0) by lra. rewrite E. unfold Qdiv.
    change (/ 0) with 0. lra.
Qed.

(** ** The creditworthiness aggregator *)

Lemma pay_slip_income_range pay_slips s d s' d' :
  DocumentScorer.pay_slip_income pay_slips s d = Some (s', d') ->
  s <= s' <= s + 60.
Proof.
  unfold DocumentScorer.pay_slip_income.
  destruct pay_slips as [|p ps]; [intros [= <- <-]; lra|].
  destruct (List.filter _ _) as [|v vs]; [intros [= <- <-]; lra|].
  destruct (mapM _ _) as [salaries|]; cbn [mbind option_bind];
    [|discriminate].
  destruct (2 <=? length salaries)%nat.
  - destruct (max_list salaries) as [hi|]; cbn [mbind option_bind];
      [|discriminate].
    destruct (min_list salaries) as [lo|]; cbn [mbind option_bind];
      [|discriminate].
    intros [= <- <-]. py_arith.
  - intros [= <- <-]. py_arith.
Qed.

Lemma tax_declaration_income_grows tds acc :
  acc.1 <= (foldl DocumentScorer.tax_declaration_income acc tds).1.
Proof.
  revert acc. induction tds as [|td tds IH]; intros acc; cbn [foldl].
  - lra.
  - eapply Qle_trans; [|apply IH].
    unfold DocumentScorer.tax_declaration_income.
    destruct (DocumentModels.pyval_truthy _); cbn [fst]; lra.
Qed.

Lemma calculate_income_score_range documents inc :
  DocumentScorer.calculate_income_score documents = Some inc ->
  0 <= inc.1 <= 100.
Proof.
  unfold DocumentScorer.calculate_income_score.
  destruct (DocumentScorer.pay_slip_income _ _ _) as [[s d]|] eqn:E;
    cbn [mbind option_bind]; [|discriminate].
  intros [= <-]. cbn [fst].
  apply pay_slip_income_range in E.
  pose proof (tax_declaration_income_grows
                (DocumentScorer.of_type DocumentModels.TAX_DECLARATION
                   documents) (s, d)) as Hg.
  cbn [fst] in Hg. py_arith.
Qed.

Lemma calculate_debt_ratio_score_range mi rc mp :
  0 <= (DocumentScorer.calculate_debt_ratio_score mi rc mp).1 <= 100.
Proof.
  unfold DocumentScorer.calculate_debt_ratio_score.
  unfold_py. split_tests; cbn [fst]; lra.
Qed.

Lemma document_quality_range documents :
  Forall (fun d => 0 <= DocumentModels.score d <= 100) documents ->
  0 <= DocumentScorer.document_quality documents <= 100.
Proof.
  intros Hall. unfold DocumentScorer.document_quality.
  destruct documents as [|d ds]; [lra|].
  rewrite <- (len_fmap DocumentModels.score).
  apply average_range; [discriminate|].
  apply Forall_fmap. exact Hall.
Qed.

Lemma calculate_consistency_score_range documents :
  Forall (fun d => 0 <= DocumentModels.score d <= 100) documents ->
  Forall (fun d => 0 <= DocumentModels.confidence d <= 1) documents ->
  0 <= DocumentScorer.calculate_consistency_score documents <= 100.
Proof.
  intros Hs Hc. unfold DocumentScorer.calculate_consistency_score.
  destruct documents as [|d ds]; [lra|].
  set (docs := d :: ds) in *.
  assert (Hv : 0 <= len (List.filter
                          (fun d => String.eqb
                             (DocumentModels.status_value
                                (DocumentModels.status d)) "valid") docs)
                    / len docs).
  { apply ratio_nonneg; apply len_nonneg. }
  assert (Ha : 0 <= sum (DocumentModels.score <$> docs) / len docs <= 100).
  { rewrite <- (len_fmap DocumentModels.score).
    apply average_range; [discriminate|]. apply Forall_fmap. exact Hs. }
  assert (Hb : 0 <= sum (DocumentModels.confidence <$> docs) / len docs <= 1).
  { rewrite <- (len_fmap DocumentModels.confidence).
    apply average_range; [discriminate|]. apply Forall_fmap. exact Hc. }
  revert Hv Ha Hb.
  generalize (len (List.filter
                     (fun d => String.eqb
                        (DocumentModels.status_value
                           (DocumentModels.status d)) "valid") docs)
              / len docs).
  generalize (sum (DocumentModels.score <$> docs) / len docs).
  generalize (sum (DocumentModels.confidence <$> docs) / len docs).
  intros c a v Hv Ha Hb. unfold Py.min.
  assert (Hdiv : a / 100 == a * (1 # 100)) by (unfold Qdiv; reflexivity).
  destruct (Qlt_le_dec _ _); lra.
Qed.

Lemma weighted_overall_score_range i c d q :
  0 <= i <= 100 -> 0 <= c <= 100 -> 0 <= d <= 100 -> 0 <= q <= 100 ->
  0 <= DocumentScorer.weighted_overall_score i c d q <= 100.
Proof. unfold DocumentScorer.weighted_overall_score. lra. Qed.

(** What [evaluate_creditworthiness] reports: the weighted sum of the four
    component scores rounded to two decimals, the decision read off the
    unrounded sum, and the rounded debt ratio and debt score. *)
Lemma evaluate_creditworthiness_overall documents rc mp r :
  DocumentScorer.evaluate_creditworthiness documents rc mp = Some r ->
  exists inc,
    DocumentScorer.calculate_income_score documents = Some inc /\
    let debt :=
      DocumentScorer.calculate_debt_ratio_score
        (DocumentScorer.income_monthly_income inc.2) rc mp in
    let overall :=
      DocumentScorer.weighted_overall_score inc.1
        (DocumentScorer.calculate_consistency_score documents) debt.1
        (DocumentScorer.document_quality documents) in
    DocumentModels.monthly_income r
    = DocumentScorer.income_monthly_income inc.2 /\
    DocumentModels.overall_score r = round overall 2 /\
    DocumentModels.decision r = (DocumentScorer.rating_of overall).1.2 /\
    DocumentModels.debt_ratio_score r = round debt.1 2 /\
    DocumentModels.debt_to_income_ratio r = round debt.2 2.
Proof.
  unfold DocumentScorer.evaluate_creditworthiness.
  destruct (DocumentScorer.calculate_income_score documents) as [inc|];
    cbn [mbind option_bind]; [|discriminate].
  destruct (DocumentScorer.rating_of _) as [[rating decision] risk] eqn:E.
  intros [= <-]. exists inc. cbn. rewrite E. repeat split.
Qed.

(** The aggregator returns an assessment as soon as every net salary that
    counts is a number: no other step can raise. *)
Lemma evaluate_creditworthiness_returns documents rc mp :
  Forall numeric_salary documents ->
  is_Some (DocumentScorer.evaluate_creditworthiness documents rc mp).
Proof.
  intros Hnum.
  assert (Hinc : is_Some (DocumentScorer.calculate_income_score documents)).
  { unfold DocumentScorer.calculate_income_score.
    assert (Hps : Forall numeric_salary
                    (DocumentScorer.of_type DocumentModels.PAY_SLIP
                       documents)).
    { unfold DocumentScorer.of_type. rewrite Forall_forall in *.
      intros d Hd. apply Hnum. apply list_elem_of_In.
      apply list_elem_of_In in Hd. apply filter_In in Hd. tauto. }
    revert Hps.
    generalize (DocumentScorer.of_type DocumentModels.PAY_SLIP documents).
    intros pay_slips Hps.
    enough (Hp : is_Some (DocumentScorer.pay_slip_income pay_slips 0
                {| DocumentScorer.income_monthly_income := 0;
                   DocumentScorer.income_annual_income :=
                     DocumentModels.PNum 0;
                   DocumentScorer.income_sources := 0 |})).
    { destruct Hp as [acc ->]. cbn [mbind option_bind]. eauto. }
    unfold DocumentScorer.pay_slip_income.
    destruct pay_slips as [|p ps]; [eauto|].
    set (raw := List.filter _ _).
    assert (Hraw : Forall (fun v => is_Some (DocumentModels.pyval_num v)) raw).
    { subst raw. rewrite Forall_forall. intros v Hv.
      apply list_elem_of_In, filter_In in Hv. destruct Hv as [Hin Ht].
      apply list_elem_of_In, list_elem_of_fmap in Hin.
      destruct Hin as [d [-> Hd]].
      rewrite Forall_forall in Hps. exact (Hps d Hd Ht). }
    destruct raw as [|v vs] eqn:Eraw; [eauto|].
    rewrite <- Eraw in *. clear Eraw.
    apply mapM_is_Some in Hraw. destruct Hraw as [salaries ->].
    cbn [mbind option_bind].
    destruct (2 <=? length salaries)%nat eqn:E2; [|eauto].
    destruct salaries as [|x t]; [discriminate|].
    cbn [max_list min_list mbind option_bind]. eauto. }
  unfold DocumentScorer.evaluate_creditworthiness.
  destruct Hinc as [inc ->]. cbn [mbind option_bind].
  destruct (DocumentScorer.rating_of _) as [[rating decision] risk].
  eauto.
Qed.

(** ** Scores stay within the scale *)

Lemma score_with_range self doc_type feats fallback :
  within_scale fallback ->
  within_scale (ScoringService.score_with self doc_type feats fallback).
Proof.
  intros Hf. unfold ScoringService.score_with.
  destruct (ScoringService.models self !! doc_type); [|exact Hf].
  destruct (ScoringService.model_prediction _ _ _); [|exact Hf].
  apply clip_range.
Qed.

Lemma predict_document_score self feats document_type p :
  predict_document self feats document_type = Some p ->
  exists raw, score p = round (max 0 (min 100 raw)) 2.
Proof.
  unfold predict_document.
  destruct (negb (model_trained self)); [discriminate|].
  repeat match goal with
         | |- context [mbind _ ?o] =>
             destruct o; cbn [mbind option_bind]; [|discriminate]
         end.
  intros [= <-]. cbn [score]. eauto.
Qed.

Lemma predict_document_returns self feats document_type :
  model_trained self = true ->
  estimators_answer self ->
  is_Some (select_columns feats (prepare_features document_type)) ->
  document_type ∈ known_types ->
  is_Some (predict_document self feats document_type).
Proof.
  intros Ht He [vals Hv] Hty. unfold predict_document.
  rewrite Ht, Hv. cbn [negb mbind option_bind].
  assert (Hi : is_Some
                 (index document_type
                    ["CIN"; "PAY_SLIP"; "TAX_DECLARATION"; "BANK_STATEMENT"])).
  { unfold known_types in Hty.
    repeat (apply elem_of_cons in Hty as [->|Hty]; [cbn; eauto|]).
    apply elem_of_nil in Hty. contradiction. }
  destruct Hi as [k ->]. cbn [mbind option_bind].
  match goal with
  | |- context [scaler_transform self ?row] =>
      destruct (He row) as (xs & c & proba & st & s & H1 & H2 & H3 & Hne
                            & H4 & H5)
  end.
  rewrite H1; cbn [mbind option_bind].
  rewrite H2; cbn [mbind option_bind].
  rewrite H3; cbn [mbind option_bind].
  rewrite H4; cbn [mbind option_bind].
  destruct proba as [|x t]; [contradiction|].
  cbn [max_list mbind option_bind].
  rewrite H5; cbn [mbind option_bind]. eauto.
Qed.

(** C1 (amended): every scoring operation answers within [0, 100],
    whatever the feature dictionary holds: the four per-kind scorers of the
    scoring service (model or fallback), the joint model's
    [predict_document] whenever it returns a prediction, and the
    aggregator's overall score when each document's own score lies within
    [0, 100] and its confidence within [0, 1], the documented ranges of a
    [DocumentAnalysisResult]; the aggregator applies no clip of its own.
    The scorers are total; [predict_document] returns for a trained model
    whose estimators answer, a known document type and a dictionary
    holding its columns; the aggregator returns as soon as the net
    salaries it reads are numbers. *)
Theorem scores_within_scale
    (service : ScoringService.DocumentScoringService)
    (joint : DocumentAnalysisModel) (feats : Features)
    (document_type : string)
    (documents : list DocumentModels.DocumentAnalysisResult)
    (requested_credit monthly_payment : Q) :
  Forall documented_ranges documents ->
  within_scale (ScoringService.score_cin service feats) /\
  within_scale (ScoringService.score_payslip service feats) /\
  within_scale (ScoringService.score_tax service feats) /\
  within_scale (ScoringService.score_bank service feats) /\
  (forall p, predict_document joint feats document_type = Some p ->
             within_scale (score p)) /\
  (model_trained joint = true -> estimators_answer joint ->
   is_Some (select_columns feats (prepare_features document_type)) ->
   document_type ∈ known_types ->
   is_Some (predict_document joint feats document_type)) /\
  (forall r,
     DocumentScorer.evaluate_creditworthiness documents requested_credit
       monthly_payment = Some r ->
     within_scale (DocumentModels.overall_score r)) /\
  (Forall numeric_salary documents ->
   is_Some
     (DocumentScorer.evaluate_creditworthiness documents requested_credit
        monthly_payment)).
Proof.
  intros Hdocs.
  repeat match goal with |- _ /\ _ => split end.
  - apply score_with_range. apply clip_range.
  - apply score_with_range. apply clip_range.
  - apply score_with_range. apply clip_range.
  - apply score_with_range. apply clip_range.
  - intros p Hp. apply predict_document_score in Hp as [raw ->].
    apply round_range; apply clip_range.
  - apply predict_document_returns.
  - intros r Hr.
    apply evaluate_creditworthiness_overall in Hr
      as (inc & Hinc & _ & -> & _).
    assert (Hs : Forall (fun d => 0 <= DocumentModels.score d <= 100)
                   documents).
    { eapply Forall_impl; [exact Hdocs|]. intros d [H _]. exact H. }
    assert (Hc : Forall (fun d => 0 <= DocumentModels.confidence d <= 1)
                   documents).
    { eapply Forall_impl; [exact Hdocs|]. intros d [_ H]. exact H. }
    cbv zeta.
    destruct (weighted_overall_score_range inc.1
                (DocumentScorer.calculate_consistency_score documents)
                (DocumentScorer.calculate_debt_ratio_score
                   (DocumentScorer.income_monthly_income inc.2)
                   requested_credit monthly_payment).1
                (DocumentScorer.document_quality documents)) as [Hlo Hhi].
    + exact (calculate_income_score_range _ _ Hinc).
    + exact (calculate_consistency_score_range _ Hs Hc).
    + apply calculate_debt_ratio_score_range.
    + exact (document_quality_range _ Hs).
    + apply round_range; assumption.
  - apply evaluate_creditworthiness_returns.
Qed.

Lemma scores_within_scale_witness :
  Forall documented_ranges [good_pay_slip; negative_pay_slip] /\
  within_scale (ScoringService.score_cin cin_only_service expired_cin_dict) /\
  within_scale
    (ScoringService.score_payslip cin_only_service expired_cin_dict) /\
  within_scale (ScoringService.score_tax cin_only_service expired_cin_dict) /\
  within_scale (ScoringService.score_bank cin_only_service expired_cin_dict) /\
  (forall p, predict_document constant_model expired_cin_dict "CIN" = Some p ->
             within_scale (score p)) /\
  (model_trained constant_model = true -> estimators_answer constant_model ->
   is_Some (select_columns expired_cin_dict (prepare_features "CIN")) ->
   "CIN" ∈ known_types ->
   is_Some (predict_document constant_model expired_cin_dict "CIN")) /\
  (forall r,
     DocumentScorer.evaluate_creditworthiness
       [good_pay_slip; negative_pay_slip] 50000 3000 = Some r ->
     within_scale (DocumentModels.overall_score r)) /\
  (Forall numeric_salary [good_pay_slip; negative_pay_slip] ->
   is_Some
     (DocumentScorer.evaluate_creditworthiness
        [good_pay_slip; negative_pay_slip] 50000 3000)).
Proof.
  assert (H : Forall documented_ranges [good_pay_slip; negative_pay_slip]).
  { repeat (constructor; [unfold documented_ranges; cbn; lra|]).
    constructor. }
  split; [exact H|].
  apply (scores_within_scale cin_only_service constant_model expired_cin_dict
           "CIN" [good_pay_slip; negative_pay_slip] 50000 3000).
  exact H.
Defined.

(** The operations do return on these inputs, and the clipping is what
    keeps them in range: the CIN regressor's -40 is reported as 0, the
    joint regressor's 250 as 100, and a pay slip with a negative salary
    still yields an overall score, 30.31. *)
Example clipped_scores :
  ScoringService.score_cin cin_only_service expired_cin_dict == 0 /\
  (exists p, predict_document constant_model expired_cin_dict "CIN" = Some p /\
             status p = "VALID" /\ score p == 100) /\
  (exists r, DocumentScorer.evaluate_creditworthiness
               [good_pay_slip; negative_pay_slip] 50000 3000 = Some r /\
             DocumentModels.overall_score r == 30.31 /\
             DocumentModels.monthly_income r == 3500).
Proof.
  split; [reflexivity|]. split; eexists; (split; [vm_compute; reflexivity|]);
    split; reflexivity.
Qed.

(** The aggregator itself applies no clip: its bound rests on the range of
    the document scores it is given.  One document with a score of 1000,
    outside the documented range, yields an overall score of 125. *)
Example overall_score_needs_document_range :
  ~ documented_ranges overrated_document /\
  exists r, DocumentScorer.evaluate_creditworthiness [overrated_document]
              0 0 = Some r /\
            DocumentModels.overall_score r == 125.
Proof.
  split.
  - unfold documented_ranges; cbn. lra.
  - eexists. split; [vm_compute; reflexivity|]. reflexivity.
Qed.

(** So the bound does not hold for every input of the aggregator: on the
    one document with a score of 1000 it returns an assessment whose
    overall score, 125, lies outside the scale. *)
Lemma overrated_document_above_scale :
  exists r,
    DocumentScorer.evaluate_creditworthiness [overrated_document] 0 0
    = Some r /\
    DocumentModels.overall_score r == 125 /\
    ~ within_scale (DocumentModels.overall_score r).
Proof.
  eexists. split; [vm_compute; reflexivity|]. split; [reflexivity|].
  intros [_ Hhi]. revert Hhi. apply Qlt_not_le. reflexivity.
Qed.

(** ** The empty application and the zero income *)

(** C4: for every requested credit and monthly payment the aggregator
    applied to no document at all raises nothing: it returns an assessment
    whose overall score is 0 and whose decision is the rejection (spelled
    "Rejected" by the aggregator). *)
Theorem empty_documents_rejected (requested_credit monthly_payment : Q) :
  exists r,
    DocumentScorer.evaluate_creditworthiness [] requested_credit
      monthly_payment = Some r /\
    DocumentModels.overall_score r == 0 /\
    DocumentModels.decision r = "Rejected".
Proof.
  eexists. split; [reflexivity|]. split; reflexivity.
Qed.

(** C5: with a monthly income of 0, or a negative one, the debt ratio
    computation returns the pair (0, 0): debt ratio score 0 and ratio 0,
    whatever the monthly payment and the requested credit; so does the
    aggregator in the assessment it reports. *)
Theorem zero_income_debt_ratio
    (monthly_income requested_credit monthly_payment : Q)
    (documents : list DocumentModels.DocumentAnalysisResult) :
  monthly_income <= 0 ->
  DocumentScorer.calculate_debt_ratio_score monthly_income requested_credit
    monthly_payment = (0, 0) /\
  (forall r,
     DocumentScorer.evaluate_creditworthiness documents requested_credit
       monthly_payment = Some r ->
     DocumentModels.monthly_income r <= 0 ->
     DocumentModels.debt_to_income_ratio r == 0 /\
     DocumentModels.debt_ratio_score r == 0).
Proof.
  intros Hle.
  assert (Hzero : forall mi, mi <= 0 ->
            DocumentScorer.calculate_debt_ratio_score mi requested_credit
              monthly_payment = (0, 0)).
  { intros mi Hmi. unfold DocumentScorer.calculate_debt_ratio_score, Py.le.
    destruct (Qlt_le_dec 0 mi); [lra|reflexivity]. }
  split; [exact (Hzero _ Hle)|].
  intros r Hr Hinc.
  apply evaluate_creditworthiness_overall in Hr
    as (inc & _ & Hmi & _ & _ & -> & ->).
  rewrite Hmi in Hinc. rewrite (Hzero _ Hinc). cbn [fst snd].
  split; apply round_zero.
Qed.

Lemma zero_income_debt_ratio_witness :
  DocumentScorer.calculate_debt_ratio_score 0 50000 3000 = (0, 0) /\
  (forall r,
     DocumentScorer.evaluate_creditworthiness [] 50000 3000 = Some r ->
     DocumentModels.monthly_income r <= 0 ->
     DocumentModels.debt_to_income_ratio r == 0 /\
     DocumentModels.debt_ratio_score r == 0).
Proof.
  apply (zero_income_debt_ratio 0 50000 3000 []). discriminate.
Defined.

(** ** The weighted overall score *)

(** The weighted sum written out, its weights, and its strict growth in
    each component. *)
Lemma weighted_overall_score_sum (i c d q : Q) :
  DocumentScorer.weighted_overall_score i c d q
  == 0.35 * i + 0.25 * c + 0.30 * d + 0.10 * q.
Proof. unfold DocumentScorer.weighted_overall_score. ring. Qed.

Lemma weighted_overall_score_strict (i i' c c' d d' q q' : Q) :
  i <= i' -> c <= c' -> d <= d' -> q <= q' ->
  i < i' \/ c < c' \/ d < d' \/ q < q' ->
  DocumentScorer.weighted_overall_score i c d q
  < DocumentScorer.weighted_overall_score i' c' d' q'.
Proof.
  unfold DocumentScorer.weighted_overall_score.
  intros Hi Hc Hd Hq [H|[H|[H|H]]]; lra.
Qed.

(** The overall score that the aggregator returns is rounded to two
    decimals, so it is neither the weighted sum itself nor strictly
    increasing.  Between the good pay slip and the same pay
    slip read with confidence 0.8001 the income score (30), the debt ratio
    score (100) and the document quality (80) are the same and the
    consistency score rises from 88 to 88.003, yet both assessments report
    an overall score of 70.5: the score does not rise, and the second one
    is not the weighted sum 70.50075. *)
Lemma rounded_overall_score_not_strict :
  exists r r' inc,
    DocumentScorer.evaluate_creditworthiness [good_pay_slip] 50000 3000
    = Some r /\
    DocumentScorer.evaluate_creditworthiness [surer_pay_slip] 50000 3000
    = Some r' /\
    DocumentScorer.calculate_income_score [good_pay_slip] = Some inc /\
    DocumentScorer.calculate_income_score [surer_pay_slip] = Some inc /\
    inc.1 == 30 /\
    (DocumentScorer.calculate_debt_ratio_score
       (DocumentScorer.income_monthly_income inc.2) 50000 3000).1 == 100 /\
    DocumentScorer.document_quality [good_pay_slip] == 80 /\
    DocumentScorer.document_quality [surer_pay_slip] == 80 /\
    DocumentScorer.calculate_consistency_score [good_pay_slip] == 88 /\
    DocumentScorer.calculate_consistency_score [surer_pay_slip] == 88.003 /\
    DocumentModels.overall_score r == 70.5 /\
    DocumentModels.overall_score r' == 70.5 /\
    ~ DocumentModels.overall_score r'
      == 0.35 * 30 + 0.25 * 88.003 + 0.30 * 100 + 0.10 * 80.
Proof.
  eexists _, _, _.
  split; [vm_compute; reflexivity|]. split; [vm_compute; reflexivity|].
  split; [vm_compute; reflexivity|]. split; [vm_compute; reflexivity|].
  repeat (split; [reflexivity|]).
  intros H. vm_compute in H. discriminate H.
Qed.

(** C6 (amended): the aggregator returns an assessment whose overall score
    is 0.35 income + 0.25 consistency + 0.30 debt ratio + 0.10 document
    quality, taken on the four component scores as computed and rounded
    to two decimals; the four weights add up to exactly 1; and for any
    component values, and so between any two assessments, raising
    component scores never lowers the rounded overall score, while the
    weighted sum before rounding rises strictly as soon as one component
    does.  The aggregator returns as soon as the net salaries it reads
    are numbers. *)
Theorem overall_score_rounded_weighted_sum
    (documents documents' : list DocumentModels.DocumentAnalysisResult)
    (rc mp rc' mp' : Q) :
  Forall numeric_salary documents ->
  Forall numeric_salary documents' ->
  DocumentScorer.weighted_overall_score 1 0 0 0
  + DocumentScorer.weighted_overall_score 0 1 0 0
  + DocumentScorer.weighted_overall_score 0 0 1 0
  + DocumentScorer.weighted_overall_score 0 0 0 1 == 1 /\
  (forall i i' c c' d d' q q',
     i <= i' -> c <= c' -> d <= d' -> q <= q' ->
     round (DocumentScorer.weighted_overall_score i c d q) 2
     <= round (DocumentScorer.weighted_overall_score i' c' d' q') 2 /\
     (i < i' \/ c < c' \/ d < d' \/ q < q' ->
      DocumentScorer.weighted_overall_score i c d q
      < DocumentScorer.weighted_overall_score i' c' d' q')) /\
  exists r r' inc inc',
    DocumentScorer.evaluate_creditworthiness documents rc mp = Some r /\
    DocumentScorer.evaluate_creditworthiness documents' rc' mp' = Some r' /\
    DocumentScorer.calculate_income_score documents = Some inc /\
    DocumentScorer.calculate_income_score documents' = Some inc' /\
    let i := inc.1 in
    let c := DocumentScorer.calculate_consistency_score documents in
    let d :=
      (DocumentScorer.calculate_debt_ratio_score
         (DocumentScorer.income_monthly_income inc.2) rc mp).1 in
    let q := DocumentScorer.document_quality documents in
    let i' := inc'.1 in
    let c' := DocumentScorer.calculate_consistency_score documents' in
    let d' :=
      (DocumentScorer.calculate_debt_ratio_score
         (DocumentScorer.income_monthly_income inc'.2) rc' mp').1 in
    let q' := DocumentScorer.document_quality documents' in
    DocumentModels.overall_score r
    == round (0.35 * i + 0.25 * c + 0.30 * d + 0.10 * q) 2 /\
    DocumentModels.overall_score r'
    == round (0.35 * i' + 0.25 * c' + 0.30 * d' + 0.10 * q') 2 /\
    (i <= i' -> c <= c' -> d <= d' -> q <= q' ->
     DocumentModels.overall_score r <= DocumentModels.overall_score r') /\
    (i <= i' -> c <= c' -> d <= d' -> q <= q' ->
     i < i' \/ c < c' \/ d < d' \/ q < q' ->
     0.35 * i + 0.25 * c + 0.30 * d + 0.10 * q
     < 0.35 * i' + 0.25 * c' + 0.30 * d' + 0.10 * q').
Proof.
  intros Hnum Hnum'.
  split; [unfold DocumentScorer.weighted_overall_score; ring|].
  split.
  { intros i i' c c' d d' q q' Hi Hc Hd Hq. split.
    - apply round_monotone.
      unfold DocumentScorer.weighted_overall_score. lra.
    - apply weighted_overall_score_strict; assumption. }
  destruct (evaluate_creditworthiness_returns documents rc mp Hnum)
    as [r Hr].
  destruct (evaluate_creditworthiness_returns documents' rc' mp' Hnum')
    as [r' Hr'].
  destruct (evaluate_creditworthiness_overall _ _ _ _ Hr)
    as (inc & Hinc & _ & Hov & _).
  destruct (evaluate_creditworthiness_overall _ _ _ _ Hr')
    as (inc' & Hinc' & _ & Hov' & _).
  cbv zeta in Hov, Hov'.
  exists r, r', inc, inc'.
  split; [exact Hr|]. split; [exact Hr'|].
  split; [exact Hinc|]. split; [exact Hinc'|].
  cbv zeta. rewrite Hov, Hov'.
  split; [apply round_proper, weighted_overall_score_sum|].
  split; [apply round_proper, weighted_overall_score_sum|].
  split.
  - intros Hi Hc Hd Hq. apply round_monotone.
    unfold DocumentScorer.weighted_overall_score. lra.
  - intros Hi Hc Hd Hq Hstrict.
    rewrite <- !weighted_overall_score_sum.
    apply weighted_overall_score_strict; assumption.
Qed.

Lemma overall_score_rounded_weighted_sum_witness :
  Forall numeric_salary [good_pay_slip] /\
  Forall numeric_salary [surer_pay_slip] /\
  exists r r',
    DocumentScorer.evaluate_creditworthiness [good_pay_slip] 50000 3000
    = Some r /\
    DocumentScorer.evaluate_creditworthiness [surer_pay_slip] 50000 3000
    = Some r' /\
    DocumentModels.overall_score r
    == round
         (0.35 * 30
          + 0.25 * DocumentScorer.calculate_consistency_score [good_pay_slip]
          + 0.30 * 100
          + 0.10 * DocumentScorer.document_quality [good_pay_slip]) 2.
Proof.
  assert (H : Forall numeric_salary [good_pay_slip]).
  { repeat constructor. intros _. eexists. reflexivity. }
  assert (H' : Forall numeric_salary [surer_pay_slip]).
  { repeat constructor. intros _. eexists. reflexivity. }
  split; [exact H|]. split; [exact H'|].
  destruct (overall_score_rounded_weighted_sum [good_pay_slip]
              [surer_pay_slip] 50000 3000 50000 3000 H H')
    as (_ & _ & r & r' & inc & inc' & Hr & Hr' & Hinc & _ & Hov & _).
  exists r, r'. split; [exact Hr|]. split; [exact Hr'|].
  vm_compute in Hinc. injection Hinc as <-. exact Hov.
Defined.

(** ** The debt-to-income gate of the overall creditworthiness *)

(** The monthly income of the assessment is the one read from the
    documents. *)
Lemma calculate_overall_creditworthiness_income
    (format_percent format_fixed : nat -> Q -> string)
    (format_value : Q -> string) (documents : DocumentAnalyzer.Documents)
    (requested_credit monthly_payment : Q) :
  DocumentAnalyzer.monthly_income
    (DocumentAnalyzer.calculate_overall_creditworthiness format_percent
       format_fixed format_value documents requested_credit monthly_payment)
  = DocumentAnalyzer.income (DocumentAnalyzer.document_totals documents).
Proof.
  unfold DocumentAnalyzer.calculate_overall_creditworthiness. cbv zeta.
  destruct (Py.ge _ 60 && Py.ge _ _).
  - destruct (Py.gt _ 0 && Py.gt _ DocumentAnalyzer.max_debt_to_income);
      [reflexivity|].
    destruct (Py.ge _ 80); [reflexivity|].
    destruct (Py.ge _ 70); reflexivity.
  - reflexivity.
Qed.

(** C8: whenever the proposed monthly payment exceeds 40% of the monthly
    income read from the documents, [calculate_overall_creditworthiness]
    decides REJECTED, however high the overall score, and the assessment
    carries one of the three explicit rejection reasons; for an otherwise
    eligible application it is the debt-to-income reason. *)
Theorem high_debt_ratio_rejected
    (format_percent format_fixed : nat -> Q -> string)
    (format_value : Q -> string) (documents : DocumentAnalyzer.Documents)
    (requested_credit monthly_payment : Q) :
  let a :=
    DocumentAnalyzer.calculate_overall_creditworthiness format_percent
      format_fixed format_value documents requested_credit monthly_payment in
  DocumentAnalyzer.max_debt_to_income
  < monthly_payment / DocumentAnalyzer.monthly_income a ->
  DocumentAnalyzer.decision a = "REJECTED" /\
  (exists detail,
     DocumentAnalyzer.decision_reason a
     = "Debt-to-income ratio too high (" +:+ detail \/
     DocumentAnalyzer.decision_reason a
     = "Insufficient monthly income (" +:+ detail \/
     DocumentAnalyzer.decision_reason a
     = "Overall score too low (" +:+ detail) /\
  (DocumentAnalyzer.is_eligible a = true ->
   exists detail,
     DocumentAnalyzer.decision_reason a
     = "Debt-to-income ratio too high (" +:+ detail).
Proof.
  intros a Hratio. subst a.
  rewrite calculate_overall_creditworthiness_income in Hratio.
  unfold DocumentAnalyzer.calculate_overall_creditworthiness.
  revert Hratio.
  generalize (DocumentAnalyzer.document_totals documents). intros t Hratio.
  cbv zeta.
  set (overall := if Py.gt (DocumentAnalyzer.weights_sum t) 0 then _ else _).
  set (mi := DocumentAnalyzer.income t) in *.
  set (dti := if Py.gt mi 0 && Py.gt monthly_payment 0 then _ else _).
  set (eligible := Py.ge overall 60 && Py.ge mi _).
  assert (Hgate : eligible = true ->
                  Py.gt dti 0 && Py.gt dti DocumentAnalyzer.max_debt_to_income
                  = true).
  { intros Hel. subst eligible dti.
    apply andb_prop in Hel as [_ Hmi].
    unfold DocumentAnalyzer.max_debt_to_income,
      DocumentAnalyzer.min_monthly_income in *.
    unfold Py.ge, Py.le in Hmi.
    destruct (Qlt_le_dec mi 3000) as [|Hmi']; [discriminate|].
    assert (Hpay : 0 < monthly_payment).
    { destruct (Qlt_le_dec 0 monthly_payment) as [|Hneg]; [assumption|].
      exfalso. apply (Qlt_not_le _ _ Hratio).
      apply Qle_shift_div_r; lra. }
    unfold Py.gt, Py.lt.
    destruct (Qlt_le_dec 0 mi); [|lra].
    destruct (Qlt_le_dec 0 monthly_payment); [|lra]. cbn [andb].
    destruct (Qlt_le_dec 0 (monthly_payment / mi)); [|lra].
    destruct (Qlt_le_dec 0.40 (monthly_payment / mi)); [reflexivity|lra]. }
  destruct eligible eqn:Hel.
  - rewrite (Hgate eq_refl). cbn. repeat split; eauto.
  - cbn. split; [reflexivity|]. split; [|discriminate].
    destruct (Py.lt mi DocumentAnalyzer.min_monthly_income); eauto.
Qed.

Lemma high_debt_ratio_rejected_witness :
  let a :=
    DocumentAnalyzer.calculate_overall_creditworthiness
      (fun _ => plain_format) (fun _ => plain_format) plain_format
      strong_documents 50000 4500 in
  DocumentAnalyzer.decision a = "REJECTED" /\
  (exists detail,
     DocumentAnalyzer.decision_reason a
     = "Debt-to-income ratio too high (" +:+ detail \/
     DocumentAnalyzer.decision_reason a
     = "Insufficient monthly income (" +:+ detail \/
     DocumentAnalyzer.decision_reason a
     = "Overall score too low (" +:+ detail) /\
  (DocumentAnalyzer.is_eligible a = true ->
   exists detail,
     DocumentAnalyzer.decision_reason a
     = "Debt-to-income ratio too high (" +:+ detail).
Proof.
  apply (high_debt_ratio_rejected (fun _ => plain_format)
           (fun _ => plain_format) plain_format strong_documents 50000 4500).
  reflexivity.
Defined.

(** ** Analysis of one document *)

Ltac split_truthy :=
  repeat match goal with
         | |- context [DocumentParser.float_truthy ?o] =>
             destruct (DocumentParser.float_truthy o)
         | |- context [DocumentParser.str_truthy ?o] =>
             destruct (DocumentParser.str_truthy o)
         | |- context [DocumentParser.int_truthy ?o] =>
             destruct (DocumentParser.int_truthy o)
         end.

Lemma validate_pay_slip_range pay_slip :
  0 <= (DocumentParser.validate_pay_slip pay_slip ([], 50)).2 <= 60.
Proof.
  unfold DocumentParser.validate_pay_slip, DocumentParser.check.
  split_truthy; cbn [negb andb fst snd]; unfold_py; split_tests;
    cbn [negb andb fst snd]; lra.
Qed.

Lemma validate_tax_declaration_range tax_decl :
  0 <= (DocumentParser.validate_tax_declaration tax_decl ([], 50)).2 <= 60.
Proof.
  unfold DocumentParser.validate_tax_declaration, DocumentParser.check.
  split_truthy; cbn [negb andb fst snd]; unfold_py; split_tests;
    cbn [negb andb fst snd]; lra.
Qed.

Lemma validate_bank_statement_range bank_stmt :
  0 <= (DocumentParser.validate_bank_statement bank_stmt ([], 50)).2 <= 60.
Proof.
  unfold DocumentParser.validate_bank_statement, DocumentParser.check.
  split_truthy; cbn [negb andb fst snd]; lra.
Qed.

(** C9: every result that [analyze_document] produces, whatever the
    extracted text and whatever the parsers find in it, has a confidence
    within [0, 1] and a score within [0, 100]; and a result is produced
    whenever the parser of the document's kind returns. *)
Theorem analyze_document_ranges
    (extract_text_from_pdf : list Byte.byte -> string)
    (parse_pay_slip : string -> option DocumentModels.PaySlipData)
    (parse_tax_declaration :
       string -> option DocumentModels.TaxDeclarationData)
    (parse_bank_statement :
       string -> option DocumentModels.BankStatementData)
    (pdf_bytes : list Byte.byte)
    (document_type : DocumentModels.DocumentType) :
  let result :=
    DocumentParser.analyze_document extract_text_from_pdf parse_pay_slip
      parse_tax_declaration parse_bank_statement pdf_bytes document_type in
  let text := extract_text_from_pdf pdf_bytes in
  (forall r, result = Some r -> documented_ranges r) /\
  (match document_type with
   | DocumentModels.PAY_SLIP => is_Some (parse_pay_slip text)
   | DocumentModels.TAX_DECLARATION => is_Some (parse_tax_declaration text)
   | DocumentModels.BANK_STATEMENT => is_Some (parse_bank_statement text)
   | _ => True
   end ->
   is_Some result).
Proof.
  cbv zeta. unfold DocumentParser.analyze_document, documented_ranges.
  set (text := extract_text_from_pdf pdf_bytes).
  destruct (String.eqb text "" || (Py.str_len text <? 50)%nat).
  { split; [|eauto]. intros r [= <-]. cbn. lra. }
  assert (Hfinal : forall (data : gmap string DocumentModels.pyval)
                          (acc : list string * Q) r,
            0 <= acc.2 <= 60 ->
            (parsed ← Some (data, acc);
             let extracted_data : gmap string DocumentModels.pyval :=
               parsed.1 in
             let validation_issues := parsed.2.1 in
             let score := parsed.2.2 in
             let '(status, score) :=
               if Py.lt score 30 then (DocumentModels.INVALID, score)
               else if (3 <? length validation_issues)%nat
               then (DocumentModels.SUSPICIOUS, score)
               else if (0 <? length validation_issues)%nat
               then (DocumentModels.INCOMPLETE, score)
               else (DocumentModels.VALID, score + 20) in
             let risk_flags : list string := [] in
             let recommendations : list string := [] in
             let '(risk_flags, recommendations) :=
               match validation_issues with
               | [] => (risk_flags, recommendations)
               | _ :: _ =>
                   (risk_flags ++ validation_issues,
                    recommendations ++ ["Verify document authenticity"])
               end in
             let recommendations :=
               if Py.lt score 50
               then recommendations
                    ++ ["Submit additional supporting documents"]
               else recommendations in
             let confidence := Py.min (score / 100) 1.0 in
             Some {| DocumentModels.document_type := document_type;
                     DocumentModels.status := status;
                     DocumentModels.confidence := confidence;
                     DocumentModels.extracted_data := extracted_data;
                     DocumentModels.validation_issues := validation_issues;
                     DocumentModels.score := Py.max 0 (Py.min 100 score);
                     DocumentModels.risk_flags := risk_flags;
                     DocumentModels.recommendations := recommendations |})
            = Some r ->
            (0 <= DocumentModels.score r <= 100) /\
            (0 <= DocumentModels.confidence r <= 1)).
  { intros data [issues s] r Hs. cbn [mbind option_bind fst snd] in *.
    assert (Hdiv : forall x, x / 100 == x * (1 # 100))
      by (intros; unfold Qdiv; reflexivity).
    pose proof (Hdiv s) as Hd1. pose proof (Hdiv (s + 20)) as Hd2.
    destruct (Py.lt s 30);
      [|destruct (3 <? length issues)%nat;
        [|destruct (0 <? length issues)%nat]];
      destruct issues; intros [= <-]; cbn;
      (split; [apply clip_range|]); unfold Py.min; split_tests; lra. }
  split.
  - intros r.
    destruct document_type;
      try (destruct (parse_pay_slip text) as [pay_slip|]);
      try (destruct (parse_tax_declaration text) as [tax_decl|]);
      try (destruct (parse_bank_statement text) as [bank_stmt|]);
      cbn [mbind option_bind]; try discriminate;
      apply Hfinal; cbn [snd];
      auto using validate_pay_slip_range, validate_tax_declaration_range,
        validate_bank_statement_range; lra.
  - destruct document_type; intros Hp;
      try match type of Hp with
          | is_Some _ => destruct Hp as [parsed Hp]; rewrite Hp
          end;
      cbn [mbind option_bind fst snd];
      repeat match goal with
             | |- context [if ?c then _ else _] => destruct c
             | |- context [match ?l with [] => _ | _ :: _ => _ end] =>
                 destruct l
             end; eauto.
Qed.

(** A pay slip in which the parser finds nothing: both checks fail, the
    score drops to 20, the status is INVALID and the confidence 0.2. *)
Example analyze_unparsed_pay_slip :
  exists r,
    DocumentParser.analyze_document (fun _ => sample_text)
      (fun _ => Some empty_pay_slip) (fun _ => None) (fun _ => None) []
      DocumentModels.PAY_SLIP = Some r /\
    DocumentModels.status r = DocumentModels.INVALID /\
    DocumentModels.score r == 20 /\
    DocumentModels.confidence r == 0.2 /\
    DocumentModels.validation_issues r
    = ["Net salary not found"; "Employer name not found"].
Proof. eexists. split; [vm_compute; reflexivity|]. repeat split. Qed.

(** * Further properties of the code *)

(** ** Document analysis: what the status can be *)

Lemma validate_pay_slip_issues pay_slip :
  (length (DocumentParser.validate_pay_slip pay_slip ([], 50%Q)).1 <= 3)%nat /\
  ((DocumentParser.validate_pay_slip pay_slip ([], 50)).1 = [] ->
   50 <= (DocumentParser.validate_pay_slip pay_slip ([], 50)).2).
Proof.
  unfold DocumentParser.validate_pay_slip, DocumentParser.check.
  split_truthy; cbn [negb andb fst snd]; unfold_py; split_tests;
    cbn [negb andb fst snd app length]; split; try lia; try discriminate;
    intros; lra.
Qed.

Lemma validate_tax_declaration_issues tax_decl :
  (length (DocumentParser.validate_tax_declaration tax_decl ([], 50%Q)).1 <= 3)%nat /\
  ((DocumentParser.validate_tax_declaration tax_decl ([], 50)).1 = [] ->
   50 <= (DocumentParser.validate_tax_declaration tax_decl ([], 50)).2).
Proof.
  unfold DocumentParser.validate_tax_declaration, DocumentParser.check.
  split_truthy; cbn [negb andb fst snd]; unfold_py; split_tests;
    cbn [negb andb fst snd app length]; split; try lia; try discriminate;
    intros; lra.
Qed.

Lemma validate_bank_statement_issues bank_stmt :
  (length (DocumentParser.validate_bank_statement bank_stmt ([], 50%Q)).1 <= 3)%nat /\
  ((DocumentParser.validate_bank_statement bank_stmt ([], 50)).1 = [] ->
   50 <= (DocumentParser.validate_bank_statement bank_stmt ([], 50)).2).
Proof.
  unfold DocumentParser.validate_bank_statement, DocumentParser.check.
  split_truthy; cbn [negb andb fst snd app length]; split; try lia;
    try discriminate; intros; lra.
Qed.

(** The shape of every result of [analyze_document]: either the fixed
    answer for an unreadable text, or the answer built from the issues and
    the score that the validation of the parsed fields left. *)
Lemma analyze_document_cases
    (extract_text_from_pdf : list Byte.byte -> string)
    (parse_pay_slip : string -> option DocumentModels.PaySlipData)
    (parse_tax_declaration :
       string -> option DocumentModels.TaxDeclarationData)
    (parse_bank_statement :
       string -> option DocumentModels.BankStatementData)
    (pdf_bytes : list Byte.byte)
    (document_type : DocumentModels.DocumentType) r :
  DocumentParser.analyze_document extract_text_from_pdf parse_pay_slip
    parse_tax_declaration parse_bank_statement pdf_bytes document_type
  = Some r ->
  (DocumentModels.status r = DocumentModels.INVALID /\
   DocumentModels.score r = 0 /\ DocumentModels.confidence r = 0.0 /\
   DocumentModels.validation_issues r
   = ["Failed to extract text from document"] /\
   DocumentModels.extracted_data r = ∅) \/
  (exists issues s,
     0 <= s <= 60 /\ (length issues <= 3)%nat /\ (issues = [] -> 50 <= s) /\
     DocumentModels.validation_issues r = issues /\
     DocumentModels.risk_flags r = issues /\
     DocumentModels.status r
     = (if Py.lt s 30 then DocumentModels.INVALID
        else if (0 <? length issues)%nat then DocumentModels.INCOMPLETE
        else DocumentModels.VALID) /\
     DocumentModels.score r
     = Py.max 0 (Py.min 100
                   (if Py.lt s 30 then s
                    else if (0 <? length issues)%nat then s else s + 20)) /\
     DocumentModels.confidence r
     = Py.min ((if Py.lt s 30 then s
                else if (0 <? length issues)%nat then s else s + 20) / 100)
         1.0).
Proof.
  unfold DocumentParser.analyze_document.
  set (text := extract_text_from_pdf pdf_bytes).
  destruct (String.eqb text "" || (Py.str_len text <? 50)%nat).
  { intros [= <-]. left. cbn. repeat split. }
  intros Hr. right.
  assert (Hparsed : exists (data : gmap string DocumentModels.pyval)
                           issues s,
            0 <= s <= 60 /\ (length issues <= 3)%nat /\
            (issues = [] -> 50 <= s) /\
            match document_type with
            | DocumentModels.PAY_SLIP =>
                pay_slip ← parse_pay_slip text;
                Some (DocumentModels.PaySlipData_dict pay_slip,
                      DocumentParser.validate_pay_slip pay_slip ([], 50))
            | DocumentModels.TAX_DECLARATION =>
                tax_decl ← parse_tax_declaration text;
                Some (DocumentModels.TaxDeclarationData_dict tax_decl,
                      DocumentParser.validate_tax_declaration tax_decl
                        ([], 50))
            | DocumentModels.BANK_STATEMENT =>
                bank_stmt ← parse_bank_statement text;
                Some (DocumentModels.BankStatementData_dict bank_stmt,
                      DocumentParser.validate_bank_statement bank_stmt
                        ([], 50))
            | _ => Some (∅, ([], 50))
            end = Some (data, (issues, s))).
  { destruct document_type.
    - destruct (parse_pay_slip text) as [x|];
        cbn [mbind option_bind] in Hr |- *; [|discriminate].
      pose proof (validate_pay_slip_range x).
      pose proof (validate_pay_slip_issues x) as [? ?].
      destruct (DocumentParser.validate_pay_slip x ([], 50)) as [i s].
      exists (DocumentModels.PaySlipData_dict x), i, s. auto.
    - destruct (parse_tax_declaration text) as [x|];
        cbn [mbind option_bind] in Hr |- *; [|discriminate].
      pose proof (validate_tax_declaration_range x).
      pose proof (validate_tax_declaration_issues x) as [? ?].
      destruct (DocumentParser.validate_tax_declaration x ([], 50)) as [i s].
      exists (DocumentModels.TaxDeclarationData_dict x), i, s. auto.
    - destruct (parse_bank_statement text) as [x|];
        cbn [mbind option_bind] in Hr |- *; [|discriminate].
      pose proof (validate_bank_statement_range x).
      pose proof (validate_bank_statement_issues x) as [? ?].
      destruct (DocumentParser.validate_bank_statement x ([], 50)) as [i s].
      exists (DocumentModels.BankStatementData_dict x), i, s. auto.
    - exists ∅, [], 50. cbn. repeat split; try lra; lia.
    - exists ∅, [], 50. cbn. repeat split; try lra; lia. }
  destruct Hparsed as (data & issues & s & Hs & Hlen & Hnil & Hp).
  rewrite Hp in Hr. cbn [mbind option_bind fst snd] in Hr.
  exists issues, s. split; [exact Hs|]. split; [exact Hlen|].
  split; [exact Hnil|].
  assert (H3 : (3 <? length issues)%nat = false) by (apply Nat.ltb_ge; lia).
  rewrite H3 in Hr.
  destruct (Py.lt s 30); [|destruct (0 <? length issues)%nat eqn:H0];
    destruct issues as [|i issues']; try discriminate H0;
    injection Hr as <-; cbn; repeat split.
Qed.

Section AnalyzeDocument.

Variable extract_text_from_pdf : list Byte.byte -> string.
Variable parse_pay_slip : string -> option DocumentModels.PaySlipData.
Variable parse_tax_declaration :
  string -> option DocumentModels.TaxDeclarationData.
Variable parse_bank_statement :
  string -> option DocumentModels.BankStatementData.

(** X1: [analyze_document] never answers SUSPICIOUS: no validation can
    collect more than three issues.  A result is VALID exactly when it
    lists no validation issue. *)
Theorem analyze_document_never_suspicious pdf_bytes document_type r :
  DocumentParser.analyze_document extract_text_from_pdf parse_pay_slip
    parse_tax_declaration parse_bank_statement pdf_bytes document_type
  = Some r ->
  DocumentModels.status r <> DocumentModels.SUSPICIOUS /\
  (DocumentModels.status r = DocumentModels.VALID <->
   DocumentModels.validation_issues r = []).
Proof.
  intros Hr. apply analyze_document_cases in Hr
    as [(-> & _ & _ & -> & _)
       |(issues & s & Hs & Hlen & Hnil & -> & _ & -> & _)].
  - split; [discriminate|]. split; discriminate.
  - destruct issues as [|i issues'].
    + specialize (Hnil eq_refl).
      assert (E : Py.lt s 30 = false).
      { unfold Py.lt. destruct (Qlt_le_dec s 30); [lra|reflexivity]. }
      rewrite E. cbn. split; [discriminate|tauto].
    + destruct (Py.lt s 30); cbn; split; try discriminate;
        split; discriminate.
Qed.

(** X2: the confidence of a result is its score on the unit scale
    (score = 100 * confidence); the score never exceeds 80; the status is
    INVALID exactly when the score is below 30, and a VALID result scores
    at least 70. *)
Theorem analyze_document_score_confidence pdf_bytes document_type r :
  DocumentParser.analyze_document extract_text_from_pdf parse_pay_slip
    parse_tax_declaration parse_bank_statement pdf_bytes document_type
  = Some r ->
  DocumentModels.score r == 100 * DocumentModels.confidence r /\
  DocumentModels.score r <= 80 /\
  (DocumentModels.status r = DocumentModels.INVALID <->
   DocumentModels.score r < 30) /\
  (DocumentModels.status r = DocumentModels.VALID ->
   70 <= DocumentModels.score r).
Proof.
  intros Hr. apply analyze_document_cases in Hr
    as [(-> & -> & -> & _)
       |(issues & s & Hs & Hlen & Hnil & _ & _ & -> & -> & ->)].
  - repeat split; try discriminate; try lra.
  - assert (Hdiv : forall x, x / 100 == x * (1 # 100))
      by (intros; unfold Qdiv; reflexivity).
    pose proof (Hdiv s) as Hd1. pose proof (Hdiv (s + 20)) as Hd2.
    destruct issues as [|i issues'].
    + specialize (Hnil eq_refl). cbn [length Nat.ltb Nat.leb].
      unfold_py. split_tests; repeat split; intros; try discriminate;
        try lra.
    + clear Hnil. cbn [length Nat.ltb Nat.leb].
      unfold_py. split_tests; repeat split; intros; try discriminate;
        try lra.
Qed.

(** X3: a pay slip whose net salary is read above a positive gross salary
    is always INVALID, with a score of at most 15: the penalties leave at
    most 15 of the 50 starting points.  When the text was long enough to
    be validated (at least 50 characters, counted as Python counts them)
    the issue is listed. *)
Theorem inverted_pay_slip_invalid pdf_bytes pay_slip net gross r :
  parse_pay_slip (extract_text_from_pdf pdf_bytes) = Some pay_slip ->
  DocumentModels.net_salary pay_slip = Some net ->
  DocumentModels.gross_salary pay_slip = Some gross ->
  0 < gross -> gross < net ->
  DocumentParser.analyze_document extract_text_from_pdf parse_pay_slip
    parse_tax_declaration parse_bank_statement pdf_bytes
    DocumentModels.PAY_SLIP = Some r ->
  DocumentModels.status r = DocumentModels.INVALID /\
  DocumentModels.score r <= 15 /\
  ((50 <= Py.str_len (extract_text_from_pdf pdf_bytes))%nat ->
   In "Net salary greater than gross salary - suspicious"
     (DocumentModels.validation_issues r)).
Proof.
  intros Hp Hn Hg Hpos Hinv Hr.
  unfold DocumentParser.analyze_document in Hr. rewrite Hp in Hr.
  destruct (String.eqb _ "") eqn:Hempty;
    [|destruct (Py.str_len _ <? 50)%nat eqn:Hshort];
    cbn [orb] in Hr.
  { injection Hr as <-. cbn. repeat split; try lra.
    apply String.eqb_eq in Hempty. rewrite Hempty. cbn. lia. }
  { injection Hr as <-. cbn. repeat split; try lra.
    apply Nat.ltb_lt in Hshort. lia. }
  cbn [mbind option_bind fst snd] in Hr.
  assert (Hnet : Qeq_bool net 0 = false).
  { destruct (Qeq_bool net 0) eqn:E; [|reflexivity].
    apply Qeq_bool_eq in E. lra. }
  assert (Hgross : Qeq_bool gross 0 = false).
  { destruct (Qeq_bool gross 0) eqn:E; [|reflexivity].
    apply Qeq_bool_eq in E. lra. }
  assert (Hratio : (gross - net) / gross < 0).
  { apply Qlt_shift_div_r; [exact Hpos|lra]. }
  assert (Hv : exists issues s,
             DocumentParser.validate_pay_slip pay_slip ([], 50)
             = (issues, s) /\ s <= 15 /\ 0 <= s /\
             In "Net salary greater than gross salary - suspicious" issues).
  { unfold DocumentParser.validate_pay_slip, DocumentParser.check,
      DocumentParser.float_truthy, DocumentParser.float_value.
    rewrite Hn, Hg. cbn [DocumentModels.of_float DocumentModels.pyval_truthy
                         default from_option id].
    rewrite Hnet, Hgross. cbn [negb andb fst snd].
    unfold Py.gt, Py.lt.
    destruct (Qlt_le_dec gross net); [|lra].
    destruct (Qlt_le_dec 0.40 ((gross - net) / gross)); [lra|].
    destruct (Qlt_le_dec ((gross - net) / gross) 0.10); [|lra].
    destruct (negb (DocumentParser.str_truthy _));
      cbn [fst snd app]; eexists _, _;
      (split; [reflexivity|]); repeat split; try lra;
      cbn; tauto. }
  destruct Hv as (issues & s & Hv & Hs & Hs0 & Hin).
  rewrite Hv in Hr. cbn [fst snd] in Hr.
  assert (E : Py.lt s 30 = true).
  { unfold Py.lt. destruct (Qlt_le_dec s 30); [reflexivity|lra]. }
  rewrite E in Hr.
  destruct issues as [|i issues']; [destruct Hin|].
  injection Hr as <-. cbn [DocumentModels.status DocumentModels.score
                           DocumentModels.validation_issues].
  split; [reflexivity|]. split; [|intros _; exact Hin].
  unfold_py. split_tests; lra.
Qed.

(** X4: a tax declaration whose taxable income is read above its gross
    annual income is always INVALID, with a score of at most 20. *)
Theorem inverted_tax_declaration_invalid pdf_bytes tax_decl taxable gross r :
  parse_tax_declaration (extract_text_from_pdf pdf_bytes) = Some tax_decl ->
  DocumentModels.taxable_income tax_decl = Some taxable ->
  DocumentModels.gross_annual_income tax_decl = Some gross ->
  0 < gross -> gross < taxable ->
  DocumentParser.analyze_document extract_text_from_pdf parse_pay_slip
    parse_tax_declaration parse_bank_statement pdf_bytes
    DocumentModels.TAX_DECLARATION = Some r ->
  DocumentModels.status r = DocumentModels.INVALID /\
  DocumentModels.score r <= 20.
Proof.
  intros Hp Ht Hg Hpos Hinv Hr.
  unfold DocumentParser.analyze_document in Hr. rewrite Hp in Hr.
  destruct (String.eqb _ "" || _).
  { injection Hr as <-. cbn. split; [reflexivity|lra]. }
  cbn [mbind option_bind fst snd] in Hr.
  assert (Htax : Qeq_bool taxable 0 = false).
  { destruct (Qeq_bool taxable 0) eqn:E; [|reflexivity].
    apply Qeq_bool_eq in E. lra. }
  assert (Hgross : Qeq_bool gross 0 = false).
  { destruct (Qeq_bool gross 0) eqn:E; [|reflexivity].
    apply Qeq_bool_eq in E. lra. }
  assert (Hv : exists issues s,
             DocumentParser.validate_tax_declaration tax_decl ([], 50)
             = (issues, s) /\ s <= 20 /\ 0 <= s /\ issues <> []).
  { unfold DocumentParser.validate_tax_declaration, DocumentParser.check,
      DocumentParser.float_truthy, DocumentParser.float_value.
    rewrite Ht, Hg. cbn [DocumentModels.of_float DocumentModels.pyval_truthy
                         default from_option id].
    rewrite Htax, Hgross. cbn [negb andb fst snd].
    unfold Py.gt, Py.lt.
    destruct (Qlt_le_dec gross taxable); [|lra].
    destruct (negb (DocumentParser.int_truthy _));
      cbn [fst snd app]; eexists _, _;
      (split; [reflexivity|]); repeat split; try lra; discriminate. }
  destruct Hv as (issues & s & Hv & Hs & Hs0 & Hne).
  rewrite Hv in Hr. cbn [fst snd] in Hr.
  assert (E : Py.lt s 30 = true).
  { unfold Py.lt. destruct (Qlt_le_dec s 30); [reflexivity|lra]. }
  rewrite E in Hr.
  destruct issues as [|i issues']; [congruence|].
  injection Hr as <-. cbn [DocumentModels.status DocumentModels.score].
  split; [reflexivity|]. unfold_py. split_tests; lra.
Qed.

(** X5: the document kinds without a parser (income consistency, loan
    payments) are never validated: any text of at least 50 characters is
    VALID with score 70 and confidence 0.7. *)
Theorem unparsed_kinds_always_valid pdf_bytes document_type :
  document_type = DocumentModels.INCOME_CONSISTENCY \/
  document_type = DocumentModels.LOAN_PAYMENTS ->
  (50 <= Py.str_len (extract_text_from_pdf pdf_bytes))%nat ->
  exists r,
    DocumentParser.analyze_document extract_text_from_pdf parse_pay_slip
      parse_tax_declaration parse_bank_statement pdf_bytes document_type
    = Some r /\
    DocumentModels.status r = DocumentModels.VALID /\
    DocumentModels.score r == 70 /\
    DocumentModels.confidence r == 0.7 /\
    DocumentModels.validation_issues r = [] /\
    DocumentModels.extracted_data r = ∅.
Proof.
  intros Hty Hlen. unfold DocumentParser.analyze_document.
  assert (E : String.eqb (extract_text_from_pdf pdf_bytes) ""
              || (Py.str_len (extract_text_from_pdf pdf_bytes) <? 50)%nat
              = false).
  { apply orb_false_iff. split.
    - apply String.eqb_neq. intros E. rewrite E in Hlen. cbn in Hlen. lia.
    - apply Nat.ltb_ge. exact Hlen. }
  rewrite E. destruct Hty as [-> | ->]; eexists;
    (split; [reflexivity|]); cbn; repeat split.
Qed.

End AnalyzeDocument.

Lemma analyze_document_never_suspicious_witness :
  exists r,
    analyze_as empty_pay_slip DocumentModels.PAY_SLIP = Some r /\
    DocumentModels.status r <> DocumentModels.SUSPICIOUS /\
    (DocumentModels.status r = DocumentModels.VALID <->
     DocumentModels.validation_issues r = []).
Proof.
  eexists. split; [reflexivity|].
  apply (analyze_document_never_suspicious (fun _ => sample_text)
           (fun _ => Some empty_pay_slip) (fun _ => None) (fun _ => None)
           [] DocumentModels.PAY_SLIP).
  reflexivity.
Defined.

Lemma analyze_document_score_confidence_witness :
  exists r,
    analyze_as clean_pay_slip DocumentModels.PAY_SLIP = Some r /\
    DocumentModels.score r == 100 * DocumentModels.confidence r /\
    DocumentModels.score r <= 80 /\
    (DocumentModels.status r = DocumentModels.INVALID <->
     DocumentModels.score r < 30) /\
    (DocumentModels.status r = DocumentModels.VALID ->
     70 <= DocumentModels.score r).
Proof.
  eexists. split; [reflexivity|].
  apply (analyze_document_score_confidence (fun _ => sample_text)
           (fun _ => Some clean_pay_slip) (fun _ => None) (fun _ => None)
           [] DocumentModels.PAY_SLIP).
  reflexivity.
Defined.

Lemma inverted_pay_slip_invalid_witness :
  exists r,
    analyze_as inverted_pay_slip DocumentModels.PAY_SLIP = Some r /\
    DocumentModels.status r = DocumentModels.INVALID /\
    DocumentModels.score r <= 15 /\
    ((50 <= Py.str_len sample_text)%nat ->
     In "Net salary greater than gross salary - suspicious"
       (DocumentModels.validation_issues r)).
Proof.
  eexists. split; [reflexivity|].
  apply (inverted_pay_slip_invalid (fun _ => sample_text)
           (fun _ => Some inverted_pay_slip) (fun _ => None) (fun _ => None)
           [] inverted_pay_slip 9000 8000);
    reflexivity.
Defined.

Lemma inverted_tax_declaration_invalid_witness :
  exists r,
    analyze_tax_as inverted_tax_declaration = Some r /\
    DocumentModels.status r = DocumentModels.INVALID /\
    DocumentModels.score r <= 20.
Proof.
  eexists. split; [reflexivity|].
  apply (inverted_tax_declaration_invalid (fun _ => sample_text)
           (fun _ => None) (fun _ => Some inverted_tax_declaration)
           (fun _ => None) [] inverted_tax_declaration 120000 100000);
    reflexivity.
Defined.

Lemma unparsed_kinds_always_valid_witness :
  exists r,
    analyze_as empty_pay_slip DocumentModels.INCOME_CONSISTENCY = Some r /\
    DocumentModels.status r = DocumentModels.VALID /\
    DocumentModels.score r == 70 /\
    DocumentModels.confidence r == 0.7 /\
    DocumentModels.validation_issues r = [] /\
    DocumentModels.extracted_data r = ∅.
Proof.
  apply (unparsed_kinds_always_valid (fun _ => sample_text)
           (fun _ => Some empty_pay_slip) (fun _ => None) (fun _ => None)
           [] DocumentModels.INCOME_CONSISTENCY).
  - left. reflexivity.
  - cbn. lia.
Defined.

(** Characters are counted, not bytes: the accented sample text has 49
    characters held in 59 bytes, and it is answered as unreadable whatever
    the document type. *)
Example short_accented_text_unreadable :
  Py.str_len accented_text = 49%nat /\
  String.length accented_text = 59%nat /\
  forall document_type,
    exists r,
      DocumentParser.analyze_document (fun _ => accented_text)
        (fun _ => Some empty_pay_slip) (fun _ => None) (fun _ => None) []
        document_type = Some r /\
      DocumentModels.status r = DocumentModels.INVALID /\
      DocumentModels.score r == 0 /\
      DocumentModels.validation_issues r
      = ["Failed to extract text from document"].
Proof.
  split; [reflexivity|]. split; [reflexivity|].
  intros document_type. eexists. split; [reflexivity|]. repeat split.
Qed.

(** ** The aggregator: what its report can say *)

(** Every field of the report of [evaluate_creditworthiness] in terms of
    the component scores. *)
Lemma evaluate_creditworthiness_report documents rc mp r :
  DocumentScorer.evaluate_creditworthiness documents rc mp = Some r ->
  exists inc,
    DocumentScorer.calculate_income_score documents = Some inc /\
    let consistency := DocumentScorer.calculate_consistency_score documents in
    let debt :=
      DocumentScorer.calculate_debt_ratio_score
        (DocumentScorer.income_monthly_income inc.2) rc mp in
    let quality := DocumentScorer.document_quality documents in
    let overall :=
      DocumentScorer.weighted_overall_score inc.1 consistency debt.1
        quality in
    DocumentModels.monthly_income r
    = DocumentScorer.income_monthly_income inc.2 /\
    DocumentModels.overall_score r = round overall 2 /\
    DocumentModels.income_score r = round inc.1 2 /\
    DocumentModels.rating r = (DocumentScorer.rating_of overall).1.1 /\
    DocumentModels.decision r = (DocumentScorer.rating_of overall).1.2 /\
    DocumentModels.risk_level r = (DocumentScorer.rating_of overall).2 /\
    DocumentModels.cw_confidence r
    = round (Py.min ((consistency + quality) / 200) 1.0) 3 /\
    DocumentModels.strengths r
    = (DocumentScorer.note (Py.ge quality 75) (Py.lt quality 50)
         "High quality documents" "Poor quality or suspicious documents"
         (DocumentScorer.note (Py.ge consistency 70) (Py.lt consistency 50)
            "Consistent documentation"
            "Inconsistent or incomplete documentation"
            (DocumentScorer.note (Py.ge debt.1 80) (Py.lt debt.1 50)
               "Low debt-to-income ratio" "High debt-to-income ratio"
               (DocumentScorer.note (Py.ge inc.1 70) (Py.lt inc.1 40)
                  "Strong income level" "Low income level" ([], []))))).1.
Proof.
  unfold DocumentScorer.evaluate_creditworthiness.
  destruct (DocumentScorer.calculate_income_score documents) as [inc|];
    cbn [mbind option_bind]; [|discriminate].
  destruct (DocumentScorer.rating_of _) as [[rating decision] risk] eqn:E.
  intros [= <-]. exists inc. cbn. rewrite E. repeat split.
Qed.

Lemma round_fixes_integer (z : Z) (n : nat) :
  round (inject_Z z) n == inject_Z z.
Proof.
  unfold round. pose proof (scale_pos n) as Hs.
  set (k := (10 ^ Z.of_nat n)%Z) in *.
  assert (E : round_half_even (inject_Z z * inject_Z k) = (z * k)%Z).
  { destruct (round_half_even_range (z * k) (z * k)
                (inject_Z z * inject_Z k)) as [Hlo Hhi];
      try (rewrite inject_Z_mult; lra). lia. }
  rewrite E, inject_Z_mult. field. lra.
Qed.

(** X6: without a tax declaration the income score is at most 60, so the
    reported income score is at most 60 and the strength "Strong income
    level", which needs 70, is never listed. *)
Theorem income_strength_needs_tax_declaration documents rc mp r :
  DocumentScorer.of_type DocumentModels.TAX_DECLARATION documents = [] ->
  DocumentScorer.evaluate_creditworthiness documents rc mp = Some r ->
  DocumentModels.income_score r <= 60 /\
  ~ In "Strong income level" (DocumentModels.strengths r).
Proof.
  intros Htax Hr.
  apply evaluate_creditworthiness_report in Hr
    as (inc & Hinc & _ & _ & -> & _ & _ & _ & _ & ->).
  assert (Hle : inc.1 <= 60).
  { revert Hinc. unfold DocumentScorer.calculate_income_score.
    rewrite Htax.
    destruct (DocumentScorer.pay_slip_income _ _ _) as [[s d]|] eqn:E;
      cbn [mbind option_bind]; [|discriminate].
    intros [= <-]. cbn [foldl fst].
    apply pay_slip_income_range in E. py_arith. }
  split.
  - rewrite <- (round_fixes_integer 60 2). apply round_monotone. exact Hle.
  - assert (E : Py.ge inc.1 70 = false).
    { unfold Py.ge, Py.le. destruct (Qlt_le_dec inc.1 70); [reflexivity|lra]. }
    rewrite E. unfold DocumentScorer.note.
    repeat match goal with
           | |- context [if ?c then _ else _] => destruct c
           end; cbn; intuition discriminate.
Qed.

Lemma income_strength_needs_tax_declaration_witness :
  exists r,
    DocumentScorer.evaluate_creditworthiness
      [good_pay_slip; second_pay_slip] 50000 3000 = Some r /\
    DocumentModels.income_score r <= 60 /\
    ~ In "Strong income level" (DocumentModels.strengths r).
Proof.
  eexists. split; [reflexivity|].
  apply (income_strength_needs_tax_declaration
           [good_pay_slip; second_pay_slip] 50000 3000);
    reflexivity.
Defined.

Lemma overall_score_range documents rc mp r :
  Forall documented_ranges documents ->
  DocumentScorer.evaluate_creditworthiness documents rc mp = Some r ->
  exists inc overall,
    DocumentScorer.calculate_income_score documents = Some inc /\
    overall
    = DocumentScorer.weighted_overall_score inc.1
        (DocumentScorer.calculate_consistency_score documents)
        (DocumentScorer.calculate_debt_ratio_score
           (DocumentScorer.income_monthly_income inc.2) rc mp).1
        (DocumentScorer.document_quality documents) /\
    0 <= inc.1 <= 100 /\
    0 <= DocumentScorer.calculate_consistency_score documents <= 100 /\
    0 <= DocumentScorer.document_quality documents <= 100 /\
    0 <= overall <= 100 /\
    DocumentModels.overall_score r = round overall 2.
Proof.
  intros Hdocs Hr.
  apply evaluate_creditworthiness_report in Hr
    as (inc & Hinc & _ & Hov & _).
  assert (Hs : Forall (fun d => 0 <= DocumentModels.score d <= 100)
                 documents).
  { eapply Forall_impl; [exact Hdocs|]. intros d [H _]. exact H. }
  assert (Hc : Forall (fun d => 0 <= DocumentModels.confidence d <= 1)
                 documents).
  { eapply Forall_impl; [exact Hdocs|]. intros d [_ H]. exact H. }
  pose proof (calculate_income_score_range _ _ Hinc) as Hi.
  pose proof (calculate_consistency_score_range _ Hs Hc) as Hcs.
  pose proof (document_quality_range _ Hs) as Hq.
  eexists inc, _. split; [exact Hinc|]. split; [reflexivity|].
  repeat split; try tauto; try exact Hov;
    apply weighted_overall_score_range; auto;
    apply calculate_debt_ratio_score_range.
Qed.

(** X7: when the documents yield no positive monthly income (no pay slip,
    or none with a usable salary) the debt ratio score is 0, so for
    documents within their documented ranges the overall score is at most
    70 and the rating is never Excellent. *)
Theorem no_income_never_excellent documents rc mp r :
  Forall documented_ranges documents ->
  DocumentScorer.evaluate_creditworthiness documents rc mp = Some r ->
  DocumentModels.monthly_income r <= 0 ->
  DocumentModels.overall_score r <= 70 /\
  DocumentModels.rating r <> "Excellent".
Proof.
  intros Hdocs Hr Hmi.
  pose proof (evaluate_creditworthiness_report _ _ _ _ Hr)
    as (inc' & Hinc' & Hmi' & _ & _ & Hrating & _).
  destruct (overall_score_range _ _ _ _ Hdocs Hr)
    as (inc & overall & Hinc & Hov & Hi & Hc & Hq & _ & ->).
  rewrite Hinc in Hinc'. injection Hinc' as <-.
  cbv zeta in Hrating. rewrite <- Hov in Hrating. rewrite Hrating.
  rewrite Hmi' in Hmi.
  assert (Hdebt : DocumentScorer.calculate_debt_ratio_score
                    (DocumentScorer.income_monthly_income inc.2) rc mp
                  = (0, 0)).
  { unfold DocumentScorer.calculate_debt_ratio_score, Py.le.
    destruct (Qlt_le_dec 0 _); [lra|reflexivity]. }
  rewrite Hdebt in Hov. cbn [fst] in Hov.
  assert (Hle : overall <= 70).
  { rewrite Hov. unfold DocumentScorer.weighted_overall_score. lra. }
  split.
  - rewrite <- (round_fixes_integer 70 2). apply round_monotone. exact Hle.
  - unfold DocumentScorer.rating_of, Py.ge, Py.le.
    destruct (Qlt_le_dec overall 80); [|lra].
    repeat match goal with
           | |- context [Qlt_le_dec ?a ?b] => destruct (Qlt_le_dec a b)
           end; cbn; discriminate.
Qed.

Lemma no_income_never_excellent_witness :
  exists r,
    DocumentScorer.evaluate_creditworthiness [good_tax_declaration] 50000 3000
    = Some r /\
    DocumentModels.overall_score r <= 70 /\
    DocumentModels.rating r <> "Excellent".
Proof.
  eexists. split; [reflexivity|].
  apply (no_income_never_excellent [good_tax_declaration] 50000 3000).
  - repeat (constructor; [unfold documented_ranges; cbn; lra|]).
    constructor.
  - reflexivity.
  - apply Qle_bool_imp_le. reflexivity.
Defined.

(** X8: the decision is one of Approved, Review and Rejected, and it binds
    the reported overall score: at least 65 when Approved, between 35 and
    65 when Review, at most 35 when Rejected. *)
Theorem decision_bounds_overall_score documents rc mp r :
  DocumentScorer.evaluate_creditworthiness documents rc mp = Some r ->
  (DocumentModels.decision r = "Approved" /\
   65 <= DocumentModels.overall_score r) \/
  (DocumentModels.decision r = "Review" /\
   35 <= DocumentModels.overall_score r <= 65) \/
  (DocumentModels.decision r = "Rejected" /\
   DocumentModels.overall_score r <= 35).
Proof.
  intros Hr.
  apply evaluate_creditworthiness_report in Hr
    as (inc & _ & _ & -> & _ & _ & -> & _).
  cbv zeta. set (overall := DocumentScorer.weighted_overall_score _ _ _ _).
  pose proof (round_fixes_integer 65 2) as H65.
  pose proof (round_fixes_integer 35 2) as H35.
  pose proof (fun q => round_monotone q 65 2) as Hup65.
  pose proof (fun q => round_monotone 65 q 2) as Hlo65.
  pose proof (fun q => round_monotone q 35 2) as Hup35.
  pose proof (fun q => round_monotone 35 q 2) as Hlo35.
  change (inject_Z 65) with 65 in H65. change (inject_Z 35) with 35 in H35.
  unfold DocumentScorer.rating_of, Py.ge, Py.le.
  destruct (Qlt_le_dec overall 80); [destruct (Qlt_le_dec overall 65);
    [destruct (Qlt_le_dec overall 50); [destruct (Qlt_le_dec overall 35)|]|]|];
    cbn [fst snd].
  - right; right. split; [reflexivity|].
    specialize (Hup35 overall ltac:(lra)). lra.
  - right; left. split; [reflexivity|].
    specialize (Hup65 overall ltac:(lra)).
    specialize (Hlo35 overall ltac:(lra)). lra.
  - right; left. split; [reflexivity|].
    specialize (Hup65 overall ltac:(lra)).
    specialize (Hlo35 overall ltac:(lra)). lra.
  - left. split; [reflexivity|].
    specialize (Hlo65 overall ltac:(lra)). lra.
  - left. split; [reflexivity|].
    specialize (Hlo65 overall ltac:(lra)). lra.
Qed.

Lemma decision_bounds_overall_score_witness :
  exists r,
    DocumentScorer.evaluate_creditworthiness
      [good_pay_slip; second_pay_slip; good_tax_declaration] 50000 3000
    = Some r /\
    ((DocumentModels.decision r = "Approved" /\
      65 <= DocumentModels.overall_score r) \/
     (DocumentModels.decision r = "Review" /\
      35 <= DocumentModels.overall_score r <= 65) \/
     (DocumentModels.decision r = "Rejected" /\
      DocumentModels.overall_score r <= 35)).
Proof.
  eexists. split; [reflexivity|].
  apply (decision_bounds_overall_score
           [good_pay_slip; second_pay_slip; good_tax_declaration] 50000 3000).
  reflexivity.
Defined.

(** X9: for documents within their documented ranges the confidence of
    the assessment lies within [0, 1]. *)
Theorem assessment_confidence_range documents rc mp r :
  Forall documented_ranges documents ->
  DocumentScorer.evaluate_creditworthiness documents rc mp = Some r ->
  0 <= DocumentModels.cw_confidence r <= 1.
Proof.
  intros Hdocs Hr.
  pose proof (evaluate_creditworthiness_report _ _ _ _ Hr)
    as (inc' & _ & _ & _ & _ & _ & _ & _ & -> & _).
  destruct (overall_score_range _ _ _ _ Hdocs Hr)
    as (inc & overall & _ & _ & _ & Hc & Hq & _).
  cbv zeta.
  set (c := DocumentScorer.calculate_consistency_score documents) in *.
  set (q := DocumentScorer.document_quality documents) in *.
  assert (Hdiv : (c + q) / 200 == (c + q) * (1 # 200))
    by (unfold Qdiv; reflexivity).
  assert (Hm : 0 <= Py.min ((c + q) / 200) 1.0 <= 1).
  { unfold Py.min. destruct (Qlt_le_dec _ _); lra. }
  pose proof (round_fixes_integer 0 3) as H0.
  pose proof (round_fixes_integer 1 3) as H1.
  change (inject_Z 0) with 0 in H0. change (inject_Z 1) with 1 in H1.
  split.
  - rewrite <- H0. apply round_monotone. tauto.
  - rewrite <- H1. apply round_monotone. tauto.
Qed.

Lemma assessment_confidence_range_witness :
  exists r,
    DocumentScorer.evaluate_creditworthiness
      [good_pay_slip; good_tax_declaration] 50000 3000 = Some r /\
    0 <= DocumentModels.cw_confidence r <= 1.
Proof.
  eexists. split; [reflexivity|].
  apply (assessment_confidence_range
           [good_pay_slip; good_tax_declaration] 50000 3000).
  - repeat (constructor; [unfold documented_ranges; cbn; lra|]).
    constructor.
  - reflexivity.
Defined.

(** X10: the list of missing documents is empty exactly when at least two
    pay slips and one tax declaration were submitted; a bank statement is
    never asked for. *)
Theorem missing_documents_empty documents rc mp r :
  DocumentScorer.evaluate_creditworthiness documents rc mp = Some r ->
  (DocumentModels.missing_documents r = [] <->
   (2 <= length (DocumentScorer.of_type DocumentModels.PAY_SLIP documents)
    /\ 1 <= length (DocumentScorer.of_type DocumentModels.TAX_DECLARATION
                      documents))%nat) /\
  DocumentModels.required_documents r
  = ["2 recent pay slips"; "Tax declaration"].
Proof.
  unfold DocumentScorer.evaluate_creditworthiness.
  destruct (DocumentScorer.calculate_income_score documents) as [inc|];
    cbn [mbind option_bind]; [|discriminate].
  destruct (DocumentScorer.rating_of _) as [[rating decision] risk].
  intros [= <-].
  cbn [DocumentModels.missing_documents DocumentModels.required_documents].
  change (DocumentScorer.min_required "pay_slips") with 2%nat.
  change (DocumentScorer.min_required "tax_declaration") with 1%nat.
  split; [|reflexivity].
  set (p := length (DocumentScorer.of_type DocumentModels.PAY_SLIP
                      documents)).
  set (t := length (DocumentScorer.of_type DocumentModels.TAX_DECLARATION
                      documents)).
  destruct (Nat.ltb_spec p 2) as [Hp|Hp];
    destruct (Nat.ltb_spec t 1) as [Ht|Ht];
    cbn [app]; split; intros Hm; try discriminate Hm; try reflexivity; lia.
Qed.

Lemma missing_documents_empty_witness :
  exists r,
    DocumentScorer.evaluate_creditworthiness
      [good_pay_slip; second_pay_slip; good_tax_declaration] 50000 3000
    = Some r /\
    (DocumentModels.missing_documents r = [] <->
     (2 <= length (DocumentScorer.of_type DocumentModels.PAY_SLIP
                     [good_pay_slip; second_pay_slip; good_tax_declaration])
      /\ 1 <= length (DocumentScorer.of_type DocumentModels.TAX_DECLARATION
                        [good_pay_slip; second_pay_slip;
                         good_tax_declaration]))%nat) /\
    DocumentModels.required_documents r
    = ["2 recent pay slips"; "Tax declaration"].
Proof.
  eexists. split; [reflexivity|].
  apply (missing_documents_empty
           [good_pay_slip; second_pay_slip; good_tax_declaration] 50000 3000).
  reflexivity.
Defined.

(** X11: the debt ratio score never rises with the monthly payment, and
    the requested credit plays no part in it. *)
Theorem debt_ratio_score_antitone monthly_income rc rc' mp mp' :
  mp <= mp' ->
  (DocumentScorer.calculate_debt_ratio_score monthly_income rc' mp').1
  <= (DocumentScorer.calculate_debt_ratio_score monthly_income rc mp).1.
Proof.
  intros Hle. unfold DocumentScorer.calculate_debt_ratio_score.
  unfold Py.gt, Py.lt, Py.le.
  destruct (Qlt_le_dec 0 monthly_income) as [Hpos|Hneg]; [|cbn; lra].
  assert (Hr : mp / monthly_income * 100 <= mp' / monthly_income * 100).
  { assert (H : mp / monthly_income <= mp' / monthly_income).
    { apply Qle_shift_div_l; [exact Hpos|].
      unfold Qdiv. rewrite <- Qmult_assoc, (Qmult_comm (/ monthly_income)),
        Qmult_inv_r; lra. }
    lra. }
  revert Hr. generalize (mp / monthly_income * 100).
  generalize (mp' / monthly_income * 100). intros a b Hab.
  split_tests; cbn [fst]; lra.
Qed.

Lemma debt_ratio_score_antitone_witness :
  (DocumentScorer.calculate_debt_ratio_score 10000 80000 4500).1
  <= (DocumentScorer.calculate_debt_ratio_score 10000 50000 3000).1.
Proof.
  apply (debt_ratio_score_antitone 10000 50000 80000 3000 4500).
  apply Qle_bool_imp_le. reflexivity.
Defined.

(** What [analyze_document] leaves under ['net_salary']: nothing, or a
    number. *)
Lemma analyze_document_net_salary
    (extract_text_from_pdf : list Byte.byte -> string)
    (parse_pay_slip : string -> option DocumentModels.PaySlipData)
    (parse_tax_declaration :
       string -> option DocumentModels.TaxDeclarationData)
    (parse_bank_statement :
       string -> option DocumentModels.BankStatementData)
    (pdf_bytes : list Byte.byte)
    (document_type : DocumentModels.DocumentType) r :
  DocumentParser.analyze_document extract_text_from_pdf parse_pay_slip
    parse_tax_declaration parse_bank_statement pdf_bytes document_type
  = Some r ->
  numeric_salary r.
Proof.
  unfold DocumentParser.analyze_document, numeric_salary,
    DocumentScorer.extracted.
  destruct (String.eqb _ "" || _).
  { intros [= <-]. cbn. discriminate. }
  assert (Hdict : forall (data : gmap string DocumentModels.pyval)
                    (acc : list string * Q) r,
            (data !! "net_salary" = None \/
             (exists q, data !! "net_salary" = Some (DocumentModels.PNum q)) \/
             data !! "net_salary" = Some DocumentModels.PNone) ->
            (parsed ← Some (data, acc);
             let extracted_data : gmap string DocumentModels.pyval :=
               parsed.1 in
             let validation_issues := parsed.2.1 in
             let score := parsed.2.2 in
             let '(status, score) :=
               if Py.lt score 30 then (DocumentModels.INVALID, score)
               else if (3 <? length validation_issues)%nat
               then (DocumentModels.SUSPICIOUS, score)
               else if (0 <? length validation_issues)%nat
               then (DocumentModels.INCOMPLETE, score)
               else (DocumentModels.VALID, score + 20) in
             let risk_flags : list string := [] in
             let recommendations : list string := [] in
             let '(risk_flags, recommendations) :=
               match validation_issues with
               | [] => (risk_flags, recommendations)
               | _ :: _ =>
                   (risk_flags ++ validation_issues,
                    recommendations ++ ["Verify document authenticity"])
               end in
             let recommendations :=
               if Py.lt score 50
               then recommendations
                    ++ ["Submit additional supporting documents"]
               else recommendations in
             let confidence := Py.min (score / 100) 1.0 in
             Some {| DocumentModels.document_type := document_type;
                     DocumentModels.status := status;
                     DocumentModels.confidence := confidence;
                     DocumentModels.extracted_data := extracted_data;
                     DocumentModels.validation_issues := validation_issues;
                     DocumentModels.score := Py.max 0 (Py.min 100 score);
                     DocumentModels.risk_flags := risk_flags;
                     DocumentModels.recommendations := recommendations |})
            = Some r ->
            DocumentModels.pyval_truthy
              (default DocumentModels.PNone
                 (DocumentModels.extracted_data r !! "net_salary")) = true ->
            is_Some
              (DocumentModels.pyval_num
                 (default DocumentModels.PNone
                    (DocumentModels.extracted_data r !! "net_salary")))).
  { intros data [issues s] r' Hd. cbn [mbind option_bind fst snd].
    destruct (Py.lt s 30);
      [|destruct (3 <? length issues)%nat;
        [|destruct (0 <? length issues)%nat]];
      destruct issues; intros [= <-]; cbn [DocumentModels.extracted_data];
      destruct Hd as [-> | [[q ->] | ->]]; cbn; eauto; discriminate. }
  destruct document_type.
  - destruct (parse_pay_slip _) as [x|]; cbn [mbind option_bind];
      [|discriminate].
    apply Hdict. unfold DocumentModels.PaySlipData_dict.
    destruct (DocumentModels.net_salary x) as [q|];
      [right; left; exists q|right; right]; reflexivity.
  - destruct (parse_tax_declaration _) as [x|]; cbn [mbind option_bind];
      [|discriminate].
    apply Hdict. left. reflexivity.
  - destruct (parse_bank_statement _) as [x|]; cbn [mbind option_bind];
      [|discriminate].
    apply Hdict. left. reflexivity.
  - apply Hdict. left. reflexivity.
  - apply Hdict. left. reflexivity.
Qed.

Lemma analyze_document_documented
    (extract_text_from_pdf : list Byte.byte -> string)
    (parse_pay_slip : string -> option DocumentModels.PaySlipData)
    (parse_tax_declaration :
       string -> option DocumentModels.TaxDeclarationData)
    (parse_bank_statement :
       string -> option DocumentModels.BankStatementData)
    (pdf_bytes : list Byte.byte)
    (document_type : DocumentModels.DocumentType) r :
  DocumentParser.analyze_document extract_text_from_pdf parse_pay_slip
    parse_tax_declaration parse_bank_statement pdf_bytes document_type
  = Some r ->
  documented_ranges r.
Proof.
  intros Hr. unfold documented_ranges.
  apply analyze_document_cases in Hr
    as [(_ & -> & -> & _)
       |(issues & s & Hs & _ & _ & _ & _ & _ & -> & ->)].
  - lra.
  - split; [apply clip_range|].
    assert (Hdiv : forall x, x / 100 == x * (1 # 100))
      by (intros; unfold Qdiv; reflexivity).
    pose proof (Hdiv s) as Hd1. pose proof (Hdiv (s + 20)) as Hd2.
    destruct (Py.lt s 30); [|destruct (0 <? length issues)%nat];
      unfold Py.min; split_tests; lra.
Qed.

(** X12: the parser and the aggregator compose.  Whatever the texts and
    whatever the parsers find, a list of results produced by
    [analyze_document] is always assessed: the aggregator returns, its
    overall score lies within [0, 100] and its confidence within
    [0, 1]. *)
Theorem analyzed_documents_are_assessed
    (extract_text_from_pdf : list Byte.byte -> string)
    (parse_pay_slip : string -> option DocumentModels.PaySlipData)
    (parse_tax_declaration :
       string -> option DocumentModels.TaxDeclarationData)
    (parse_bank_statement :
       string -> option DocumentModels.BankStatementData)
    (uploads : list (list Byte.byte * DocumentModels.DocumentType))
    (documents : list DocumentModels.DocumentAnalysisResult)
    (requested_credit monthly_payment : Q) :
  Forall2
    (fun upload d =>
       DocumentParser.analyze_document extract_text_from_pdf parse_pay_slip
         parse_tax_declaration parse_bank_statement upload.1 upload.2
       = Some d)
    uploads documents ->
  exists r,
    DocumentScorer.evaluate_creditworthiness documents requested_credit
      monthly_payment = Some r /\
    0 <= DocumentModels.overall_score r <= 100 /\
    0 <= DocumentModels.cw_confidence r <= 1.
Proof.
  intros Hall.
  assert (Hranges : Forall documented_ranges documents).
  { induction Hall as [|u d us ds Hu _ IH]; [constructor|].
    constructor; [|exact IH].
    eapply analyze_document_documented; exact Hu. }
  assert (Hnum : Forall numeric_salary documents).
  { clear Hranges. induction Hall as [|u d us ds Hu _ IH]; [constructor|].
    constructor; [|exact IH].
    eapply analyze_document_net_salary; exact Hu. }
  destruct (evaluate_creditworthiness_returns documents requested_credit
              monthly_payment Hnum) as [r Hr].
  exists r. split; [exact Hr|]. split.
  - destruct (overall_score_range _ _ _ _ Hranges Hr)
      as (inc & overall & _ & _ & _ & _ & _ & Hov & ->).
    apply round_range; tauto.
  - pose proof (evaluate_creditworthiness_report _ _ _ _ Hr)
      as (inc' & _ & _ & _ & _ & _ & _ & _ & -> & _).
    destruct (overall_score_range _ _ _ _ Hranges Hr)
      as (inc & overall & _ & _ & _ & Hc & Hq & _).
    cbv zeta.
    set (c := DocumentScorer.calculate_consistency_score documents) in *.
    set (q := DocumentScorer.document_quality documents) in *.
    assert (Hdiv : (c + q) / 200 == (c + q) * (1 # 200))
      by (unfold Qdiv; reflexivity).
    assert (Hm : 0 <= Py.min ((c + q) / 200) 1.0 <= 1).
    { unfold Py.min. destruct (Qlt_le_dec _ _); lra. }
    pose proof (round_fixes_integer 0 3) as H0.
    pose proof (round_fixes_integer 1 3) as H1.
    change (inject_Z 0) with 0 in H0. change (inject_Z 1) with 1 in H1.
    split.
    + rewrite <- H0. apply round_monotone. tauto.
    + rewrite <- H1. apply round_monotone. tauto.
Qed.

Lemma analyzed_documents_are_assessed_witness :
  exists r,
    DocumentScorer.evaluate_creditworthiness sample_upload_results 50000 3000
    = Some r /\
    0 <= DocumentModels.overall_score r <= 100 /\
    0 <= DocumentModels.cw_confidence r <= 1.
Proof.
  apply (analyzed_documents_are_assessed sample_extract sample_parse
           (fun _ => None) (fun _ => None) sample_uploads
           sample_upload_results).
  repeat constructor.
Defined.

(** ** The overall creditworthiness: decisions and limits *)

(** Every field of the assessment in terms of the totals read from the
    documents. *)
Lemma calculate_overall_creditworthiness_report
    (format_percent format_fixed : nat -> Q -> string)
    (format_value : Q -> string) (documents : DocumentAnalyzer.Documents)
    (requested_credit monthly_payment : Q) :
  let a :=
    DocumentAnalyzer.calculate_overall_creditworthiness format_percent
      format_fixed format_value documents requested_credit monthly_payment in
  let t := DocumentAnalyzer.document_totals documents in
  let mi := DocumentAnalyzer.income t in
  let overall :=
    if Py.gt (DocumentAnalyzer.weights_sum t) 0
    then DocumentAnalyzer.total_score t / DocumentAnalyzer.weights_sum t * 100
    else 0 in
  let dti :=
    if Py.gt mi 0 && Py.gt monthly_payment 0 then monthly_payment / mi
    else 0 in
  let eligible :=
    Py.ge overall 60 && Py.ge mi DocumentAnalyzer.min_monthly_income in
  DocumentAnalyzer.overall_score a = round overall 1 /\
  DocumentAnalyzer.monthly_income a = mi /\
  DocumentAnalyzer.is_eligible a = eligible /\
  DocumentAnalyzer.max_credit_limit a
  = round (DocumentAnalyzer._calculate_max_credit_limit mi overall) 2 /\
  DocumentAnalyzer.document_scores a = DocumentAnalyzer.scores t /\
  DocumentAnalyzer.decision a
  = (if eligible then
       if Py.gt dti 0 && Py.gt dti DocumentAnalyzer.max_debt_to_income
       then "REJECTED"
       else if Py.ge overall 70 then "APPROVED" else "CONDITIONAL"
     else "REJECTED") /\
  (eligible = false ->
   DocumentAnalyzer.decision_reason a
   = (if Py.lt mi DocumentAnalyzer.min_monthly_income
      then "Insufficient monthly income ("
           +:+ format_value mi +:+ " MAD < "
           +:+ format_value DocumentAnalyzer.min_monthly_income +:+ " MAD)"
      else "Overall score too low ("
           +:+ format_fixed 1%nat overall +:+ " < 60)")).
Proof.
  unfold DocumentAnalyzer.calculate_overall_creditworthiness. cbv zeta.
  set (t := DocumentAnalyzer.document_totals documents).
  set (overall := if Py.gt (DocumentAnalyzer.weights_sum t) 0 then _ else _).
  set (mi := DocumentAnalyzer.income t).
  set (dti := if Py.gt mi 0 && Py.gt monthly_payment 0 then _ else _).
  destruct (Py.ge overall 60 && Py.ge mi _).
  - destruct (Py.gt dti 0 && Py.gt dti DocumentAnalyzer.max_debt_to_income).
    { cbn. repeat split. discriminate. }
    unfold Py.ge, Py.le.
    destruct (Qlt_le_dec overall 80); destruct (Qlt_le_dec overall 70);
      try lra; cbn; repeat split; discriminate.
  - cbn. repeat split.
Qed.

(** X13: without a pay slip no monthly income is read, so whatever the
    tax declaration and the bank statement score, the application is not
    eligible, the decision is REJECTED for insufficient income and the
    credit limit is 0. *)
Theorem no_pay_slip_rejected
    (format_percent format_fixed : nat -> Q -> string)
    (format_value : Q -> string) (documents : DocumentAnalyzer.Documents)
    (requested_credit monthly_payment : Q) :
  DocumentAnalyzer.doc_PAY_SLIP documents = None ->
  let a :=
    DocumentAnalyzer.calculate_overall_creditworthiness format_percent
      format_fixed format_value documents requested_credit monthly_payment in
  DocumentAnalyzer.monthly_income a = 0 /\
  DocumentAnalyzer.is_eligible a = false /\
  DocumentAnalyzer.decision a = "REJECTED" /\
  DocumentAnalyzer.decision_reason a
  = "Insufficient monthly income (" +:+ format_value 0 +:+ " MAD < "
    +:+ format_value 3000 +:+ " MAD)" /\
  DocumentAnalyzer.max_credit_limit a == 0 /\
  DocumentAnalyzer.debt_to_income_ratio a = None.
Proof.
  intros Hps a.
  pose proof (calculate_overall_creditworthiness_report format_percent
                format_fixed format_value documents requested_credit
                monthly_payment) as H.
  cbv zeta in H. fold a in H.
  assert (Hmi : DocumentAnalyzer.income
                  (DocumentAnalyzer.document_totals documents) = 0).
  { unfold DocumentAnalyzer.document_totals. rewrite Hps.
    destruct (DocumentAnalyzer.doc_TAX_DECLARATION documents);
      destruct (DocumentAnalyzer.doc_BANK_STATEMENT documents); reflexivity. }
  rewrite Hmi in H.
  destruct H as (_ & Hinc & Hel & Hlim & _ & Hdec & Hreason).
  assert (E : forall b, b && Py.ge 0 DocumentAnalyzer.min_monthly_income
                        = false).
  { intros b. rewrite andb_false_r. reflexivity. }
  rewrite E in Hel, Hdec, Hreason.
  split; [exact Hinc|]. split; [exact Hel|]. split; [exact Hdec|].
  split; [exact (Hreason eq_refl)|]. split.
  - rewrite Hlim. unfold DocumentAnalyzer._calculate_max_credit_limit.
    assert (E0 : forall m, 0 * m == 0) by (intros; ring).
    destruct (Py.ge _ 90); [|destruct (Py.ge _ 80);
      [|destruct (Py.ge _ 70); [|destruct (Py.ge _ 60)]]];
      exact (round_fixes_integer 0 2).
  - subst a. unfold DocumentAnalyzer.calculate_overall_creditworthiness.
    cbv zeta. rewrite Hmi.
    change (Py.gt 0 0) with false. cbn [andb].
    change (Py.gt 0 0) with false.
    repeat match goal with
           | |- context [if ?c then _ else _] => destruct c
           end; reflexivity.
Qed.

Lemma no_pay_slip_rejected_witness :
  let a :=
    DocumentAnalyzer.calculate_overall_creditworthiness
      (fun _ => plain_format) (fun _ => plain_format) plain_format
      documents_without_pay_slip 50000 1000 in
  DocumentAnalyzer.monthly_income a = 0 /\
  DocumentAnalyzer.is_eligible a = false /\
  DocumentAnalyzer.decision a = "REJECTED" /\
  DocumentAnalyzer.decision_reason a
  = "Insufficient monthly income (" +:+ plain_format 0 +:+ " MAD < "
    +:+ plain_format 3000 +:+ " MAD)" /\
  DocumentAnalyzer.max_credit_limit a == 0 /\
  DocumentAnalyzer.debt_to_income_ratio a = None.
Proof.
  apply (no_pay_slip_rejected (fun _ => plain_format) (fun _ => plain_format)
           plain_format documents_without_pay_slip 50000 1000).
  reflexivity.
Defined.

(** X14: the decision is APPROVED, CONDITIONAL or REJECTED.  An approval
    means a reported overall score of at least 70, a monthly income of at
    least 3000 and a monthly payment of at most 40% of that income; a
    conditional answer means a reported score between 60 and 70. *)
Theorem approval_conditions
    (format_percent format_fixed : nat -> Q -> string)
    (format_value : Q -> string) (documents : DocumentAnalyzer.Documents)
    (requested_credit monthly_payment : Q) :
  let a :=
    DocumentAnalyzer.calculate_overall_creditworthiness format_percent
      format_fixed format_value documents requested_credit monthly_payment in
  (DocumentAnalyzer.decision a = "APPROVED" /\
   70 <= DocumentAnalyzer.overall_score a /\
   3000 <= DocumentAnalyzer.monthly_income a /\
   monthly_payment <= 0.40 * DocumentAnalyzer.monthly_income a) \/
  (DocumentAnalyzer.decision a = "CONDITIONAL" /\
   60 <= DocumentAnalyzer.overall_score a <= 70 /\
   3000 <= DocumentAnalyzer.monthly_income a /\
   monthly_payment <= 0.40 * DocumentAnalyzer.monthly_income a) \/
  DocumentAnalyzer.decision a = "REJECTED".
Proof.
  intros a.
  pose proof (calculate_overall_creditworthiness_report format_percent
                format_fixed format_value documents requested_credit
                monthly_payment) as H.
  cbv zeta in H. fold a in H.
  destruct H as (-> & -> & _ & _ & _ & -> & _).
  set (t := DocumentAnalyzer.document_totals documents).
  set (overall := if Py.gt (DocumentAnalyzer.weights_sum t) 0 then _ else _).
  set (mi := DocumentAnalyzer.income t).
  pose proof (round_fixes_integer 70 1) as H70.
  pose proof (round_fixes_integer 60 1) as H60.
  change (inject_Z 70) with 70 in H70. change (inject_Z 60) with 60 in H60.
  pose proof (fun q => round_monotone q 70 1) as Hup70.
  pose proof (fun q => round_monotone 70 q 1) as Hlo70.
  pose proof (fun q => round_monotone 60 q 1) as Hlo60.
  unfold DocumentAnalyzer.min_monthly_income,
    DocumentAnalyzer.max_debt_to_income.
  unfold Py.ge, Py.le, Py.gt, Py.lt.
  destruct (Qlt_le_dec overall 60) as [|Ho60]; cbn [andb]; [auto|].
  destruct (Qlt_le_dec mi 3000) as [|Hmi]; cbn [andb]; [auto|].
  destruct (Qlt_le_dec 0 mi); [|lra].
  assert (Hpay : forall d,
            d = (if (if Qlt_le_dec 0 monthly_payment then true else false)
                 then monthly_payment / mi else 0) ->
            (if Qlt_le_dec 0 d then true else false)
            && (if Qlt_le_dec 0.40 d then true else false) = false ->
            monthly_payment <= 0.40 * mi).
  { intros d -> Hd.
    destruct (Qlt_le_dec 0 monthly_payment) as [Hp|Hp]; [|lra].
    assert (Hr : 0 < monthly_payment / mi)
      by (apply Qlt_shift_div_l; lra).
    destruct (Qlt_le_dec 0 (monthly_payment / mi)); [|lra].
    destruct (Qlt_le_dec 0.40 (monthly_payment / mi)) as [|Hle];
      [discriminate|].
    assert (Hm : monthly_payment / mi * mi == monthly_payment)
      by (field; lra).
    nra. }
  cbn [andb].
  match goal with
  | |- context [if ?c then "REJECTED" else _] => destruct c eqn:Hgate
  end; [auto|].
  specialize (Hpay _ eq_refl Hgate).
  destruct (Qlt_le_dec overall 70).
  - right; left. split; [reflexivity|].
    specialize (Hup70 overall ltac:(lra)).
    specialize (Hlo60 overall ltac:(lra)). repeat split; lra.
  - left. split; [reflexivity|].
    specialize (Hlo70 overall ltac:(lra)). repeat split; lra.
Qed.

(** X15: for a non-negative monthly income the recommended credit limit
    lies between 5 and 15 times that income, and it never falls when the
    score rises. *)
Theorem max_credit_limit_bounds (monthly_income score score' : Q) :
  0 <= monthly_income -> score <= score' ->
  5 * monthly_income
  <= DocumentAnalyzer._calculate_max_credit_limit monthly_income score /\
  DocumentAnalyzer._calculate_max_credit_limit monthly_income score
  <= DocumentAnalyzer._calculate_max_credit_limit monthly_income score' /\
  DocumentAnalyzer._calculate_max_credit_limit monthly_income score'
  <= 15 * monthly_income.
Proof.
  intros Hmi Hs. unfold DocumentAnalyzer._calculate_max_credit_limit.
  unfold Py.ge, Py.le. split_tests; try lra; repeat split; nra.
Qed.

Lemma max_credit_limit_bounds_witness :
  5 * 8000 <= DocumentAnalyzer._calculate_max_credit_limit 8000 65 /\
  DocumentAnalyzer._calculate_max_credit_limit 8000 65
  <= DocumentAnalyzer._calculate_max_credit_limit 8000 85 /\
  DocumentAnalyzer._calculate_max_credit_limit 8000 85 <= 15 * 8000.
Proof.
  apply (max_credit_limit_bounds 8000 65 85);
    apply Qle_bool_imp_le; reflexivity.
Defined.

Lemma document_totals_average documents lo hi :
  let t := DocumentAnalyzer.document_totals documents in
  DocumentAnalyzer.scores t <> ∅ ->
  map_Forall (fun _ s => lo <= s <= hi) (DocumentAnalyzer.scores t) ->
  0 < DocumentAnalyzer.weights_sum t /\
  lo * DocumentAnalyzer.weights_sum t <= DocumentAnalyzer.total_score t /\
  DocumentAnalyzer.total_score t <= hi * DocumentAnalyzer.weights_sum t.
Proof.
  unfold DocumentAnalyzer.document_totals.
  destruct (DocumentAnalyzer.doc_PAY_SLIP documents) as [[[|p ps]|p]|];
    destruct (DocumentAnalyzer.doc_TAX_DECLARATION documents) as [tx|];
    destruct (DocumentAnalyzer.doc_BANK_STATEMENT documents) as [bk|];
    cbv zeta; unfold DocumentAnalyzer.add_document;
    cbn [DocumentAnalyzer.total_score DocumentAnalyzer.weights_sum
         DocumentAnalyzer.scores DocumentAnalyzer.income];
    intros Hne Hall; try congruence;
    try (pose proof (Hall "pay_slip" _ eq_refl) as Hp);
    try (pose proof (Hall "tax_declaration" _ eq_refl) as Ht);
    try (pose proof (Hall "bank_statement" _ eq_refl) as Hb);
    cbn beta in *; repeat split; lra.
Qed.

(** X16: the overall score is the weighted average of the scores of the
    documents that are present, scaled by 100: when every document score
    lies between two bounds, so does the reported overall score (the
    bounds scaled and rounded alike).  A missing document does not pull
    the score down. *)
Theorem overall_score_is_weighted_average
    (format_percent format_fixed : nat -> Q -> string)
    (format_value : Q -> string) (documents : DocumentAnalyzer.Documents)
    (requested_credit monthly_payment lo hi : Q) :
  let a :=
    DocumentAnalyzer.calculate_overall_creditworthiness format_percent
      format_fixed format_value documents requested_credit monthly_payment in
  DocumentAnalyzer.document_scores a <> ∅ ->
  map_Forall (fun _ s => lo <= s <= hi) (DocumentAnalyzer.document_scores a) ->
  round (lo * 100) 1 <= DocumentAnalyzer.overall_score a /\
  DocumentAnalyzer.overall_score a <= round (hi * 100) 1.
Proof.
  intros a.
  pose proof (calculate_overall_creditworthiness_report format_percent
                format_fixed format_value documents requested_credit
                monthly_payment) as H.
  cbv zeta in H. fold a in H.
  destruct H as (-> & _ & _ & _ & -> & _).
  intros Hne Hall.
  destruct (document_totals_average documents lo hi Hne Hall)
    as (Hw & Hlo & Hhi).
  set (t := DocumentAnalyzer.document_totals documents) in *.
  assert (Hq : lo <= DocumentAnalyzer.total_score t
                     / DocumentAnalyzer.weights_sum t <= hi).
  { split; [apply Qle_shift_div_l|apply Qle_shift_div_r]; assumption. }
  unfold Py.gt, Py.lt.
  destruct (Qlt_le_dec 0 (DocumentAnalyzer.weights_sum t)); [|lra].
  split; apply round_monotone; lra.
Qed.

Lemma overall_score_is_weighted_average_witness :
  let a :=
    DocumentAnalyzer.calculate_overall_creditworthiness
      (fun _ => plain_format) (fun _ => plain_format) plain_format
      documents_without_pay_slip 50000 1000 in
  round (0.8 * 100) 1 <= DocumentAnalyzer.overall_score a /\
  DocumentAnalyzer.overall_score a <= round (0.9 * 100) 1.
Proof.
  apply (overall_score_is_weighted_average (fun _ => plain_format)
           (fun _ => plain_format) plain_format documents_without_pay_slip
           50000 1000 0.8 0.9).
  - intros E. apply (f_equal (fun m => m !! "tax_declaration")) in E.
    vm_compute in E. discriminate E.
  - apply map_Forall_to_list. vm_compute.
    repeat (constructor; [split; discriminate|]). constructor.
Defined.

(** ** The per-document analyses and the endpoint *)

Lemma salary_score_range (m : Q) :
  20 <= DocumentAnalyzer._calculate_salary_score m <= 100.
Proof. unfold DocumentAnalyzer._calculate_salary_score. py_arith. Qed.

Lemma tax_compliance_score_range (p i : Q) :
  50 <= DocumentAnalyzer._calculate_tax_compliance_score p i <= 90.
Proof.
  unfold DocumentAnalyzer._calculate_tax_compliance_score.
  unfold_py. split_tests; cbn [andb]; lra.
Qed.

Lemma balance_score_range (b : Q) :
  30 <= DocumentAnalyzer._calculate_balance_score b <= 100.
Proof. unfold DocumentAnalyzer._calculate_balance_score. py_arith. Qed.

Lemma cash_flow_score_range (c d : Q) :
  30 <= DocumentAnalyzer._calculate_cash_flow_score c d <= 100.
Proof.
  unfold DocumentAnalyzer._calculate_cash_flow_score.
  destruct (Qeq_bool c 0); [lra|]. py_arith.
Qed.

Lemma round_between (lo hi : Z) (q : Q) (n : nat) :
  inject_Z lo <= q <= inject_Z hi ->
  inject_Z lo <= round q n <= inject_Z hi.
Proof.
  intros [Hlo Hhi]. split.
  - rewrite <- (round_fixes_integer lo n). apply round_monotone. exact Hlo.
  - rewrite <- (round_fixes_integer hi n). apply round_monotone. exact Hhi.
Qed.

(** X17: [analyze_single_document] raises only for an unsupported type,
    and only the bank statement analysis can fail (when a transaction
    amount does not convert).  Every overall score that is reported lies
    on the 0 to 100 scale: between 35 and 91 for a pay slip, 32 and 96 for
    a tax declaration, 30 and 100 for a bank statement. *)
Theorem analysis_scores_bounded (self : DocumentAnalyzer.Extractors)
    (text document_type : string) :
  match DocumentAnalyzer.analyze_single_document self text document_type with
  | Some (DocumentAnalyzer.AnalyzedPaySlip a) =>
      document_type = "PAY_SLIP" /\
      35 <= DocumentAnalyzer.pa_overall_score a <= 91
  | Some (DocumentAnalyzer.AnalyzedTax a) =>
      document_type = "TAX_DECLARATION" /\
      32 <= DocumentAnalyzer.ta_overall_score a <= 96
  | Some (DocumentAnalyzer.AnalyzedBank a) =>
      document_type = "BANK_STATEMENT" /\
      30 <= DocumentAnalyzer.ba_overall_score a <= 100
  | Some (DocumentAnalyzer.AnalysisFailed failed_type) =>
      document_type = "BANK_STATEMENT" /\ failed_type = "BANK_STATEMENT" /\
      DocumentAnalyzer._extract_transactions self text = None
  | None =>
      document_type <> "PAY_SLIP" /\ document_type <> "TAX_DECLARATION" /\
      document_type <> "BANK_STATEMENT"
  end.
Proof.
  unfold DocumentAnalyzer.analyze_single_document.
  destruct (String.eqb_spec document_type "PAY_SLIP") as [->|Hp].
  { split; [reflexivity|]. cbn [DocumentAnalyzer.pa_overall_score].
    pose proof (salary_score_range
                  (DocumentAnalyzer._extract_net_salary self text)).
    apply (round_between 35 91). change (inject_Z 35) with 35.
    change (inject_Z 91) with 91. lra. }
  destruct (String.eqb_spec document_type "TAX_DECLARATION") as [->|Ht].
  { split; [reflexivity|]. cbn [DocumentAnalyzer.ta_overall_score].
    match goal with
    | |- context [DocumentAnalyzer._calculate_salary_score ?m * 0.6
                  + DocumentAnalyzer._calculate_tax_compliance_score ?p ?i
                    * 0.4] =>
        pose proof (salary_score_range m);
        pose proof (tax_compliance_score_range p i)
    end.
    apply (round_between 32 96). change (inject_Z 32) with 32.
    change (inject_Z 96) with 96. lra. }
  destruct (String.eqb_spec document_type "BANK_STATEMENT") as [->|Hb].
  { unfold DocumentAnalyzer.analyze_bank_statement.
    destruct (DocumentAnalyzer._extract_transactions self text)
      as [[credits debits]|]; [|repeat split].
    split; [reflexivity|]. cbn [DocumentAnalyzer.ba_overall_score].
    pose proof (balance_score_range
                  (DocumentAnalyzer._extract_final_balance self text)).
    pose proof (cash_flow_score_range (sum credits) (sum debits)).
    apply (round_between 30 100). change (inject_Z 30) with 30.
    change (inject_Z 100) with 100. lra. }
  auto.
Qed.

Lemma as_read_has_no_score (d : DocumentAnalyzer.Analyzed) :
  DocumentAnalyzer.entry (DocumentAnalyzer.as_read d) "salary_score" = 0 /\
  DocumentAnalyzer.entry (DocumentAnalyzer.as_read d) "stability_score" = 0 /\
  DocumentAnalyzer.entry (DocumentAnalyzer.as_read d) "income_score" = 0 /\
  DocumentAnalyzer.entry (DocumentAnalyzer.as_read d) "compliance_score" = 0 /\
  DocumentAnalyzer.entry (DocumentAnalyzer.as_read d) "balance_score" = 0 /\
  DocumentAnalyzer.entry (DocumentAnalyzer.as_read d) "cash_flow_score" = 0 /\
  DocumentAnalyzer.extracted_data (DocumentAnalyzer.as_read d) = None.
Proof. destruct d; repeat split. Qed.

Lemma mapM_total {A B} (f : A -> B) (l : list A) :
  mapM (fun x => Some (f x)) l = Some (f <$> l).
Proof.
  induction l as [|x l IH]; [reflexivity|].
  cbn [mapM]. rewrite IH. reflexivity.
Qed.

(** The documents that the endpoint collects: every analysis returns, so
    the collection never fails. *)
Lemma collect_documents_total (document_analyzer : DocumentAnalyzer.Extractors)
    (pay_slips : list string)
    (tax_declaration bank_statement : option string) :
  Main.collect_documents document_analyzer pay_slips tax_declaration
    bank_statement
  = Some
      {| DocumentAnalyzer.doc_PAY_SLIP :=
           match pay_slips with
           | [] => None
           | _ :: _ =>
               Some (DocumentAnalyzer.SlipList
                       (DocumentAnalyzer.as_read
                          <$> (DocumentAnalyzer.analyze_pay_slip
                                 document_analyzer <$> pay_slips)))
           end;
         DocumentAnalyzer.doc_TAX_DECLARATION :=
           (fun text =>
              DocumentAnalyzer.as_read
                (DocumentAnalyzer.analyze_tax_declaration document_analyzer
                   text)) <$> tax_declaration;
         DocumentAnalyzer.doc_BANK_STATEMENT :=
           (fun text =>
              DocumentAnalyzer.as_read
                (DocumentAnalyzer.analyze_bank_statement document_analyzer
                   text)) <$> bank_statement |}.
Proof.
  unfold Main.collect_documents.
  change (fun text : string =>
            DocumentAnalyzer.analyze_single_document document_analyzer
              text "PAY_SLIP")
    with (fun text : string =>
            Some (DocumentAnalyzer.analyze_pay_slip document_analyzer text)).
  rewrite mapM_total. cbn [mbind option_bind].
  destruct tax_declaration, bank_statement, pay_slips; reflexivity.
Qed.

(** The totals over documents none of which carries a score or a net
    salary where the calculation looks for them. *)
Lemma unread_documents_total (documents : DocumentAnalyzer.Documents) :
  (forall l, DocumentAnalyzer.doc_PAY_SLIP documents
             = Some (DocumentAnalyzer.SlipList l) ->
             exists ds, l = DocumentAnalyzer.as_read <$> ds) ->
  (forall a, DocumentAnalyzer.doc_PAY_SLIP documents
             <> Some (DocumentAnalyzer.SlipOne a)) ->
  (forall a, DocumentAnalyzer.doc_TAX_DECLARATION documents = Some a ->
             exists d, a = DocumentAnalyzer.as_read d) ->
  (forall a, DocumentAnalyzer.doc_BANK_STATEMENT documents = Some a ->
             exists d, a = DocumentAnalyzer.as_read d) ->
  DocumentAnalyzer.total_score (DocumentAnalyzer.document_totals documents)
  == 0 /\
  0 <= DocumentAnalyzer.weights_sum
         (DocumentAnalyzer.document_totals documents) /\
  DocumentAnalyzer.income (DocumentAnalyzer.document_totals documents) = 0.
Proof.
  intros Hps Hone Htx Hbk. unfold DocumentAnalyzer.document_totals.
  assert (Hzero : forall d k,
            In k ["salary_score"; "stability_score"; "income_score";
                  "compliance_score"; "balance_score"; "cash_flow_score"] ->
            DocumentAnalyzer.entry (DocumentAnalyzer.as_read d) k = 0).
  { intros d k Hk. destruct (as_read_has_no_score d)
      as (? & ? & ? & ? & ? & ? & _).
    cbn in Hk. intuition (subst; assumption). }
  destruct (DocumentAnalyzer.doc_TAX_DECLARATION documents) as [tx|];
    [destruct (Htx _ eq_refl) as [dt ->]|];
    (destruct (DocumentAnalyzer.doc_BANK_STATEMENT documents) as [bk|];
     [destruct (Hbk _ eq_refl) as [db ->]|]);
    (destruct (DocumentAnalyzer.doc_PAY_SLIP documents) as [[l|p]|];
     [destruct (Hps _ eq_refl) as [[|dp ds] ->]; cbn [fmap list_fmap]
     |exfalso; exact (Hone p eq_refl)|]);
    cbv zeta; unfold DocumentAnalyzer.add_document;
    cbn [DocumentAnalyzer.total_score DocumentAnalyzer.weights_sum
         DocumentAnalyzer.scores DocumentAnalyzer.income];
    rewrite ?Hzero by (cbn; tauto);
    repeat split; try reflexivity; try lra;
    destruct dp; reflexivity.
Qed.

(** The assessment of documents whose totals are empty-handed. *)
Lemma unread_assessment
    (format_percent format_fixed : nat -> Q -> string)
    (format_value : Q -> string) (documents : DocumentAnalyzer.Documents)
    (requested_credit monthly_payment : Q) :
  DocumentAnalyzer.total_score (DocumentAnalyzer.document_totals documents)
  == 0 ->
  DocumentAnalyzer.income (DocumentAnalyzer.document_totals documents) = 0 ->
  let a :=
    DocumentAnalyzer.calculate_overall_creditworthiness format_percent
      format_fixed format_value documents requested_credit monthly_payment in
  DocumentAnalyzer.monthly_income a = 0 /\
  DocumentAnalyzer.overall_score a == 0 /\
  DocumentAnalyzer.is_eligible a = false /\
  DocumentAnalyzer.decision a = "REJECTED" /\
  DocumentAnalyzer.max_credit_limit a == 0.
Proof.
  intros Htot Hinc a.
  pose proof (calculate_overall_creditworthiness_report format_percent
                format_fixed format_value documents requested_credit
                monthly_payment) as H.
  cbv zeta in H. fold a in H.
  destruct H as (-> & -> & -> & -> & _ & -> & _).
  rewrite Hinc.
  set (t := DocumentAnalyzer.document_totals documents) in *.
  set (overall := if Py.gt (DocumentAnalyzer.weights_sum t) 0 then _ else _).
  assert (Hov : overall == 0).
  { subst overall. destruct (Py.gt _ 0); [|reflexivity].
    rewrite Htot. unfold Qdiv. ring. }
  assert (E60 : Py.ge overall 60 = false).
  { unfold Py.ge, Py.le. destruct (Qlt_le_dec overall 60); [reflexivity|lra]. }
  rewrite E60. cbn [andb].
  pose proof (round_fixes_integer 0 1) as H0.
  change (inject_Z 0) with 0 in H0.
  split; [reflexivity|]. split.
  { apply Qle_antisym.
    - apply Qle_trans with (Py.round 0 1);
        [apply round_monotone; lra|rewrite H0; lra].
    - apply Qle_trans with (Py.round 0 1);
        [rewrite H0; lra|apply round_monotone; lra]. }
  split; [reflexivity|]. split; [reflexivity|].
  unfold DocumentAnalyzer._calculate_max_credit_limit.
  destruct (Py.ge _ 90); [|destruct (Py.ge _ 80);
    [|destruct (Py.ge _ 70); [|destruct (Py.ge _ 60)]]];
    exact (round_fixes_integer 0 2).
Qed.

(** X18: the endpoint never approves.  The analyses keep their scores under
    ['scores'] and hold no ['extracted_data'], where the overall
    calculation reads neither: whatever the texts extracted from the
    uploads, the endpoint answers 400 when nothing was sent and otherwise
    an assessment with monthly income 0, overall score 0, not eligible,
    decision REJECTED and credit limit 0. *)
Theorem endpoint_never_approves
    (document_analyzer : DocumentAnalyzer.Extractors)
    (format_percent format_fixed : nat -> Q -> string)
    (requested_credit monthly_payment : Q) (pay_slips : list string)
    (tax_declaration bank_statement : option string) :
  match Main.evaluate_creditworthiness document_analyzer format_percent
          format_fixed requested_credit monthly_payment pay_slips
          tax_declaration bank_statement with
  | inl code =>
      code = 400%Z /\ pay_slips = [] /\ tax_declaration = None /\
      bank_statement = None
  | inr a =>
      DocumentAnalyzer.monthly_income a = 0 /\
      DocumentAnalyzer.overall_score a == 0 /\
      DocumentAnalyzer.is_eligible a = false /\
      DocumentAnalyzer.decision a = "REJECTED" /\
      DocumentAnalyzer.max_credit_limit a == 0
  end.
Proof.
  unfold Main.evaluate_creditworthiness.
  rewrite collect_documents_total.
  set (documents := {| DocumentAnalyzer.doc_PAY_SLIP := _ |}).
  assert (Hunread : DocumentAnalyzer.total_score
                      (DocumentAnalyzer.document_totals documents) == 0 /\
                    DocumentAnalyzer.income
                      (DocumentAnalyzer.document_totals documents) = 0).
  { destruct (unread_documents_total documents) as (H1 & _ & H3);
      [| | | |split; assumption]; subst documents;
      cbn [DocumentAnalyzer.doc_PAY_SLIP DocumentAnalyzer.doc_TAX_DECLARATION
           DocumentAnalyzer.doc_BANK_STATEMENT].
    - intros l Hl. destruct pay_slips; [discriminate|].
      injection Hl as Hl. rewrite <- Hl.
      exists (DocumentAnalyzer.analyze_pay_slip document_analyzer
                <$> s :: pay_slips).
      reflexivity.
    - intros a. destruct pay_slips; discriminate.
    - intros a Ha. destruct tax_declaration; [|discriminate].
      injection Ha as Ha. rewrite <- Ha. eexists. reflexivity.
    - intros a Ha. destruct bank_statement; [|discriminate].
      injection Ha as Ha. rewrite <- Ha. eexists. reflexivity. }
  destruct Hunread as [Htot Hinc].
  pose proof (unread_assessment format_percent format_fixed
                (DocumentAnalyzer.format_number document_analyzer) documents
                requested_credit monthly_payment Htot Hinc) as Ha.
  cbv zeta in Ha.
  destruct (DocumentAnalyzer.doc_PAY_SLIP documents) eqn:Eps;
    destruct (DocumentAnalyzer.doc_TAX_DECLARATION documents) eqn:Etx;
    destruct (DocumentAnalyzer.doc_BANK_STATEMENT documents) eqn:Ebk;
    try exact Ha.
  subst documents.
  cbn [DocumentAnalyzer.doc_PAY_SLIP DocumentAnalyzer.doc_TAX_DECLARATION
       DocumentAnalyzer.doc_BANK_STATEMENT] in Eps, Etx, Ebk.
  destruct pay_slips; [|discriminate].
  destruct tax_declaration; [discriminate|].
  destruct bank_statement; [discriminate|]. repeat split.
Qed.

(** On the sample extractors: every pay slip analyses to an overall score
    of 73.5, and an application with two pay slips, a tax declaration and a
    bank statement is still rejected for insufficient income. *)
Example endpoint_rejects_good_documents :
  (forall text,
     DocumentAnalyzer.analyzed_overall_score
       <$> DocumentAnalyzer.analyze_single_document sample_extractors text
             "PAY_SLIP" = Some (Some (round 73.5 2))) /\
  exists a,
    Main.evaluate_creditworthiness sample_extractors (fun _ => plain_format)
      (fun _ => plain_format) 50000 1000 ["fiche"; "fiche"] (Some "impots")
      (Some "releve") = inr a /\
    DocumentAnalyzer.decision a = "REJECTED" /\
    DocumentAnalyzer.decision_reason a
    = "Insufficient monthly income (# MAD < # MAD)".
Proof.
  split; [intros; reflexivity|].
  eexists. split; [vm_compute; reflexivity|]. split; reflexivity.
Qed.


(** ** The dataset generator *)

Lemma ir_rate_range (annual_income : Q) :
  0 <= GenerateDataset._calculate_ir_rate annual_income <= 0.38.
Proof.
  unfold GenerateDataset._calculate_ir_rate. unfold_py. split_tests; lra.
Qed.

(** X19: the income tax rate never decreases with the income, and lies
    between 0 and 38 percent. *)
Theorem ir_rate_monotone (income income' : Q) :
  income <= income' ->
  GenerateDataset._calculate_ir_rate income
  <= GenerateDataset._calculate_ir_rate income' /\
  0 <= GenerateDataset._calculate_ir_rate income /\
  GenerateDataset._calculate_ir_rate income' <= 0.38.
Proof.
  intros Hle. split; [|split; apply ir_rate_range].
  unfold GenerateDataset._calculate_ir_rate. unfold_py. split_tests; lra.
Qed.

Lemma ir_rate_monotone_witness :
  45000 <= 70000 /\
  GenerateDataset._calculate_ir_rate 45000
  <= GenerateDataset._calculate_ir_rate 70000 /\
  0 <= GenerateDataset._calculate_ir_rate 45000 /\
  GenerateDataset._calculate_ir_rate 70000 <= 0.38.
Proof.
  assert (H : 45000 <= 70000) by (apply Qle_bool_imp_le; reflexivity).
  split; [exact H|]. exact (ir_rate_monotone 45000 70000 H).
Defined.

(** The drawn confidence, quality and consistency are clipped to
    [0.3, 1]. *)
Lemma draw_clip_range (x : Q) : 0.3 <= max 0.3 (min 1.0 x) <= 1.
Proof. py_arith. Qed.

(** X20: the labels of a generated CIN row.  Whatever is drawn, the score
    lies between 21 and 100; a row labelled VALID scores at least 74, and
    an expired card is labelled INVALID and scores at most 80. *)
Theorem generated_cin_row_labels (expired : bool) (conf_draw quality_draw : Q)
    (photo legible format : bool) :
  let row :=
    GenerateDataset.generate_cin_row expired conf_draw quality_draw photo
      legible format in
  21 <= GenerateDataset.cin_row_score row <= 100 /\
  (GenerateDataset.cin_row_status row = "VALID" ->
   74 <= GenerateDataset.cin_row_score row) /\
  (expired = true ->
   GenerateDataset.cin_row_status row = "INVALID" /\
   GenerateDataset.cin_row_score row <= 80).
Proof.
  unfold GenerateDataset.generate_cin_row.
  cbn [GenerateDataset.cin_row_score GenerateDataset.cin_row_status].
  pose proof (draw_clip_range conf_draw) as Hc.
  pose proof (draw_clip_range quality_draw) as Hq.
  set (c := max 0.3 (min 1.0 conf_draw)) in *.
  set (q := max 0.3 (min 1.0 quality_draw)) in *.
  clearbody c q.
  unfold GenerateDataset.cin_score, GenerateDataset.cin_status.
  cbn [GenerateDataset.is_expired GenerateDataset.ocr_confidence
       GenerateDataset.image_quality GenerateDataset.has_photo
       GenerateDataset.text_legible GenerateDataset.correct_format].
  split; [|split].
  - apply (round_between 21 100).
    destruct expired, photo, legible; cbn [negb]; unfold inject_Z; lra.
  - intros Hv. apply (round_between 74 100).
    destruct expired, photo, legible; cbn [negb orb] in Hv |- *;
      try discriminate Hv;
      revert Hv; unfold Py.lt;
      destruct (Qlt_le_dec c 0.5); cbn [orb]; try discriminate;
      destruct (Qlt_le_dec c 0.65); cbn [orb]; try discriminate;
      destruct (Qlt_le_dec q 0.6); cbn [orb]; try discriminate;
      intros _; unfold inject_Z; lra.
  - intros ->. split; [reflexivity|].
    apply (round_between 21 80).
    destruct photo, legible; cbn [negb]; unfold inject_Z; lra.
Qed.

Lemma generated_cin_row_labels_witness :
  let row := GenerateDataset.generate_cin_row false 0.9 0.8 true true true in
  GenerateDataset.cin_row_status row = "VALID" /\
  74 <= GenerateDataset.cin_row_score row.
Proof.
  cbv zeta. split; [reflexivity|].
  apply (generated_cin_row_labels false 0.9 0.8 true true true).
  reflexivity.
Defined.

(** The drawn salary is clipped to [2500, 50000]. *)
Lemma salary_clip_range (x : Q) : 2500 <= max 2500 (min 50000 x) <= 50000.
Proof. py_arith. Qed.

Lemma abs_zero (x : Q) : x == 0 -> Py.lt (Py.abs x) 1 = true.
Proof.
  intros Hx. unfold Py.lt, Py.abs.
  destruct (Qlt_le_dec x 0); destruct (Qlt_le_dec _ 1); try reflexivity; lra.
Qed.

(** X21: the generated pay slips never show a calculation error.  The net
    salary is computed from the very amounts it is checked against, so
    [amounts_match] is true on every row, and a row is labelled INVALID
    exactly when its required fields are missing. *)
Theorem generated_payslip_amounts_match (salary_draw other_deductions : Q)
    (months_ago : Z) (stamp_draw fields_draw consistency_draw : Q) :
  let row :=
    GenerateDataset.generate_payslip_row salary_draw other_deductions
      months_ago stamp_draw fields_draw consistency_draw in
  GenerateDataset.ps_amounts_match row = true /\
  String.eqb (GenerateDataset.ps_status row) "INVALID"
  = negb (GenerateDataset.ps_has_required_fields row).
Proof.
  unfold GenerateDataset.generate_payslip_row.
  cbn [GenerateDataset.ps_amounts_match GenerateDataset.ps_status
       GenerateDataset.ps_has_required_fields].
  set (base_salary := max 2500 (min 50000 (salary_draw * 100))).
  set (total_deductions := _ + _ + other_deductions).
  assert (Hm : Py.lt (Py.abs (base_salary - total_deductions
                              - (base_salary - total_deductions))) 1 = true).
  { apply abs_zero. ring. }
  split; [exact Hm|].
  unfold GenerateDataset.payslip_status.
  cbn [GenerateDataset.amounts_match GenerateDataset.has_required_fields
       GenerateDataset.has_company_stamp GenerateDataset.salary_consistency
       GenerateDataset.months_ago].
  rewrite Hm. cbn [negb orb].
  destruct (Py.gt fields_draw 0.12); cbn [negb]; [|reflexivity].
  destruct (negb (Py.gt stamp_draw 0.1) || _); [reflexivity|].
  destruct (3 <? months_ago)%Z; reflexivity.
Qed.

(** X22: the amounts of a generated pay slip.  With other deductions
    drawn from [0, 500], the net salary lies between 1888 and the gross
    salary, the income tax withheld between 0 and 10000 (a fifth of the
    highest salary: the rate is looked up with the monthly amount), and
    the score between 18 and 100. *)
Theorem generated_payslip_amounts (salary_draw other_deductions : Q)
    (months_ago : Z) (stamp_draw fields_draw consistency_draw : Q) :
  0 <= other_deductions <= 500 ->
  let row :=
    GenerateDataset.generate_payslip_row salary_draw other_deductions
      months_ago stamp_draw fields_draw consistency_draw in
  1888 <= GenerateDataset.ps_net_salary row /\
  GenerateDataset.ps_net_salary row <= GenerateDataset.ps_gross_salary row /\
  0 <= GenerateDataset.ps_ir_deduction row <= 10000 /\
  18 <= GenerateDataset.ps_score row <= 100.
Proof.
  intros Ho. unfold GenerateDataset.generate_payslip_row.
  cbn [GenerateDataset.ps_net_salary GenerateDataset.ps_gross_salary
       GenerateDataset.ps_ir_deduction GenerateDataset.ps_score].
  pose proof (salary_clip_range (salary_draw * 100)) as Hb.
  pose proof (draw_clip_range consistency_draw) as Hc.
  set (b := max 2500 (min 50000 (salary_draw * 100))) in *.
  set (c := max 0.3 (min 1.0 consistency_draw)) in *.
  clearbody b c.
  assert (Hrate : 0 <= b * GenerateDataset._calculate_ir_rate b <= 10000 /\
                  1888 + 500
                  <= b - (b * 0.0448 + b * GenerateDataset._calculate_ir_rate b)).
  { unfold GenerateDataset._calculate_ir_rate. unfold_py.
    split_tests; lra. }
  destruct Hrate as [Hir Hnet].
  set (ir := b * GenerateDataset._calculate_ir_rate b) in *. clearbody ir.
  assert (Hamount : Py.lt (Py.abs (b - (b * 0.0448 + ir + other_deductions)
                                   - (b - (b * 0.0448 + ir + other_deductions))))
                      1 = true).
  { apply abs_zero. ring. }
  split; [|split; [|split]].
  - apply Qle_trans with (Py.round 1888 2).
    + rewrite (round_fixes_integer 1888 2). unfold inject_Z. lra.
    + apply round_monotone. lra.
  - apply round_monotone. lra.
  - apply (round_between 0 10000). unfold inject_Z. lra.
  - apply (round_between 18 100). unfold inject_Z.
    unfold GenerateDataset.payslip_score.
    cbn [GenerateDataset.net_salary GenerateDataset.has_company_stamp
         GenerateDataset.amounts_match GenerateDataset.has_required_fields
         GenerateDataset.salary_consistency].
    rewrite Hamount.
    set (net := b - (b * 0.0448 + ir + other_deductions)).
    assert (Hn : 1888 <= net) by (subst net; lra).
    assert (Hdiv : net / 300 == net * (1 # 300)) by (unfold Qdiv; reflexivity).
    assert (Hi : 6 <= Py.min 100 (net / 300) <= 100).
    { unfold Py.min. destruct (Qlt_le_dec (net / 300) 100); lra. }
    set (income_score := Py.min 100 (net / 300)) in *. clearbody income_score.
    destruct (Py.gt stamp_draw 0.1), (Py.gt fields_draw 0.12);
      cbn [Py.num]; lra.
Qed.

Lemma generated_payslip_amounts_witness :
  let row := GenerateDataset.generate_payslip_row 80 250 1 0.5 0.5 0.9 in
  0 <= 250 <= 500 /\
  1888 <= GenerateDataset.ps_net_salary row /\
  GenerateDataset.ps_net_salary row <= GenerateDataset.ps_gross_salary row /\
  0 <= GenerateDataset.ps_ir_deduction row <= 10000 /\
  18 <= GenerateDataset.ps_score row <= 100.
Proof.
  cbv zeta.
  assert (H : 0 <= 250 <= 500)
    by (split; apply Qle_bool_imp_le; reflexivity).
  split; [exact H|].
  exact (generated_payslip_amounts 80 250 1 0.5 0.5 0.9 H).
Defined.

(** X23: the generated tax declarations.  The taxable share of the gross
    income is one minus the deduction rate, so [income_reasonable] only
    tests the drawn rate: it holds exactly for rates strictly between 5 and
    40 percent.  For a rate drawn from [0.05, 0.20] the taxable income
    stays between 24000 and the gross income, and the score between 28
    and 100. *)
Theorem generated_tax_income_reasonable (income_draw deduction_rate : Q)
    (years_ago : Z) (stamp_draw calc_draw fields_draw : Q) :
  let row :=
    GenerateDataset.generate_tax_row income_draw deduction_rate years_ago
      stamp_draw calc_draw fields_draw in
  GenerateDataset.tx_income_reasonable row
  = Py.lt 0.05 deduction_rate && Py.lt deduction_rate 0.4 /\
  (0.05 <= deduction_rate <= 0.20 ->
   24000 <= GenerateDataset.tx_taxable_income row /\
   GenerateDataset.tx_taxable_income row
   <= GenerateDataset.tx_gross_income row /\
   28 <= GenerateDataset.tx_score row <= 100).
Proof.
  unfold GenerateDataset.generate_tax_row.
  cbn [GenerateDataset.tx_income_reasonable GenerateDataset.tx_taxable_income
       GenerateDataset.tx_gross_income GenerateDataset.tx_score].
  assert (Hg : 30000 <= max 30000 (min 1000000 (income_draw * 100))
               <= 1000000) by py_arith.
  set (g := max 30000 (min 1000000 (income_draw * 100))) in *. clearbody g.
  assert (Hratio : (g - g * deduction_rate) / g == 1 - deduction_rate)
    by (field; lra).
  set (ratio := (g - g * deduction_rate) / g) in *. clearbody ratio.
  assert (Hreasonable : Py.lt 0.6 ratio && Py.lt ratio 0.95
                        = Py.lt 0.05 deduction_rate
                          && Py.lt deduction_rate 0.4).
  { unfold Py.lt.
    destruct (Qlt_le_dec 0.6 ratio), (Qlt_le_dec ratio 0.95),
      (Qlt_le_dec 0.05 deduction_rate), (Qlt_le_dec deduction_rate 0.4);
      try reflexivity; lra. }
  split; [exact Hreasonable|].
  intros Hr. split; [|split].
  - apply Qle_trans with (Py.round 24000 2).
    + rewrite (round_fixes_integer 24000 2). unfold inject_Z. lra.
    + apply round_monotone. nra.
  - apply round_monotone. nra.
  - apply (round_between 28 100). unfold inject_Z.
    unfold GenerateDataset.tax_score.
    cbn [GenerateDataset.taxable_income GenerateDataset.has_official_stamp
         GenerateDataset.calculations_correct
         GenerateDataset.all_fields_filled
         GenerateDataset.income_reasonable].
    set (taxable := g - g * deduction_rate).
    assert (Ht : 24000 <= taxable) by (subst taxable; nra).
    assert (Hdiv : taxable / 500 == taxable * (1 # 500))
      by (unfold Qdiv; reflexivity).
    assert (Hi : 48 <= Py.min 100 (taxable / 500) <= 100).
    { unfold Py.min. destruct (Qlt_le_dec (taxable / 500) 100); lra. }
    set (income_score := Py.min 100 (taxable / 500)) in *.
    clearbody income_score.
    destruct (Py.gt stamp_draw 0.08), (Py.gt calc_draw 0.15),
      (Py.gt fields_draw 0.10), (Py.lt 0.6 ratio && Py.lt ratio 0.95);
      cbn [Py.num]; lra.
Qed.

Lemma generated_tax_income_reasonable_witness :
  let row := GenerateDataset.generate_tax_row 1200 0.1 1 0.5 0.5 0.5 in
  0.05 <= 0.1 <= 0.20 /\
  24000 <= GenerateDataset.tx_taxable_income row /\
  GenerateDataset.tx_taxable_income row
  <= GenerateDataset.tx_gross_income row /\
  28 <= GenerateDataset.tx_score row <= 100.
Proof.
  cbv zeta.
  assert (H : 0.05 <= 0.1 <= 0.20)
    by (split; apply Qle_bool_imp_le; reflexivity).
  split; [exact H|].
  exact (proj2 (generated_tax_income_reasonable 1200 0.1 1 0.5 0.5 0.5) H).
Defined.

(** X24: the generated bank statements, for a period of at least one
    month.  The closing balance is clipped at zero and so is never
    negative; the balances fail to match only on rows whose closing
    balance was clipped to zero, and those rows are labelled INVALID; the
    savings rate is one minus the drawn expense ratio; the score lies
    between 8 and 100. *)
Theorem generated_bank_row_balances (period : Z)
    (opening_draw credits_draw expense_ratio header_draw regular_draw : Q)
    (incidents_draw : Z) :
  (1 <= period)%Z ->
  let row :=
    GenerateDataset.generate_bank_row period opening_draw credits_draw
      expense_ratio header_draw regular_draw incidents_draw in
  0 <= GenerateDataset.bk_closing_balance row /\
  (GenerateDataset.bk_balances_match row = false ->
   GenerateDataset.bk_closing_balance row == 0 /\
   GenerateDataset.bk_status row = "INVALID") /\
  GenerateDataset.bk_savings_rate row == round (1 - expense_ratio) 3 /\
  8 <= GenerateDataset.bk_score row <= 100.
Proof.
  intros Hp. unfold GenerateDataset.generate_bank_row.
  cbn [GenerateDataset.bk_closing_balance GenerateDataset.bk_balances_match
       GenerateDataset.bk_status GenerateDataset.bk_savings_rate
       GenerateDataset.bk_score].
  assert (Hpq : 1 <= inject_Z period).
  { change 1 with (inject_Z 1). rewrite <- Zle_Qle. exact Hp. }
  set (p := inject_Z period) in *. clearbody p.
  assert (Ho : 0 <= max 0 (min 500000 (opening_draw * 100)) <= 500000)
    by py_arith.
  assert (Hc : 1000 <= max 1000 (min 100000 (credits_draw * 100)) <= 100000)
    by py_arith.
  set (o := max 0 (min 500000 (opening_draw * 100))) in *. clearbody o.
  set (m := max 1000 (min 100000 (credits_draw * 100))) in *. clearbody m.
  assert (Hai : m * p / p == m) by (field; lra).
  assert (Hae : m * p * expense_ratio / p == m * expense_ratio)
    by (field; lra).
  set (raw := o + m * p - m * p * expense_ratio).
  assert (Hclose : 0 <= max 0 raw) by py_arith.
  assert (Hmatch : Py.lt (Py.abs (raw - max 0 raw)) 100 = false ->
                   max 0 raw == 0).
  { unfold Py.lt, Py.abs, Py.max.
    destruct (Qlt_le_dec 0 raw); destruct (Qlt_le_dec _ 0);
      destruct (Qlt_le_dec _ 100); intros; try discriminate; lra. }
  assert (Hgt : Py.gt (m * p / p) 0 = true).
  { unfold Py.gt, Py.lt. destruct (Qlt_le_dec 0 (m * p / p));
      [reflexivity|lra]. }
  split; [|split; [|split]].
  - apply Qle_trans with (Py.round 0 2).
    + rewrite (round_fixes_integer 0 2). apply Qle_refl.
    + apply round_monotone. exact Hclose.
  - intros Hf. apply Hmatch in Hf as Hz. split.
    + rewrite (round_proper _ 0 2 Hz). exact (round_fixes_integer 0 2).
    + unfold GenerateDataset.bank_status.
      cbn [GenerateDataset.balances_match]. rewrite Hf. reflexivity.
  - rewrite Hgt. apply round_proper. field. lra.
  - apply (round_between 8 100). unfold inject_Z.
    unfold GenerateDataset.bank_score.
    cbn [GenerateDataset.average_balance GenerateDataset.avg_monthly_income
         GenerateDataset.regular_income GenerateDataset.savings_rate
         GenerateDataset.low_balance_incidents].
    set (closing := max 0 raw) in *. clearbody closing.
    assert (Hb : 0 <= Py.min 100 ((o + closing) / 2 / 100) <= 100).
    { assert (Hdiv : (o + closing) / 2 / 100 == (o + closing) * (1 # 200))
        by field.
      unfold Py.min. destruct (Qlt_le_dec _ 100); lra. }
    assert (Hi : 20 <= Py.min 100 (m * p / p / 50) <= 100).
    { assert (Hdiv : m * p / p / 50 == m * (1 # 50)) by (field; lra).
      unfold Py.min. destruct (Qlt_le_dec _ 100); lra. }
    set (balance_score := Py.min 100 ((o + closing) / 2 / 100)) in *.
    set (income_score := Py.min 100 (m * p / p / 50)) in *.
    clearbody balance_score income_score.
    destruct (Py.gt regular_draw 0.3);
      destruct (Py.gt (if Py.gt (m * p / p) 0 then _ else _) 0);
      destruct (_ =? 0)%Z; cbn [Py.num]; lra.
Qed.

Lemma generated_bank_row_balances_witness :
  let row := GenerateDataset.generate_bank_row 2 0 10 1.2 0.5 0.5 1 in
  (1 <= 2)%Z /\
  0 <= GenerateDataset.bk_closing_balance row /\
  GenerateDataset.bk_balances_match row = false /\
  GenerateDataset.bk_closing_balance row == 0 /\
  GenerateDataset.bk_status row = "INVALID" /\
  GenerateDataset.bk_savings_rate row == round (1 - 1.2) 3 /\
  8 <= GenerateDataset.bk_score row <= 100.
Proof.
  cbv zeta.
  assert (H : (1 <= 2)%Z) by lia.
  pose proof (generated_bank_row_balances 2 0 10 1.2 0.5 0.5 1 H)
    as (H1 & H2 & H3 & H4).
  assert (Hf : GenerateDataset.bk_balances_match
                 (GenerateDataset.generate_bank_row 2 0 10 1.2 0.5 0.5 1)
               = false) by reflexivity.
  destruct (H2 Hf) as [H5 H6].
  repeat split; try assumption; apply H4.
Defined.


(** ** The two model services *)

Lemma clip_monotone (x y : Q) :
  x <= y -> max 0 (min 100 x) <= max 0 (min 100 y).
Proof. intros H. py_arith. Qed.

(** X25: the two rule-based fallbacks disagree in one direction only.  On
    the same features the fallback score of the scoring service is never
    above the fallback score of the model service, for each of the four
    document kinds: it starts from the same amount, takes off the same
    penalties and then one more (illegible text, an old pay slip, an old
    declaration, a negative savings rate). *)
Theorem scoring_fallback_below_model_fallback (features : Features) :
  ScoringService._fallback_cin_score features
  <= score (MLModelService._fallback_cin_analysis features) /\
  ScoringService._fallback_payslip_score features
  <= score (MLModelService._fallback_payslip_analysis features) /\
  ScoringService._fallback_tax_score features
  <= score (MLModelService._fallback_tax_analysis features) /\
  ScoringService._fallback_bank_score features
  <= score (MLModelService._fallback_bank_analysis features).
Proof.
  unfold ScoringService._fallback_cin_score,
    ScoringService._fallback_payslip_score,
    ScoringService._fallback_tax_score, ScoringService._fallback_bank_score,
    MLModelService._fallback_cin_analysis,
    MLModelService._fallback_payslip_analysis,
    MLModelService._fallback_tax_analysis,
    MLModelService._fallback_bank_analysis, MLModelService.fallback_result.
  cbn [score].
  repeat split; apply clip_monotone;
    repeat match goal with
           | |- context [if ?b then _ else _] => destruct b
           end; lra.
Qed.

(** The penalty that only the scoring service knows does make a
    difference: an illegible but otherwise perfect CIN scores 55 there and
    70 with the model service. *)
Example illegible_cin_fallbacks :
  ScoringService._fallback_cin_score {[ "text_legible" := FBool false ]} == 55
  /\ score (MLModelService._fallback_cin_analysis
              {[ "text_legible" := FBool false ]}) == 70.
Proof. split; reflexivity. Qed.

Lemma predict_with_range self feats document_type fallback :
  within_scale (score fallback) ->
  within_scale
    (score (MLModelService.predict_with self feats document_type fallback)).
Proof.
  intros Hf. unfold MLModelService.predict_with.
  destruct (negb (MLModelService.model_loaded self)); [exact Hf|].
  destruct (predict_document _ _ _) as [p|] eqn:Hp; [|exact Hf].
  apply predict_document_score in Hp as [raw ->].
  apply round_range; apply clip_range.
Qed.

(** X26: whatever the state of the model service (no model loaded, a model
    that raises, a model that answers) and whatever the extracted data,
    each of its four predictions carries a score between 0 and 100. *)
Theorem service_predictions_within_scale
    (self : MLModelService.MLModelService) (extracted_data : Features) :
  within_scale
    (score (MLModelService.predict_cin_document self extracted_data)) /\
  within_scale
    (score (MLModelService.predict_payslip_document self extracted_data)) /\
  within_scale
    (score (MLModelService.predict_tax_document self extracted_data)) /\
  within_scale
    (score
       (MLModelService.predict_bank_statement_document self extracted_data)).
Proof.
  repeat split; apply predict_with_range; apply clip_range.
Qed.






(** X28: a missing feature silently turns a model score into a rule-based
    one.  When the column list saved with a regressor names a feature that
    the dictionary lacks, the scorer of that kind answers its fallback
    score, whatever the regressor would have said. *)
Theorem missing_column_falls_back
    (self : ScoringService.DocumentScoringService) (feats : Features)
    (cols : list string) (c : string) :
  c ∈ cols -> feats !! c = None ->
  (ScoringService.features self !! "cin" = Some cols ->
   ScoringService.score_cin self feats
   = ScoringService._fallback_cin_score feats) /\
  (ScoringService.features self !! "payslip" = Some cols ->
   ScoringService.score_payslip self feats
   = ScoringService._fallback_payslip_score feats) /\
  (ScoringService.features self !! "tax" = Some cols ->
   ScoringService.score_tax self feats
   = ScoringService._fallback_tax_score feats) /\
  (ScoringService.features self !! "bank" = Some cols ->
   ScoringService.score_bank self feats
   = ScoringService._fallback_bank_score feats).
Proof.
  intros Hc Hmiss.
  assert (Hsel : select_columns feats cols = None).
  { destruct (select_columns feats cols) as [vals|] eqn:E; [|reflexivity].
    assert (Hs : is_Some (select_columns feats cols)) by (rewrite E; eauto).
    unfold select_columns in Hs. apply mapM_is_Some in Hs.
    rewrite Forall_forall in Hs. specialize (Hs c Hc). cbn in Hs.
    rewrite Hmiss in Hs. destruct Hs as [? Hs]. discriminate Hs. }
  assert (Hwith : forall doc_type fallback,
            ScoringService.features self !! doc_type = Some cols ->
            ScoringService.score_with self doc_type feats fallback
            = fallback).
  { intros doc_type fallback Hcols. unfold ScoringService.score_with.
    destruct (ScoringService.models self !! doc_type); [|reflexivity].
    unfold ScoringService.model_prediction.
    rewrite Hcols. cbn [mbind option_bind]. rewrite Hsel. reflexivity. }
  repeat split; intros Hcols; apply Hwith; exact Hcols.
Qed.

Lemma missing_column_falls_back_witness :
  "ocr_confidence" ∈ ["is_expired"; "ocr_confidence"] /\
  cin_without_confidence !! "ocr_confidence" = None /\
  ScoringService.features cin_only_service !! "cin"
  = Some ["is_expired"; "ocr_confidence"] /\
  ScoringService.score_cin cin_only_service cin_without_confidence
  = ScoringService._fallback_cin_score cin_without_confidence.
Proof.
  assert (Hc : "ocr_confidence" ∈ ["is_expired"; "ocr_confidence"])
    by (apply elem_of_cons; right; apply elem_of_cons; left; reflexivity).
  assert (Hm : cin_without_confidence !! "ocr_confidence" = None)
    by reflexivity.
  assert (Hf : ScoringService.features cin_only_service !! "cin"
               = Some ["is_expired"; "ocr_confidence"]) by reflexivity.
  split; [exact Hc|]. split; [exact Hm|]. split; [exact Hf|].
  exact (proj1 (missing_column_falls_back cin_only_service
                  cin_without_confidence ["is_expired"; "ocr_confidence"]
                  "ocr_confidence" Hc Hm) Hf).
Defined.


(** ** Praise and warnings of an analysis *)

(** A string is not among the listed, different ones. *)
Ltac not_listed :=
  repeat match goal with
         | H : _ ∈ _ :: _ |- _ =>
             apply elem_of_cons in H as [H|H]; [discriminate H|]
         | H : _ ∈ [] |- _ => apply elem_of_nil in H; destruct H
         end.

(** X29: an analysis that praises a document does not warn about it.  A
    pay slip or tax declaration recommended as a strong application has a
    monthly income of at least 15000 resp. 10000, no issue, and no other
    recommendation; a bank statement praised for its cash flow has a final
    balance of at least 10000, is not reported for a low balance, and
    carries no other recommendation. *)
Theorem praise_excludes_warnings (self : DocumentAnalyzer.Extractors)
    (text document_type : string) (d : DocumentAnalyzer.Analyzed) :
  DocumentAnalyzer.analyze_single_document self text document_type = Some d ->
  match d with
  | DocumentAnalyzer.AnalyzedPaySlip a =>
      "Strong application - eligible for competitive rates"
      ∈ DocumentAnalyzer.pa_recommendations a ->
      15000 <= DocumentAnalyzer.pa_net_salary a /\
      DocumentAnalyzer.pa_issues a = [] /\
      DocumentAnalyzer.pa_recommendations a
      = ["Strong application - eligible for competitive rates"]
  | DocumentAnalyzer.AnalyzedTax a =>
      "Strong application - eligible for competitive rates"
      ∈ DocumentAnalyzer.ta_recommendations a ->
      10000 <= DocumentAnalyzer.ta_monthly_income a /\
      DocumentAnalyzer.ta_issues a = [] /\
      DocumentAnalyzer.ta_recommendations a
      = ["Strong application - eligible for competitive rates"]
  | DocumentAnalyzer.AnalyzedBank a =>
      "Good cash flow management" ∈ DocumentAnalyzer.ba_recommendations a ->
      10000 <= DocumentAnalyzer.ba_final_balance a /\
      ("Low bank balance" ∉ DocumentAnalyzer.ba_issues a) /\
      DocumentAnalyzer.ba_recommendations a = ["Good cash flow management"]
  | DocumentAnalyzer.AnalysisFailed _ => True
  end.
Proof.
  unfold DocumentAnalyzer.analyze_single_document.
  destruct (String.eqb document_type "PAY_SLIP").
  { intros [= <-]. cbn [DocumentAnalyzer.analyze_pay_slip
                        DocumentAnalyzer.pa_recommendations
                        DocumentAnalyzer.pa_net_salary
                        DocumentAnalyzer.pa_issues].
    set (net := DocumentAnalyzer._extract_net_salary self text).
    clearbody net.
    unfold DocumentAnalyzer._generate_recommendations,
      DocumentAnalyzer._identify_issues,
      DocumentAnalyzer._calculate_salary_score,
      DocumentAnalyzer.min_monthly_income.
    unfold_py. split_tests; cbn [app]; intros Hin;
      try lra; try solve [exfalso; not_listed];
      (split; [lra|split; reflexivity]). }
  destruct (String.eqb document_type "TAX_DECLARATION").
  { intros [= <-]. cbn [DocumentAnalyzer.analyze_tax_declaration
                        DocumentAnalyzer.ta_recommendations
                        DocumentAnalyzer.ta_monthly_income
                        DocumentAnalyzer.ta_issues].
    match goal with
    | |- context [DocumentAnalyzer._calculate_tax_compliance_score ?p ?i] =>
        pose proof (tax_compliance_score_range p i) as Hc;
        set (compliance :=
               DocumentAnalyzer._calculate_tax_compliance_score p i) in *
    end.
    clearbody compliance.
    set (monthly := if negb (Qeq_bool _ 0) then _ else _). clearbody monthly.
    unfold DocumentAnalyzer._generate_recommendations,
      DocumentAnalyzer._identify_issues,
      DocumentAnalyzer._calculate_salary_score,
      DocumentAnalyzer.min_monthly_income.
    unfold_py. split_tests; cbn [app]; intros Hin;
      try lra; try solve [exfalso; not_listed];
      (split; [|split; reflexivity]);
      (apply Qle_trans with (Py.round 10000 2);
       [rewrite (round_fixes_integer 10000 2); unfold inject_Z; lra
       |apply round_monotone; lra]). }
  destruct (String.eqb document_type "BANK_STATEMENT"); [|discriminate].
  intros [= <-]. unfold DocumentAnalyzer.analyze_bank_statement.
  destruct (DocumentAnalyzer._extract_transactions self text)
    as [[credits debits]|]; [|exact I].
  cbn [DocumentAnalyzer.ba_recommendations DocumentAnalyzer.ba_final_balance
       DocumentAnalyzer.ba_issues].
  pose proof (cash_flow_score_range (sum credits) (sum debits)) as Hc.
  set (cash_flow :=
         DocumentAnalyzer._calculate_cash_flow_score (sum credits)
           (sum debits)) in *.
  clearbody cash_flow.
  set (balance := DocumentAnalyzer._extract_final_balance self text).
  clearbody balance.
  set (total_debits := sum debits). clearbody total_debits.
  unfold DocumentAnalyzer._generate_balance_recommendations,
    DocumentAnalyzer._identify_balance_issues,
    DocumentAnalyzer._calculate_balance_score.
  unfold_py. split_tests; cbn [app]; intros Hin;
    try lra; try solve [exfalso; not_listed];
    (split; [lra|split; [intros Hlow; not_listed|reflexivity]]).
Qed.

Lemma praise_excludes_warnings_witness :
  exists a,
    DocumentAnalyzer.analyze_single_document sample_extractors "impots"
      "TAX_DECLARATION" = Some (DocumentAnalyzer.AnalyzedTax a) /\
    "Strong application - eligible for competitive rates"
    ∈ DocumentAnalyzer.ta_recommendations a /\
    10000 <= DocumentAnalyzer.ta_monthly_income a /\
    DocumentAnalyzer.ta_issues a = [] /\
    DocumentAnalyzer.ta_recommendations a
    = ["Strong application - eligible for competitive rates"].
Proof.
  eexists. split; [reflexivity|].
  assert (Hin : "Strong application - eligible for competitive rates"
                ∈ ["Strong application - eligible for competitive rates"])
    by (apply elem_of_cons; left; reflexivity).
  split; [exact Hin|].
  exact (praise_excludes_warnings sample_extractors "impots"
           "TAX_DECLARATION" _ eq_refl Hin).
Defined.
